(** * A shallow embedding of the logistics mobile client

  The development follows [src/lib/api.js] (the REST client: host
  discovery, the shared request wrapper, login, logout, token check,
  connection test, application start-up) and the login handler of
  [src/app/login.jsx].

  JavaScript promises are run to completion one after the other, as the
  [await] in the source does; every function of the client becomes a
  state transformer over a [World] that holds the module variable
  [API_BASE_URL], the contents of AsyncStorage, the pending timers and a
  journal of everything the code did to the outside (console lines,
  storage calls, timers, fetches, alerts).  What the outside answers
  (network, storage back end, clock, built-ins of the JavaScript engine)
  is a parameter, the [Platform]. *)

From stdpp Require Import base strings gmap list pretty.
From Stdlib Require Import Ascii ZArith Lia.

Open Scope string_scope.
Open Scope Z_scope.
Open Scope list_scope.

#[local] Set Warnings "-register-all".

(** ** Strings, as the methods of [String.prototype] the client uses *)

Module Str.

(** [s.startsWith(p)] *)
Fixpoint startsWith (p s : string) : bool :=
  match p, s with
  | EmptyString, _ => true
  | String a p', String b s' => Ascii.eqb a b && startsWith p' s'
  | String _ _, EmptyString => false
  end.

(** the rest of [s] after its first [n] characters *)
Fixpoint skip (n : nat) (s : string) : string :=
  match n, s with
  | O, _ => s
  | S n', String _ rest => skip n' rest
  | S _, EmptyString => EmptyString
  end.

(** [hay.includes(needle)] *)
Fixpoint includes (needle hay : string) : bool :=
  startsWith needle hay ||
  match hay with
  | EmptyString => false
  | String _ rest => includes needle rest
  end.

(** [s.replace(pat, rep)] with a string pattern: the first occurrence only *)
Fixpoint replace_first (pat rep s : string) : string :=
  if startsWith pat s then rep +:+ skip (String.length pat) s
  else match s with
       | EmptyString => EmptyString
       | String c rest => String c (replace_first pat rep rest)
       end.

(** [s.replace(/\/$/, '')]: one slash at the very end is dropped *)
Fixpoint strip_trailing_slash (s : string) : string :=
  match s with
  | EmptyString => EmptyString
  | String c rest =>
      match rest with
      | EmptyString => if Ascii.eqb c "/"%char then EmptyString else s
      | _ => String c (strip_trailing_slash rest)
      end
  end.

(** [s.split(sep)] for a separator of one character *)
Fixpoint split (sep : ascii) (s : string) : list string :=
  match s with
  | EmptyString => [EmptyString]
  | String c rest =>
      if Ascii.eqb c sep then EmptyString :: split sep rest
      else match split sep rest with
           | [] => [String c EmptyString]
           | w :: ws => String c w :: ws
           end
  end.

(** a string is falsy exactly when it is empty *)
Definition truthy (s : string) : bool :=
  match s with EmptyString => false | _ => true end.

(** [a || b] on values that are a string or [undefined]/[null] *)
Definition or_else (a b : option string) : option string :=
  match a with
  | Some s => if truthy s then a else b
  | None => b
  end.

(** the white space of [String.prototype.trim], one code point at a time
    in the UTF-8 form the strings of this file have: TAB, LF, VT, FF, CR,
    SP; U+00A0; U+1680, U+2000..U+200A, U+2028, U+2029, U+202F, U+205F,
    U+3000, U+FEFF *)
Definition is_ws1 (a : ascii) : bool :=
  let x := Ascii.nat_of_ascii a in
  ((9 <=? x) && (x <=? 13))%nat || (x =? 32)%nat.

Definition is_ws2 (a b : ascii) : bool :=
  ((Ascii.nat_of_ascii a =? 194) && (Ascii.nat_of_ascii b =? 160))%nat.

Definition is_ws3 (a b c : ascii) : bool :=
  let x := Ascii.nat_of_ascii a in
  let y := Ascii.nat_of_ascii b in
  let z := Ascii.nat_of_ascii c in
  ((x =? 225) && (y =? 154) && (z =? 128)
   || (x =? 226) && (y =? 128)
      && ((128 <=? z) && (z <=? 138) || (z =? 168) || (z =? 169) || (z =? 175))
   || (x =? 226) && (y =? 129) && (z =? 159)
   || (x =? 227) && (y =? 128) && (z =? 128)
   || (x =? 239) && (y =? 187) && (z =? 191))%nat.

(** [s.trimStart()] *)
Fixpoint trimStart (s : string) : string :=
  match s with
  | EmptyString => EmptyString
  | String a r =>
      if is_ws1 a then trimStart r
      else match r with
           | String b r2 =>
               if is_ws2 a b then trimStart r2
               else match r2 with
                    | String c r3 => if is_ws3 a b c then trimStart r3 else s
                    | EmptyString => s
                    end
           | EmptyString => s
           end
  end.

(** [s] is white space only *)
Fixpoint blank (s : string) : bool :=
  match s with
  | EmptyString => true
  | String a r =>
      if is_ws1 a then blank r
      else match r with
           | String b r2 =>
               if is_ws2 a b then blank r2
               else match r2 with
                    | String c r3 => is_ws3 a b c && blank r3
                    | EmptyString => false
                    end
           | EmptyString => false
           end
  end.

(** [s.trimEnd()] *)
Fixpoint trimEnd (s : string) : string :=
  match s with
  | EmptyString => EmptyString
  | String a r => if blank s then EmptyString else String a (trimEnd r)
  end.

(** [s.trim()] *)
Definition trim (s : string) : string := trimEnd (trimStart s).

(** [s] cut at the first occurrence of [sep]: what stands before it and
    what stands after it *)
Fixpoint cut (sep s : string) : option (string * string) :=
  if startsWith sep s then Some (EmptyString, skip (String.length sep) s)
  else match s with
       | EmptyString => None
       | String c rest =>
           match cut sep rest with
           | Some (before, after) => Some (String c before, after)
           | None => None
           end
       end.

(** [s.split(sep)[0]] and [s.split(sep)[1]] for a separator that is not
    empty *)
Definition split_0 (sep s : string) : string :=
  match cut sep s with
  | Some (before, _) => before
  | None => s
  end.

Definition split_1 (sep s : string) : option string :=
  match cut sep s with
  | Some (_, after) => Some (split_0 sep after)
  | None => None
  end.

End Str.

(** ** JavaScript values that cross the client: parsed JSON *)

(** Numbers are the integers: status codes, [Date.now()] and the [exp] of a
  token are integers, on which the engine's doubles are exact.  The model
  covers the integers that a double holds exactly and that print in plain
  decimal notation, those of magnitude below 10^21; fractions and larger
  numbers are outside it: no [JSON_parse] of a platform yields them. *)
Inductive Json : Type :=
| JNull
| JBool (b : bool)
| JNum (n : Z)
| JStr (s : string)
| JArr (items : list Json)
| JObj (fields : list (string * Json)).

(** An exception value: the [name] and [message] of an [Error]. *)
Record JsError := mkError { err_name : string; err_message : string }.

Definition Error_ (msg : string) : JsError := mkError "Error" msg.
Definition TypeError_ (msg : string) : JsError := mkError "TypeError" msg.
Definition SyntaxError_ (msg : string) : JsError := mkError "SyntaxError" msg.
(** what [fetch] rejects with once its signal is aborted *)
Definition AbortError_ : JsError := mkError "AbortError" "Aborted".

Module Js.

(** [undefined] is [None]; everything else is [Some] JSON value *)
Definition truthy (v : option Json) : bool :=
  match v with
  | None | Some JNull => false
  | Some (JBool b) => b
  | Some (JNum n) => negb (n =? 0)
  | Some (JStr s) => Str.truthy s
  | Some (JArr _) | Some (JObj _) => true
  end.

(** [a || b] *)
Definition or_else (a b : option Json) : option Json :=
  if truthy a then a else b.

Fixpoint assoc (k : string) (fields : list (string * Json)) : option Json :=
  match fields with
  | [] => None
  | (k', v) :: rest => if String.eqb k k' then Some v else assoc k rest
  end.

(** [v.k] for a key that no prototype defines ([message], [error], [exp],
    [success], [user], ...): reading a property of [null] or [undefined]
    throws a [TypeError], every other value answers [undefined] unless it
    is an object that has the key. *)
Definition get (v : option Json) (k : string) : JsError + option Json :=
  match v with
  | None => inl (TypeError_ ("Cannot read property '" +:+ k +:+ "' of undefined"))
  | Some JNull => inl (TypeError_ ("Cannot read property '" +:+ k +:+ "' of null"))
  | Some (JObj fields) => inr (assoc k fields)
  | Some _ => inr None
  end.

Definition join (sep : string) (parts : list string) : string :=
  match parts with
  | [] => ""
  | p :: ps => fold_left (fun acc q => acc +:+ sep +:+ q) ps p
  end.

(** [String(v)] *)
Fixpoint ToString (v : Json) : string :=
  match v with
  | JNull => "null"
  | JBool true => "true"
  | JBool false => "false"
  | JNum n => pretty n
  | JStr s => s
  | JArr items =>
      join "," (map (fun x => match x with JNull => "" | _ => ToString x end) items)
  | JObj _ => "[object Object]"
  end.

Definition ToString_opt (v : option Json) : string :=
  match v with None => "undefined" | Some j => ToString j end.

(** [String(e)] for an error object: [Error.prototype.toString] *)
Definition error_ToString (e : JsError) : string :=
  if negb (Str.truthy (err_name e)) then err_message e
  else if negb (Str.truthy (err_message e)) then err_name e
  else err_name e +:+ ": " +:+ err_message e.

(** [e?.message || e] inside a template, and [e?.message || String(e)] *)
Definition error_text (e : JsError) : string :=
  if Str.truthy (err_message e) then err_message e else error_ToString e.

(** [v?.k], for a key that no prototype defines: [undefined] where [v] is
    [null] or [undefined] *)
Definition get_opt (v : option Json) (k : string) : option Json :=
  match v with
  | Some (JObj fields) => assoc k fields
  | _ => None
  end.

End Js.

(** ** What the client exchanges with the outside *)

(** A response of [fetch]: its status and its body.  [response.ok] is the
    status being in 200..299, as the Fetch standard has it. *)
Record Response := mkResponse { res_status : Z; res_text : string }.

Definition res_ok (r : Response) : bool :=
  (200 <=? res_status r) && (res_status r <? 300).

(** The arguments of one [fetch].  [req_signal] is the abort signal: an
    [AbortController] of the client is only ever aborted by the one timer
    armed on the line after its creation, so the signal is named by that
    timer. *)
Record Request := mkRequest {
  req_url : string;
  req_method : string;
  req_headers : gmap string string;
  req_body : option string;
  req_signal : option nat
}.

(** What the network does with a request, left alone: an answer or a
    failure after so many milliseconds, or nothing at all. *)
Inductive NetReply : Type :=
| Reply (latency : Z) (r : Response)
| Refuse (latency : Z) (e : JsError)
| Silent.

(** How an [async] function ends: its promise resolves, rejects, or stays
    pending for ever. *)
Inductive Outcome (A : Type) : Type :=
| Returns (a : A)
| Throws (e : JsError)
| Hangs.

Arguments Returns {A} a.
Arguments Throws {A} e.
Arguments Hangs {A}.

Inductive Level : Type := LLog | LWarn | LError.

Inductive LogArg : Type :=
| AStr (s : string)
| AErr (e : JsError)
| AObj (fields : list (string * string))
| AObjs (rows : list (list (string * string))).

Inductive StorageOp : Type :=
| GetItem (key : string)
| SetItem (key value : string)
| MultiRemove (keys : list string).

Inductive Event : Type :=
| EConsole (lvl : Level) (args : list LogArg)
| EStorage (op : StorageOp) (rejected : option JsError)
| ESetTimeout (id : nat) (ms : Z)
| EClearTimeout (id : nat)
| EFetch (req : Request) (result : Outcome Response)
| EAlert (title message : string) (buttons : list string)
| ENavigate (path : string).

(** Everything the client does not decide.  The network, the storage back
    end and the clock may answer differently as time goes by: they see the
    journal of what has happened so far. *)
Record Platform := mkPlatform {
  process_env : option (gmap string string);
  expoConfig_hostUri : option Json;
  manifest2_debuggerHost : option Json;
  manifest_debuggerHost : option Json;
  Platform_OS : string;
  network : list Event -> Request -> NetReply;
  storage_fault : list Event -> StorageOp -> option JsError;
  Date_now : list Event -> Z;
  JSON_parse : string -> option Json;
  JSON_stringify : Json -> string;
  atob : option (string -> option string);
  Buffer_from_base64 : string -> string;
  StringToNumber : string -> option Z
}.

Record World := mkWorld {
  API_BASE_URL : string;
  AsyncStorage : gmap string string;
  timers : gmap nat Z;
  next_timer : nat;
  journal : list Event
}.

(** line 9 of api.js *)
Definition initial_API_BASE_URL : string := "http://16.176.194.83:5000/api".

Definition boot (store : gmap string string) : World :=
  mkWorld initial_API_BASE_URL store ∅ 0%nat [].

(** ** Asynchronous code as a state transformer *)

Definition M (A : Type) : Type := World -> Outcome A * World.

#[global] Instance M_ret : MRet M := fun A a w => (Returns a, w).

#[global] Instance M_bind : MBind M := fun A B k m w =>
  match m w with
  | (Returns a, w') => k a w'
  | (Throws e, w') => (Throws e, w')
  | (Hangs, w') => (Hangs, w')
  end.

Definition throw {A} (e : JsError) : M A := fun w => (Throws e, w).

(** [try { body } catch (e) { handler }] *)
Definition try_catch {A} (body : M A) (handler : JsError -> M A) : M A :=
  fun w =>
    match body w with
    | (Throws e, w') => handler e w'
    | other => other
    end.

(** [try { body } finally { fin }]: [fin] runs however [body] ends, unless
    it never ends. *)
Definition try_finally {A} (body : M A) (fin : M unit) : M A :=
  fun w =>
    match body w with
    | (Hangs, w') => (Hangs, w')
    | (r, w') =>
        match fin w' with
        | (Returns _, w'') => (r, w'')
        | (Throws e, w'') => (Throws e, w'')
        | (Hangs, w'') => (Hangs, w'')
        end
    end.

Definition emit (e : Event) : M unit :=
  fun w => (Returns tt,
            mkWorld (API_BASE_URL w) (AsyncStorage w) (timers w) (next_timer w)
                    (journal w ++ [e])).

Definition console_log (args : list LogArg) : M unit := emit (EConsole LLog args).
Definition console_warn (args : list LogArg) : M unit := emit (EConsole LWarn args).
Definition console_error (args : list LogArg) : M unit := emit (EConsole LError args).

Definition get_API_BASE_URL : M string := fun w => (Returns (API_BASE_URL w), w).

Definition set_API_BASE_URL (url : string) : M unit :=
  fun w => (Returns tt,
            mkWorld url (AsyncStorage w) (timers w) (next_timer w) (journal w)).

(** [setTimeout(() => controller.abort(), ms)] *)
Definition setTimeout (ms : Z) : M nat :=
  fun w =>
    let id := next_timer w in
    (Returns id,
     mkWorld (API_BASE_URL w) (AsyncStorage w) (<[id := ms]> (timers w)) (S id)
             (journal w ++ [ESetTimeout id ms])).

Definition clearTimeout (id : nat) : M unit :=
  fun w => (Returns tt,
            mkWorld (API_BASE_URL w) (AsyncStorage w) (delete id (timers w))
                    (next_timer w) (journal w ++ [EClearTimeout id])).

(** How a [fetch] ends given the delay of the timer behind its signal (if
    one is pending) and what the network does: an answer that arrives
    before the timer fires wins, otherwise the timer aborts the request.
    The boolean tells whether the timer fired. *)
Definition settle (deadline : option Z) (reply : NetReply) : Outcome Response * bool :=
  match reply, deadline with
  | Reply l r, Some d => if l <? d then (Returns r, false) else (Throws AbortError_, true)
  | Refuse l e, Some d => if l <? d then (Throws e, false) else (Throws AbortError_, true)
  | Silent, Some _ => (Throws AbortError_, true)
  | Reply _ r, None => (Returns r, false)
  | Refuse _ e, None => (Throws e, false)
  | Silent, None => (Hangs, false)
  end.

Section Client.

Variable P : Platform.

(** *** The platform calls *)

Definition fetch (req : Request) : M Response :=
  fun w =>
    let deadline := match req_signal req with
                    | Some t => timers w !! t
                    | None => None
                    end in
    let '(result, fired) := settle deadline (network P (journal w) req) in
    let timers' := match req_signal req with
                   | Some t => if fired then delete t (timers w) else timers w
                   | None => timers w
                   end in
    (result,
     mkWorld (API_BASE_URL w) (AsyncStorage w) timers' (next_timer w)
             (journal w ++ [EFetch req result])).

(** One call of AsyncStorage: the back end either rejects it, and nothing
    is read or written, or carries it out. *)
Definition storage_call {A} (op : StorageOp) (result : A)
    (store' : gmap string string) : M A :=
  fun w =>
    match storage_fault P (journal w) op with
    | Some e =>
        (Throws e,
         mkWorld (API_BASE_URL w) (AsyncStorage w) (timers w) (next_timer w)
                 (journal w ++ [EStorage op (Some e)]))
    | None =>
        (Returns result,
         mkWorld (API_BASE_URL w) store' (timers w) (next_timer w)
                 (journal w ++ [EStorage op None]))
    end.

Definition remove_keys (keys : list string) (store : gmap string string) : gmap string string :=
  foldr delete store keys.

Definition getItem (key : string) : M (option string) :=
  fun w => storage_call (GetItem key) (AsyncStorage w !! key) (AsyncStorage w) w.

Definition setItem (key value : string) : M unit :=
  fun w => storage_call (SetItem key value) tt (<[key := value]> (AsyncStorage w)) w.

Definition multiRemove (keys : list string) : M unit :=
  fun w => storage_call (MultiRemove keys) tt (remove_keys keys (AsyncStorage w)) w.

Definition Date_now_ : M Z := fun w => (Returns (Date_now P (journal w)), w).

(** an expression that throws or has a value, inside an [async] function *)
Definition eval {A} (r : JsError + A) : M A :=
  match r with
  | inl e => throw e
  | inr a => mret a
  end.

(** [JSON.parse(text)] *)
Definition parse (text : string) : JsError + Json :=
  match JSON_parse P text with
  | Some v => inr v
  | None => inl (SyntaxError_ "JSON Parse error")
  end.

(** [response.json()] *)
Definition res_json (r : Response) : M Json := eval (parse (res_text r)).

(** *** detectApiBaseUrl (api.js, lines 14-85) *)

Definition env_var (name : string) : option string :=
  match process_env P with
  | Some env => env !! name
  | None => None
  end.

(** [/^https?:\/\//.test(s)] *)
Definition is_http_url (s : string) : bool :=
  Str.startsWith "http://" s || Str.startsWith "https://" s.

(** lines 25-33: the host of the development machine *)
Definition packagerHost : option string :=
  match Js.or_else (Js.or_else (expoConfig_hostUri P) (manifest2_debuggerHost P))
                   (manifest_debuggerHost P) with
  | Some (JStr hostUri) =>
      if Str.truthy hostUri then head (Str.split ":"%char hostUri) else None
  | _ => None
  end.

(** line 35 *)
Definition emulatorHost : string :=
  if String.eqb (Platform_OS P) "android" then "10.0.2.2" else "localhost".

(** [.filter(Boolean)] on an array of strings, [null]s and [undefined]s *)
Definition filter_Boolean (l : list (option string)) : list string :=
  omap (fun x => match x with
                 | Some s => if Str.truthy s then Some s else None
                 | None => None
                 end) l.

(** lines 38-46 *)
Definition candidates (envHost storedHost packagerHost : option string)
    (emulatorHost : string) : list string :=
  filter_Boolean
    [ envHost;
      storedHost;
      packagerHost;
      Some "16.176.194.83";
      Some "16.176.194.83";
      Some emulatorHost;
      Some "localhost" ].

Record Variant := mkVariant { base : string; health : string }.

(** lines 49-55 *)
Definition variants (host : string) : list Variant :=
  [ mkVariant ("http://" +:+ host +:+ "/api") ("http://" +:+ host +:+ "/api/health");
    mkVariant ("http://" +:+ host +:+ ":5000/api") ("http://" +:+ host +:+ ":5000/api/health");
    mkVariant ("https://" +:+ host +:+ "/api") ("https://" +:+ host +:+ "/api/health");
    mkVariant ("https://" +:+ host +:+ ":5000/api") ("https://" +:+ host +:+ ":5000/api/health") ].

(** [fetch(url, { signal })]: a GET without headers or body *)
Definition probe_request (url : string) (timeoutId : nat) : Request :=
  mkRequest url "GET" ∅ None (Some timeoutId).

(** lines 57-74, the body of the loop over the variants: [Some b] when the
    body executes [return b], [None] when the loop goes on. *)
Definition tryVariant (host : string) (v : Variant) : M (option bool) :=
  timeoutId ← setTimeout 3500;
  try_finally
    (try_catch
       (console_log [AStr ("🔎 Probing " +:+ health v)];;
        res ← fetch (probe_request (health v) timeoutId);
        if res_ok res then
          set_API_BASE_URL (Str.strip_trailing_slash (base v));;
          try_catch (setItem "lastApiHost" host) (fun _ => mret tt);;
          url ← get_API_BASE_URL;
          console_log [AStr ("✅ API host detected: " +:+ url)];;
          mret (Some true)
        else
          console_log [AStr ("⚠️ Health endpoint not OK (" +:+ pretty (res_status res)
                             +:+ ") for " +:+ health v)];;
          mret None)
       (fun e =>
          console_log [AStr ("❌ Probe failed for " +:+ health v +:+ ": "
                             +:+ Js.error_text e)];;
          mret None))
    (clearTimeout timeoutId).

Fixpoint tryVariants (host : string) (vs : list Variant) : M bool :=
  match vs with
  | [] => mret false
  | v :: rest =>
      r ← tryVariant host v;
      match r with
      | Some b => mret b
      | None => tryVariants host rest
      end
  end.

(** lines 48-77 *)
Definition tryHost (host : string) : M bool := tryVariants host (variants host).

(** lines 79-84 *)
Fixpoint tryHosts (hosts : list string) : M string :=
  match hosts with
  | [] =>
      url ← get_API_BASE_URL;
      console_warn [AStr "⚠️ API host detection failed. Using fallback:"; AStr url];;
      mret url
  | host :: rest =>
      ok ← tryHost host;
      if (ok : bool) then get_API_BASE_URL else tryHosts rest
  end.

(** lines 16-17: the full base URL of the environment, when it is one *)
Definition envBase : option string :=
  match env_var "EXPO_PUBLIC_API_BASE" with
  | Some b => if Str.truthy b && is_http_url b then Some b else None
  | None => None
  end.

(** line 23 *)
Definition envHost : option string :=
  Str.or_else (env_var "EXPO_PUBLIC_API_HOST") (env_var "API_HOST").

Definition detectApiBaseUrl : M string :=
  match envBase with
  | Some b =>
      set_API_BASE_URL (Str.strip_trailing_slash b);;
      url ← get_API_BASE_URL;
      console_log [AStr ("✅ Using explicit API base: " +:+ url)];;
      mret url
  | None =>
      storedHost ← try_catch (getItem "lastApiHost") (fun _ => mret None);
      tryHosts (candidates envHost storedHost packagerHost emulatorHost)
  end.

(** *** api.request (api.js, lines 105-157) *)

(** the [options] argument: each field may be left out *)
Record Options := mkOptions {
  opt_method : option string;
  opt_headers : option (gmap string string);
  opt_body : option Json
}.

Definition no_options : Options := mkOptions None None None.

(** line 115: [options.method || 'GET'] *)
Definition config_method (options : Options) : string :=
  match opt_method options with
  | Some m => if Str.truthy m then m else "GET"
  | None => "GET"
  end.

(** line 118: [token ? { Authorization: `Bearer ${token}` } : {}] *)
Definition bearer (token : option string) : gmap string string :=
  match token with
  | Some t => if Str.truthy t then {[ "Authorization" := "Bearer " +:+ t ]} else ∅
  | None => ∅
  end.

(** lines 116-120: in an object literal a later spread overwrites what
    stands before it, so the caller's headers come first in the union,
    which keeps the left value of a key *)
Definition config_headers (token : option string) (options : Options) : gmap string string :=
  default ∅ (opt_headers options)
    ∪ bearer token
    ∪ {[ "Content-Type" := "application/json" ]}.

(** lines 121-123 *)
Definition config_body (options : Options) : option string :=
  match opt_body options with
  | Some b =>
      if Js.truthy (Some b) then
        Some (match b with JStr s => s | _ => JSON_stringify P b end)
      else None
  | None => None
  end.

Definition cannot_connect (url : string) : string :=
  "Cannot connect to server at " +:+ url +:+ ". Please check:
" +:+ "1. Backend server is running
" +:+ "2. Correct IP address
" +:+ "3. Both devices on same network".

Definition request (endpoint : string) (options : Options) : M Json :=
  url0 ← get_API_BASE_URL;
  console_log [AStr ("🔄 API Call: " +:+ url0 +:+ endpoint)];;
  token ← try_catch (getItem "accessToken")
            (fun error => console_warn [AStr "Storage error:"; AErr error];; mret None);
  timeoutId ← setTimeout 10000;
  try_finally
    (try_catch
       (url ← get_API_BASE_URL;
        response ← fetch (mkRequest (url +:+ endpoint) (config_method options)
                            (config_headers token options) (config_body options)
                            (Some timeoutId));
        let text := res_text response in
        let data := if Str.truthy text
                    then match JSON_parse P text with Some v => v | None => JNull end
                    else JNull in
        if negb (res_ok response) then
          throw (Error_ (if Str.truthy text
                         then "HTTP " +:+ pretty (res_status response) +:+ ": " +:+ text
                         else "Request failed (" +:+ pretty (res_status response) +:+ ")"))
        else mret data)
       (fun error =>
          url ← get_API_BASE_URL;
          console_error [AStr "❌ API Request Failed:";
                         AObj [("url", url +:+ endpoint); ("error", Js.error_text error)]];;
          if String.eqb (err_name error) "AbortError" then
            throw (Error_ ("Request timed out (10s) contacting " +:+ url +:+ "."))
          else if Str.includes "Network request failed" (err_message error) then
            throw (Error_ (cannot_connect url))
          else throw error))
    (clearTimeout timeoutId).

(** *** clearAuth, login, logout, isAuthenticated (lines 172-211) *)

Definition clearAuth : M unit :=
  multiRemove ["accessToken"; "refreshToken"; "userData"].

(** a property read that may throw *)
Definition prop (v : option Json) (k : string) : M (option Json) := eval (Js.get v k).

Definition login_body (email password : string) : string :=
  JSON_stringify P (JObj [("email", JStr email); ("password", JStr password)]).

Definition login (email password : string) : M Json :=
  url ← get_API_BASE_URL;
  response ← fetch (mkRequest (url +:+ "/auth/login") "POST"
                      {[ "Content-Type" := "application/json" ]}
                      (Some (login_body email password)) None);
  if negb (res_ok response) then
    errorData ← try_catch (res_json response) (fun _ => mret (JObj []));
    message ← prop (Some errorData) "message";
    reason ← (if Js.truthy message then mret message
              else error ← prop (Some errorData) "error";
                   mret (Js.or_else error (Some (JStr "Login failed"))));
    throw (Error_ (Js.ToString_opt reason))
  else res_json response.

Definition logout : M unit :=
  try_catch (request "/logout" (mkOptions (Some "POST") None None);; mret tt)
            (fun _ => mret tt);;
  clearAuth.

(** [Number(v)]; [None] is NaN *)
Definition ToNumber (v : option Json) : option Z :=
  match v with
  | None => None
  | Some JNull => Some 0
  | Some (JBool b) => Some (if b then 1 else 0)
  | Some (JNum n) => Some n
  | Some (JStr s) => StringToNumber P s
  | Some (JArr items) => StringToNumber P (Js.ToString (JArr items))
  | Some (JObj _) => None
  end.

(** [a * 1000 > b] on numbers; a comparison with NaN is false *)
Definition times_1000_gt (a : option Z) (b : Z) : bool :=
  match a with
  | Some n => b <? n * 1000
  | None => false
  end.

(** lines 203-205: the payload segment of the token, decoded with [atob]
    where the engine has it, with [Buffer] otherwise; a token without a
    second segment hands [undefined] to the decoder *)
Definition decode_segment (segment : option string) : JsError + string :=
  match atob P with
  | Some decode =>
      match decode (default "undefined" segment) with
      | Some s => inr s
      | None => inl (mkError "InvalidCharacterError" "Invalid character")
      end
  | None =>
      match segment with
      | Some s => inr (Buffer_from_base64 P s)
      | None => inl (TypeError_ "The first argument must be of type string")
      end
  end.

Definition isAuthenticated : M bool :=
  token ← getItem "accessToken";
  userData ← getItem "userData";
  match token, userData with
  | Some t, Some u =>
      if Str.truthy t && Str.truthy u then
        try_catch
          (decoded ← eval (decode_segment (Str.split "."%char t !! 1%nat));
           payload ← eval (parse decoded);
           exp ← prop (Some payload) "exp";
           now ← Date_now_;
           mret (times_1000_gt (ToNumber exp) now))
          (fun _ => mret false)
      else mret false
  | _, _ => mret false
  end.

(** *** testConnection and initializeApp (lines 389-438) *)

(** lines 392-396 *)
Definition healthUrls (url : string) : list string :=
  filter_Boolean
    [ Some (url +:+ "/health");
      if Str.includes ":5000" url then None
      else Some (Str.replace_first "/api" "" url +:+ ":5000/api/health") ].

Definition health_request (h : string) : Request :=
  mkRequest h "GET" {[ "Content-Type" := "application/json" ]} None None.

(** lines 398-416, the loop over the health URLs with the failures
    collected so far; lines 417-421 once the loop is over *)
Fixpoint testUrls (hs : list string) (failures : list (list (string * string))) : M bool :=
  match hs with
  | [] =>
      url ← get_API_BASE_URL;
      console_error [AStr "❌ All health probes failed for base:"; AStr url];;
      (if negb (bool_decide (failures = []))
       then console_log [AStr "📋 Failure summary:"; AObjs failures]
       else mret tt);;
      mret false
  | h :: rest =>
      r ← try_catch
            (res ← fetch (health_request h);
             if res_ok res then
               try_catch (res_json res;; mret tt) (fun _ => mret tt);;
               console_log [AStr ("✅ Connection test successful via " +:+ h)];;
               url ← get_API_BASE_URL;
               (if Str.includes ":5000" h && negb (Str.includes ":5000" url) then
                  set_API_BASE_URL (Str.replace_first "/api" "" url +:+ ":5000/api");;
                  url' ← get_API_BASE_URL;
                  console_log [AStr "🔁 Updated API_BASE_URL to explicit port 5000:"; AStr url']
                else mret tt);;
               mret (inl true)
             else mret (inr failures))
            (fun error =>
               let msg := Js.error_text error in
               console_warn [AStr ("⚠️ Health probe failed for " +:+ h +:+ ":"); AStr msg];;
               mret (inr (failures ++ [[("url", h); ("error", msg)]])));
      match r with
      | inl b => mret b
      | inr failures' => testUrls rest failures'
      end
  end.

Definition testConnection : M bool :=
  url ← get_API_BASE_URL;
  console_log [AStr "🔍 Testing connection to:"; AStr url];;
  testUrls (healthUrls url) [].

Definition initializeApp : M bool :=
  detectApiBaseUrl;;
  isConnected ← testConnection;
  isConnected ← (if negb isConnected then detectApiBaseUrl;; testConnection
                 else mret isConnected);
  (if negb isConnected
   then console_log [AStr "⚠️ API unreachable. Edit host or ensure backend running."]
   else mret tt);;
  mret isConnected.

(** line 450 *)
Definition getApiDiagnostics : M string := get_API_BASE_URL.

End Client.

(** ** The login screen (src/app/login.jsx) *)

Inductive ConnectionStatus : Type := checking | connected | failed.

(** the React state of the screen *)
Record LoginState := mkLoginState {
  email : string;
  password : string;
  loading : bool;
  connectionStatus : ConnectionStatus;
  apiBase : string;
  showDebug : bool;
  overrideInput : string
}.

Definition setLoading (b : bool) (s : LoginState) : LoginState :=
  mkLoginState (email s) (password s) b (connectionStatus s) (apiBase s)
               (showDebug s) (overrideInput s).

(** lines 11-20 *)
Definition initial_LoginState : LoginState :=
  mkLoginState "" "" false checking "" false "".

Definition connection_error_text : string :=
  "Cannot connect to server. Please check:

• Backend is running
• Correct IP address in lib/api.js
• Same WiFi network".

Section LoginScreen.

Variable P : Platform.

(** [login] of contexts/AuthContext and [ensureAfterLogin] of
    services/LocationPermissionService: modules of the application that the
    screen imports *)
Variable AuthContext_login : list (string * option Json) -> M unit.
Variable ensureAfterLogin : M bool.

(** lines 22-30: the effect run when the screen is mounted *)
Definition onMount (s : LoginState) : M LoginState :=
  isConnected ← initializeApp P;
  diag ← getApiDiagnostics;
  mret (mkLoginState (email s) (password s) (loading s)
          (if (isConnected : bool) then connected else failed)
          diag (showDebug s) diag).

(** lines 54-65 *)
Definition transformedUser (user : option Json) : M (list (string * option Json)) :=
  id ← prop user "id";
  fullname ← prop user "fullname";
  username ← prop user "username";
  email ← prop user "email";
  role ← prop user "role";
  employeeId ← prop user "employeeId";
  contact ← prop user "contact";
  address ← prop user "address";
  branchId ← prop user "branchId";
  photo ← prop user "photo";
  mret [ ("Account_id", id); ("Fullname", fullname); ("Username", username);
         ("Email", email); ("Role", role); ("EmployeeID", employeeId);
         ("Contact", contact); ("Address", address); ("BranchID", branchId);
         ("Photo", photo) ].

(** lines 32-88; the state handed back is the one after the [setLoading]
    calls of the handler *)
Definition handleLogin (s : LoginState) : M LoginState :=
  match connectionStatus s with
  | failed =>
      emit (EAlert "Connection Error" connection_error_text ["OK"]);;
      mret s
  | _ =>
      if negb (Str.truthy (email s)) || negb (Str.truthy (password s)) then
        emit (EAlert "Error" "Please enter both email and password." []);;
        mret s
      else
        try_finally
          (try_catch
             (console_log [AStr "🔄 Attempting login..."];;
              resp ← login P (email s) (password s);
              success ← prop (Some resp) "success";
              user ← (if Js.truthy success then prop (Some resp) "user" else mret success);
              if Js.truthy user then
                console_log [AStr "✅ Login successful, storing user data"];;
                u ← transformedUser user;
                AuthContext_login u;;
                try_catch
                  (ready ← ensureAfterLogin;
                   if negb ready
                   then console_log [AStr "Location not ready yet; proceeding to dashboard"]
                   else mret tt)
                  (fun _ => mret tt);;
                console_log [AStr "✅ Navigating to dashboard"];;
                emit (ENavigate "/dashboard")
              else
                message ← prop (Some resp) "message";
                throw (Error_ (Js.ToString_opt
                                 (Js.or_else message (Some (JStr "Login failed"))))))
             (fun e =>
                console_error [AStr "Login error:"; AErr e];;
                emit (EAlert "Login Failed"
                        (if Str.truthy (err_message e) then err_message e
                         else "An error occurred during login") [])))
          (mret tt);;
        mret (setLoading false s)
  end.

(** line 164: [disabled={loading || connectionStatus === 'failed'}] *)
Definition loginButton_disabled (s : LoginState) : bool :=
  loading s || match connectionStatus s with failed => true | _ => false end.

(** lines 161-167: a press of the login button, the one place that calls
    [handleLogin]; a disabled [TouchableOpacity] does not call its
    [onPress] *)
Definition pressLogin (s : LoginState) : M LoginState :=
  if loginButton_disabled s then mret s else handleLogin s.

End LoginScreen.

(** ** The rest of the client *)

Section RestOfClient.

Variable P : Platform.

(** *** getAuthHeaders (api.js, lines 88-102) *)

Definition json_content_type : gmap string string :=
  {[ "Content-Type" := "application/json" ]}.

(** line 95: [user?.Account_id ? { 'X-User-Id': String(user.Account_id) } : {}] *)
Definition user_id_header (user : Json) : gmap string string :=
  let account := Js.get_opt (Some user) "Account_id" in
  if Js.truthy account then {[ "X-User-Id" := Js.ToString_opt account ]} else ∅.

Definition getAuthHeaders : M (gmap string string) :=
  early ← try_catch
            (userData ← getItem P "userData";
             match userData with
             | Some u =>
                 if Str.truthy u then
                   user ← eval (parse P u);
                   mret (Some (user_id_header user ∪ json_content_type))
                 else mret None
             | None => mret None
             end)
            (fun error =>
               console_error [AStr "Error getting auth headers:"; AErr error];;
               mret None);
  mret (default json_content_type early).

(** *** refreshToken and getCurrentUser (lines 159-170, 213-216) *)

Definition refresh_body (token : string) : string :=
  JSON_stringify P (JObj [("refreshToken", JStr token)]).

Definition refreshToken : M (option Json) :=
  stored ← getItem P "refreshToken";
  match stored with
  | Some t =>
      if Str.truthy t then
        url ← get_API_BASE_URL;
        res ← fetch P (mkRequest (url +:+ "/refresh-token") "POST" json_content_type
                        (Some (refresh_body t)) None);
        if negb (res_ok res) then throw (Error_ "Failed to refresh token")
        else
          body ← res_json P res;
          prop (Some body) "accessToken"
      else throw (Error_ "No refresh token")
  | None => throw (Error_ "No refresh token")
  end.

Definition getCurrentUser : M Json :=
  userData ← getItem P "userData";
  match userData with
  | Some u => if Str.truthy u then eval (parse P u) else mret JNull
  | None => mret JNull
  end.

(** *** The data methods built on api.request (lines 219-235, 308-321) *)

Definition getDashboardData : M Json := request P "/dashboard" no_options.

(** the identifier as the template literal prints it *)
Definition getDeliveryDetails (id : string) : M Json :=
  request P ("/deliveries/" +:+ id) no_options.

Definition getUserProfile : M Json := request P "/profile" no_options.

Definition getDeliveryAssignments : M Json := request P "/delivery-assignments" no_options.

(** lines 231-234: the body of an envelope [{ success, data }] *)
Definition unwrap_envelope (res : Json) : Json :=
  match res with
  | JObj fields =>
      match Js.assoc "data" fields with
      | Some data => if Js.truthy (Js.assoc "success" fields) then data else res
      | None => res
      end
  | _ => res
  end.

Definition getDeliveryAssignment (id : string) : M Json :=
  res ← request P ("/delivery-assignments/" +:+ id) no_options;
  mret (unwrap_envelope res).

Definition getMyAssignments : M Json :=
  headers ← getAuthHeaders;
  request P "/delivery-assignments/my-assignments"
    (mkOptions None (Some (delete "Content-Type" headers)) None).

Definition getMyCompletedDeliveries : M Json :=
  headers ← getAuthHeaders;
  request P "/delivery-assignments/my-completed"
    (mkOptions None (Some (delete "Content-Type" headers)) None).

(** *** setApiBaseUrl (lines 441-448) *)

(** line 444: [API_BASE_URL.split('://')[1]?.split('/')[0] || ''] *)
Definition host_of_base (url : string) : string :=
  match Str.split_1 "://" url with
  | Some rest => default "" (head (Str.split "/"%char rest))
  | None => ""
  end.

(** The write of line 444 is not awaited: it is started before the console
    line and the return, and AsyncStorage serves its calls in the order
    they are made, which is the order of the journal. *)
Definition setApiBaseUrl (url : Json) : M string :=
  match url with
  | JStr s =>
      if Str.truthy (Str.trim s) then
        set_API_BASE_URL (Str.strip_trailing_slash s);;
        base ← get_API_BASE_URL;
        try_catch (setItem P "lastApiHost" (host_of_base base)) (fun _ => mret tt);;
        console_log [AStr "🔧 Manual API_BASE_URL override:"; AStr base];;
        get_API_BASE_URL
      else get_API_BASE_URL
  | _ => get_API_BASE_URL
  end.

(** *** getCompletedDeliveries and getActiveAssignments (lines 505-524) *)

(** the two functions differ in the path and in the words of the error *)
Definition fetch_list (path what : string) : M Json :=
  url ← get_API_BASE_URL;
  res ← fetch P (mkRequest (url +:+ path) "GET" ∅ None None);
  let text := res_text res in
  let data := if Str.truthy text
              then match JSON_parse P text with Some v => v | None => JNull end
              else JNull in
  if negb (res_ok res) then
    throw (Error_ ("HTTP " +:+ pretty (res_status res) +:+ ": Failed to fetch " +:+ what))
  else mret (if Js.truthy (Some data) then data else JArr []).

Definition getCompletedDeliveries : M Json :=
  fetch_list "/delivery-assignments/completed" "completed deliveries".

Definition getActiveAssignments : M Json :=
  fetch_list "/delivery-assignments/active" "active assignments".

(** *** applyOverride (login.jsx, lines 98-103) *)

Definition applyOverride (s : LoginState) : M LoginState :=
  if negb (Str.truthy (Str.trim (overrideInput s))) then mret s
  else
    updated ← setApiBaseUrl (JStr (Str.trim (overrideInput s)));
    emit (EAlert "API Base Updated" updated []);;
    mret (mkLoginState (email s) (password s) (loading s) (connectionStatus s)
            updated (showDebug s) (overrideInput s)).

End RestOfClient.

(** ** Reading a journal *)

(** the [fetch] calls of a stretch of journal, oldest first *)
Definition fetches (d : list Event) : list (Request * Outcome Response) :=
  omap (fun e => match e with EFetch q r => Some (q, r) | _ => None end) d.

(** a health probe counts as reachable when [fetch] resolved with [res.ok] *)
Definition reachable (r : Outcome Response) : bool :=
  match r with
  | Returns res => res_ok res
  | _ => false
  end.

Definition unreachable (f : Request * Outcome Response) : Prop := reachable f.2 = false.

(** [fs] are the probes of a scan through [plan] that goes in order and
    stops at the first reachable one, [hit]; without a hit the whole plan
    has been probed. *)
Definition scan_stops (plan : list Variant) (fs : list (Request * Outcome Response))
    (hit : option Variant) : Prop :=
  match hit with
  | None => map (fun f => req_url f.1) fs = map health plan /\ Forall unreachable fs
  | Some v =>
      exists pre post fs0 f,
        plan = pre ++ v :: post /\
        fs = fs0 ++ [f] /\
        map (fun f => req_url f.1) fs0 = map health pre /\
        req_url f.1 = health v /\
        Forall unreachable fs0 /\
        reachable f.2 = true
  end.

(** the rounds of start-up, as the console shows them *)
Inductive Phase : Type := DetectionDone | TestStarted | TestPassed | TestFailed.

Definition phase_of (e : Event) : option Phase :=
  match e with
  | EConsole LLog [AStr s] =>
      if Str.startsWith "✅ Using explicit API base: " s
         || Str.startsWith "✅ API host detected: " s then Some DetectionDone
      else if Str.startsWith "✅ Connection test successful via " s then Some TestPassed
      else None
  | EConsole LLog [AStr s; AStr _] =>
      if String.eqb s "🔍 Testing connection to:" then Some TestStarted else None
  | EConsole LWarn [AStr s; AStr _] =>
      if String.eqb s "⚠️ API host detection failed. Using fallback:"
      then Some DetectionDone else None
  | EConsole LError [AStr s; AStr _] =>
      if String.eqb s "❌ All health probes failed for base:" then Some TestFailed else None
  | _ => None
  end.

Definition phases (d : list Event) : list Phase := omap phase_of d.

(** the network did not answer before a timer of [deadline] milliseconds *)
Definition late (deadline : Z) (reply : NetReply) : Prop :=
  match reply with
  | Reply l _ | Refuse l _ => deadline <= l
  | Silent => True
  end.

(** how a connection test ended *)
Inductive Verdict : Type := Passed | Failed | Pending.

Definition verdict_of (r : Outcome bool) : option Verdict :=
  match r with
  | Returns true => Some Passed
  | Returns false => Some Failed
  | Hangs => Some Pending
  | Throws _ => None
  end.

Definition verdict_phases (v : Verdict) : list Phase :=
  match v with
  | Passed => [TestPassed]
  | Failed => [TestFailed]
  | Pending => []
  end.

(** ** Names for what the statements talk about *)

(** what line 36 of api.js reads in world [w]: the cached host, or [null]
    when the storage call is rejected *)
Definition storedHost (P : Platform) (w : World) : option string :=
  match storage_fault P (journal w) (GetItem "lastApiHost") with
  | Some _ => None
  | None => AsyncStorage w !! "lastApiHost"
  end.

(** the variants of the hosts, host after host *)
Definition probe_plan (hosts : list string) : list Variant := flat_map variants hosts.

(** the first lines of the journal of [api.request]: the call is logged,
    the token is read, a rejected read is logged *)
Definition request_prelude (P : Platform) (endpoint : string) (w : World) : list Event :=
  let j0 := [EConsole LLog [AStr ("🔄 API Call: " +:+ API_BASE_URL w +:+ endpoint)]] in
  let fault := storage_fault P (journal w ++ j0) (GetItem "accessToken") in
  j0 ++ [EStorage (GetItem "accessToken") fault] ++
  match fault with
  | Some e => [EConsole LWarn [AStr "Storage error:"; AErr e]]
  | None => []
  end.

(** the token [api.request] works with in world [w] *)
Definition read_token (P : Platform) (endpoint : string) (w : World) : option string :=
  match storage_fault P
          (journal w ++ [EConsole LLog [AStr ("🔄 API Call: " +:+ API_BASE_URL w +:+ endpoint)]])
          (GetItem "accessToken") with
  | Some _ => None
  | None => AsyncStorage w !! "accessToken"
  end.

(** The candidate list in the words of the specification: environment
    override, cached host, development machine, the hard-coded hosts, the
    emulator loopback, and nothing after it. *)
Definition spec_candidates (envHost storedHost packagerHost : option string)
    (emulatorHost : string) : list string :=
  filter_Boolean
    [ envHost; storedHost; packagerHost;
      Some "16.176.194.83"; Some "16.176.194.83";
      Some emulatorHost ].

(** The message of a failed login in the words of the specification: the
    [message] field of the body, else its [error] field, else the fixed
    text. *)
Definition spec_login_message (body : Json) : string :=
  let field k := match body with JObj fields => Js.assoc k fields | _ => None end in
  if Js.truthy (field "message") then Js.ToString_opt (field "message")
  else if Js.truthy (field "error") then Js.ToString_opt (field "error")
  else "Login failed".

(** the [exp] of the payload of a token, as a number; [None] when the
    token cannot be decoded or parsed, or has no number there *)
Definition token_expiry (P : Platform) (token : string) : option Z :=
  match decode_segment P (Str.split "."%char token !! 1%nat) with
  | inr decoded =>
      match parse P decoded with
      | inr payload =>
          match Js.get (Some payload) "exp" with
          | inr exp => ToNumber P exp
          | inl _ => None
          end
      | inl _ => None
      end
  | inl _ => None
  end.

(** The answer of isAuthenticated in the words of the specification: false
    when the token or the user data is absent or the token cannot be
    parsed, and true only when its [exp], in seconds, lies after [now], in
    milliseconds. *)
Definition spec_isAuthenticated (P : Platform) (store : gmap string string) (now : Z) : bool :=
  match store !! "accessToken", store !! "userData" with
  | Some token, Some userData =>
      Str.truthy token && Str.truthy userData &&
      match token_expiry P token with
      | Some exp => now <? exp * 1000
      | None => false
      end
  | _, _ => false
  end.

(** the keys api.clearAuth removes *)
Definition credential_keys : list string := ["accessToken"; "refreshToken"; "userData"].

(** ** Concrete platforms, for the runs at the end of the file *)

Definition network_failure : JsError := TypeError_ "Network request failed".

(** the double quote *)
Definition dq : string := String "034"%char EmptyString.

(** the JSON text [{"exp":4102444800}]: a token payload that expires in 2100 *)
Definition payload_2100 : string := "{" +:+ dq +:+ "exp" +:+ dq +:+ ":4102444800}".

(** that payload in base64, as a token carries it *)
Definition payload_2100_base64 : string := "eyJleHAiOjQxMDI0NDQ4MDB9".

(** Decoding base64, for the runs: what [Buffer.from(s, 'base64')] gives
    for a text of the standard or of the URL-safe alphabet whose content
    is ASCII. *)
Module Base64.

(** the value of a character of the two alphabets *)
Definition value (a : ascii) : option N :=
  let n := N_of_ascii a in
  if ((65 <=? n) && (n <=? 90))%N then Some (n - 65)%N
  else if ((97 <=? n) && (n <=? 122))%N then Some (n - 71)%N
  else if ((48 <=? n) && (n <=? 57))%N then Some (n + 4)%N
  else if ((n =? 43) || (n =? 45))%N then Some 62%N
  else if ((n =? 47) || (n =? 95))%N then Some 63%N
  else None.

(** the six-bit groups of a text, up to its padding; a character outside
    the alphabets is passed over *)
Fixpoint sextets (s : string) : list N :=
  match s with
  | EmptyString => []
  | String a rest =>
      if Ascii.eqb a "="%char then []
      else match value a with
           | Some v => v :: sextets rest
           | None => sextets rest
           end
  end.

(** four groups of six bits are three bytes *)
Fixpoint octets (l : list N) : list N :=
  match l with
  | a :: b :: c :: d :: rest =>
      (a * 4 + b / 16)%N :: ((b mod 16) * 16 + c / 4)%N :: ((c mod 4) * 64 + d)%N
        :: octets rest
  | [a; b; c] => [(a * 4 + b / 16)%N; ((b mod 16) * 16 + c / 4)%N]
  | [a; b] => [(a * 4 + b / 16)%N]
  | _ => []
  end.

Definition decode (s : string) : string :=
  foldr (fun n acc => String (ascii_of_N n) acc) EmptyString (octets (sextets s)).

End Base64.

(** a parser that knows the three bodies of the runs below *)
Definition demo_JSON_parse (s : string) : option Json :=
  if String.eqb s "null" then Some JNull
  else if String.eqb s "{}" then Some (JObj [])
  else if String.eqb s payload_2100 then Some (JObj [("exp", JNum 4102444800)])
  else None.

(** a printer that knows the body of a login *)
Definition demo_JSON_stringify (v : Json) : string :=
  match v with
  | JObj [("email", JStr e); ("password", JStr p)] =>
      "{" +:+ dq +:+ "email" +:+ dq +:+ ":" +:+ dq +:+ e +:+ dq +:+ ","
          +:+ dq +:+ "password" +:+ dq +:+ ":" +:+ dq +:+ p +:+ dq +:+ "}"
  | _ => Js.ToString v
  end.

(** an Android device without environment variables or Expo constants;
    the engine has no [atob], and its [Buffer] decodes base64 *)
Definition android (net : list Event -> Request -> NetReply)
    (fault : list Event -> StorageOp -> option JsError) : Platform :=
  mkPlatform None None None None "android" net fault
    (fun _ => 1700000000000) demo_JSON_parse demo_JSON_stringify
    None Base64.decode (fun _ => None).

Definition storage_works : list Event -> StorageOp -> option JsError :=
  fun _ _ => None.

(** every read is rejected, writes are carried out *)
Definition reads_rejected : list Event -> StorageOp -> option JsError :=
  fun _ op => match op with
              | GetItem _ => Some (Error_ "Failed to read from storage")
              | _ => None
              end.

(** no server anywhere: every request fails after 5 ms *)
Definition net_offline : list Event -> Request -> NetReply :=
  fun _ _ => Refuse 5 network_failure.

(** nothing ever comes back *)
Definition net_silent : list Event -> Request -> NetReply :=
  fun _ _ => Silent.

(** the back end listens on port 5000 of the emulator's host machine *)
Definition net_emulator : list Event -> Request -> NetReply :=
  fun _ req =>
    if Str.startsWith "http://10.0.2.2:5000/api" (req_url req)
    then Reply 20 (mkResponse 200 "{}")
    else Refuse 5 network_failure.

(** a server that turns every request down with status 401 and the body
    [null] *)
Definition net_null_body : list Event -> Request -> NetReply :=
  fun _ _ => Reply 20 (mkResponse 401 "null").

Definition offline_device : Platform := android net_offline storage_works.
Definition silent_device : Platform := android net_silent storage_works.
Definition emulator_device : Platform := android net_emulator storage_works.
Definition null_body_device : Platform := android net_null_body storage_works.
Definition broken_storage_device : Platform := android net_emulator reads_rejected.

(** a device that holds the credentials of a session *)
Definition signed_in_store : gmap string string :=
  {[ "accessToken" := "h." +:+ payload_2100_base64 +:+ ".s";
     "refreshToken" := "r";
     "userData" := "{}" ]}.

Definition session_token : string := "h." +:+ payload_2100_base64 +:+ ".s".

(** a fresh start of the application, without and with a session *)
Definition fresh_world : World := boot ∅.
Definition signed_in_world : World := boot signed_in_store.

(** the hosts an unconfigured Android device tries, and the hosts the
    specification lists for it *)
Definition offline_tried : list string :=
  candidates (envHost offline_device) (storedHost offline_device fresh_world)
             (packagerHost offline_device) (emulatorHost offline_device).

Definition offline_claimed : list string :=
  spec_candidates (envHost offline_device) (storedHost offline_device fresh_world)
                  (packagerHost offline_device) (emulatorHost offline_device).

(** the first variant of the emulator host *)
Definition emulator_http : Variant :=
  mkVariant "http://10.0.2.2/api" "http://10.0.2.2/api/health".

(** the modules the login screen imports, for the runs: a context that
    accepts the user, and a location service that is ready *)
Definition demo_AuthContext_login : list (string * option Json) -> M unit :=
  fun _ => mret tt.

Definition demo_ensureAfterLogin : M bool := mret true.

Definition failed_screen : LoginState :=
  mkLoginState "driver@example.com" "secret" false failed "" false "".

(** ** Names for the further properties *)

(** a probe that was answered, without success *)
Definition in_vain (f : Request * Outcome Response) : Prop :=
  reachable f.2 = false /\ f.2 <> Hangs.

(** What one connection test does on the network: [t] is the journal of a
    test that started with the base [base] and ended with verdict [v].
    The test makes GETs of the health URLs of the base, in their order and
    at least one; every probe before the last was answered without
    success; the test has passed when the last probe got an ok response,
    has failed when every URL was probed in vain, and is pending when the
    last probe is never answered. *)
Definition probes_of_test (base : string) (t : list Event) (v : Verdict) : Prop :=
  exists rest,
    map health_request (healthUrls base) = map fst (fetches t) ++ rest /\
    fetches t <> [] /\
    match v with
    | Passed =>
        exists fs0 f, fetches t = fs0 ++ [f] /\ Forall in_vain fs0 /\ reachable f.2 = true
    | Failed => Forall in_vain (fetches t) /\ rest = []
    | Pending =>
        exists fs0 f, fetches t = fs0 ++ [f] /\ Forall in_vain fs0 /\ f.2 = Hangs
    end.

(** One round of start-up from world [w]: a detection, which returns, and
    after it a connection test on the base the detection left, with
    verdict [v]; [w'] is the world after the test. *)
Definition startup_round (P : Platform) (w : World) (v : Verdict) (w' : World) : Prop :=
  let w1 := (detectApiBaseUrl P w).2 in
  exists dd t,
    (exists url, (detectApiBaseUrl P w).1 = Returns url) /\
    journal w1 = journal w ++ dd /\
    phases dd = [DetectionDone] /\
    w' = (testConnection P w1).2 /\
    verdict_of (testConnection P w1).1 = Some v /\
    journal w' = journal w1 ++ t /\
    phases t = TestStarted :: verdict_phases v /\
    probes_of_test (API_BASE_URL w1) t v.

(** line 435 of api.js *)
Definition unreachable_notice : string :=
  "⚠️ API unreachable. Edit host or ensure backend running.".

(** the alerts shown: title and message *)
Definition alerts (d : list Event) : list (string * string) :=
  omap (fun e => match e with EAlert t m _ => Some (t, m) | _ => None end) d.

(** the storage back end carries out every call *)
Definition storage_sound (P : Platform) : Prop :=
  forall j op, storage_fault P j op = None.

(** one of the fetches of [d] was answered with an ok response *)
Definition some_reachable (d : list Event) : Prop :=
  Exists (fun f => reachable f.2 = true) (fetches d).

(** a fetch that never settled; a fetch without signal; a fetch without
    Authorization header *)
Definition stalled (f : Request * Outcome Response) : Prop := f.2 = Hangs.
Definition unguarded (f : Request * Outcome Response) : Prop := req_signal f.1 = None.
Definition unsigned (f : Request * Outcome Response) : Prop :=
  req_headers f.1 !! "Authorization" = None.

(** no suffix of [p], [p] included, begins [t] *)
Fixpoint suffixes_miss (p t : string) : bool :=
  match p with
  | EmptyString => true
  | String _ p' => negb (Str.startsWith p t) && suffixes_miss p' t
  end.

(** no occurrence of [needle] can begin inside a string and end inside
    [t] put behind it *)
Definition no_straddle (needle t : string) : bool :=
  match needle with
  | EmptyString => true
  | String _ p => suffixes_miss p t
  end.

(** [s] begins with a white space character *)
Definition starts_ws (s : string) : bool :=
  match s with
  | EmptyString => false
  | String a r =>
      Str.is_ws1 a ||
      match r with
      | String b r2 =>
          Str.is_ws2 a b ||
          match r2 with
          | String c _ => Str.is_ws3 a b c
          | EmptyString => false
          end
      | EmptyString => false
      end
  end.

(** the first console line of api.testConnection in world [w] *)
Definition test_marker (w : World) : list Event :=
  [EConsole LLog [AStr "🔍 Testing connection to:"; AStr (API_BASE_URL w)]].

(** what api.request hands to fetch in world [w], and what the network
    does with it *)
Definition request_sent (P : Platform) (endpoint : string) (options : Options)
    (w : World) : Request :=
  mkRequest (API_BASE_URL w +:+ endpoint) (config_method options)
    (config_headers (read_token P endpoint w) options)
    (config_body P options) (Some (next_timer w)).

Definition request_reply (P : Platform) (endpoint : string) (options : Options)
    (w : World) : NetReply :=
  network P (journal w ++ request_prelude P endpoint w ++ [ESetTimeout (next_timer w) 10000])
    (request_sent P endpoint options w).

(** a response body as data: [null] when it is empty or is not JSON *)
Definition body_data (P : Platform) (text : string) : Json :=
  if Str.truthy text
  then match JSON_parse P text with Some v => v | None => JNull end
  else JNull.

(** the message for a response that is not ok *)
Definition http_error_text (res : Response) : string :=
  if Str.truthy (res_text res)
  then "HTTP " +:+ pretty (res_status res) +:+ ": " +:+ res_text res
  else "Request failed (" +:+ pretty (res_status res) +:+ ")".

(** what api.request throws for an error that reaches its catch block *)
Definition request_rethrown (url : string) (error : JsError) : JsError :=
  if String.eqb (err_name error) "AbortError"
  then Error_ ("Request timed out (10s) contacting " +:+ url +:+ ".")
  else if Str.includes "Network request failed" (err_message error)
       then Error_ (cannot_connect url)
       else error.

(** the user the login screen hands to the auth context, field by field *)
Definition transformed (user : Json) : list (string * option Json) :=
  let f := Js.get_opt (Some user) in
  [ ("Account_id", f "id"); ("Fullname", f "fullname"); ("Username", f "username");
    ("Email", f "email"); ("Role", f "role"); ("EmployeeID", f "employeeId");
    ("Contact", f "contact"); ("Address", f "address"); ("BranchID", f "branchId");
    ("Photo", f "photo") ].

(** world [w] after one more console line *)
Definition log_line (text : string) (w : World) : World :=
  mkWorld (API_BASE_URL w) (AsyncStorage w) (timers w) (next_timer w)
    (journal w ++ [EConsole LLog [AStr text]]).

(** the world in which the handler of the login button calls api.login *)
Definition attempt (w : World) : World :=
  mkWorld (API_BASE_URL w) (AsyncStorage w) (timers w) (next_timer w)
    (journal w ++ [EConsole LLog [AStr "🔄 Attempting login..."]]).

(** where the router was sent *)
Definition navigations (d : list Event) : list string :=
  omap (fun e => match e with ENavigate p => Some p | _ => None end) d.

(** a token of three segments, and a world that holds it *)
Definition jwt (header payload signature : string) : string :=
  header +:+ "." +:+ payload +:+ "." +:+ signature.

Definition with_token (token : string) (w : World) : World :=
  mkWorld (API_BASE_URL w) (<["accessToken" := token]> (AsyncStorage w)) (timers w)
          (next_timer w) (journal w).

(** the stored user as getAuthHeaders gets it in world [w]: the read is
    served, something is stored and it is JSON *)
Definition stored_user (P : Platform) (w : World) : option Json :=
  match storage_fault P (journal w) (GetItem "userData") with
  | Some _ => None
  | None =>
      match AsyncStorage w !! "userData" with
      | Some u => if Str.truthy u then JSON_parse P u else None
      | None => None
      end
  end.

(** the headers getAuthHeaders answers with in world [w] *)
Definition auth_headers (P : Platform) (w : World) : gmap string string :=
  match stored_user P w with
  | Some user => user_id_header user ∪ json_content_type
  | None => json_content_type
  end.

(** a value setApiBaseUrl takes for a URL: a string with something other
    than white space in it *)
Definition usable_url (url : Json) : bool :=
  match url with
  | JStr s => Str.truthy (Str.trim s)
  | _ => false
  end.

(** ** More platforms and worlds *)

(** the JSON text [{"success":true,"data":{"id":7},"user":{"id":7}}] and
    what it parses to *)
Definition envelope_text : string :=
  "{" +:+ dq +:+ "success" +:+ dq +:+ ":true,"
      +:+ dq +:+ "data" +:+ dq +:+ ":{" +:+ dq +:+ "id" +:+ dq +:+ ":7},"
      +:+ dq +:+ "user" +:+ dq +:+ ":{" +:+ dq +:+ "id" +:+ dq +:+ ":7}}".

Definition envelope_fields : list (string * Json) :=
  [ ("success", JBool true); ("data", JObj [("id", JNum 7)]);
    ("user", JObj [("id", JNum 7)]) ].

Definition envelope_JSON_parse (s : string) : option Json :=
  if String.eqb s envelope_text then Some (JObj envelope_fields) else demo_JSON_parse s.

(** a back end that answers every request with the envelope *)
Definition net_envelope : list Event -> Request -> NetReply :=
  fun _ _ => Reply 20 (mkResponse 200 envelope_text).

Definition envelope_device : Platform :=
  mkPlatform None None None None "android" net_envelope storage_works
    (fun _ => 1700000000000) envelope_JSON_parse demo_JSON_stringify
    None Base64.decode (fun _ => None).

(** a build with EXPO_PUBLIC_API_BASE set *)
Definition configured_base : string := "http://10.0.2.2:5000/api/".

Definition configured_device : Platform :=
  mkPlatform (Some {[ "EXPO_PUBLIC_API_BASE" := configured_base ]}) None None None
    "android" net_offline storage_works
    (fun _ => 1700000000000) demo_JSON_parse demo_JSON_stringify
    None Base64.decode (fun _ => None).

(** Expo Go on a phone: the packager runs on 192.168.1.7 *)
Definition expo_go_device : Platform :=
  mkPlatform None (Some (JStr "192.168.1.7:8081")) None None
    "android" net_offline storage_works
    (fun _ => 1700000000000) demo_JSON_parse demo_JSON_stringify
    None Base64.decode (fun _ => None).

(** worlds whose base is the emulator's host machine, on port 80 and on
    port 5000 *)
Definition port80_world : World := mkWorld "http://10.0.2.2/api" ∅ ∅ 0%nat [].
Definition emulator_world : World := mkWorld "http://10.0.2.2:5000/api" ∅ ∅ 0%nat [].

(** a device whose stored user data is damaged *)
Definition corrupt_world : World := boot {[ "userData" := "oops" ]}.

(** the login screen with the form filled in *)
Definition ready_screen : LoginState :=
  mkLoginState "driver@example.com" "secret" false connected "" false "".

(** the same form while the connection is still being checked, and the
    run of the mount effect on a device without network *)
Definition typed_screen : LoginState :=
  mkLoginState "driver@example.com" "secret" false checking "" false "".

Definition offline_mounted : Outcome LoginState * World :=
  onMount offline_device typed_screen fresh_world.

(** ** Tactics *)

Ltac unfold_monad :=
  unfold prop, res_json, eval, mbind, mret, M_bind, M_ret, throw, try_finally, try_catch,
    console_log, console_warn, console_error, emit, get_API_BASE_URL, set_API_BASE_URL,
    setTimeout, clearTimeout in *.

Ltac flatten_journal := rewrite <- ?app_assoc; cbn [app].

(** ** Facts about strings and journals *)

Example startsWith_http : Str.startsWith "http://" "http://10.0.2.2/api" = true.
Proof. reflexivity. Qed.

Example strip_one_slash :
  Str.strip_trailing_slash "https://api.example.com/api/" = "https://api.example.com/api".
Proof. reflexivity. Qed.

Example strip_none : Str.strip_trailing_slash "http://h/api" = "http://h/api".
Proof. reflexivity. Qed.

Example split_host : Str.split ":"%char "192.168.1.7:8081" = ["192.168.1.7"; "8081"].
Proof. reflexivity. Qed.

Example replace_api : Str.replace_first "/api" "" "http://h/api" = "http://h".
Proof. reflexivity. Qed.

Example includes_port : Str.includes ":5000" "http://16.176.194.83:5000/api" = true.
Proof. reflexivity. Qed.

Lemma fetches_app d1 d2 : fetches (d1 ++ d2) = fetches d1 ++ fetches d2.
Proof. apply omap_app. Qed.

Lemma phases_app d1 d2 : phases (d1 ++ d2) = phases d1 ++ phases d2.
Proof. apply omap_app. Qed.

(** a scan that found its hit does not look at what comes after *)
Lemma scan_app_hit p1 p2 fs v :
  scan_stops p1 fs (Some v) -> scan_stops (p1 ++ p2) fs (Some v).
Proof.
  intros (pre & post & fs0 & f & -> & -> & Hpre & Hf & Hun & Hok).
  exists pre, (post ++ p2), fs0, f. rewrite <- app_assoc. auto 10.
Qed.

(** a scan without a hit goes on with the rest of the plan *)
Lemma scan_app_miss p1 p2 fs1 fs2 hit :
  scan_stops p1 fs1 None -> scan_stops p2 fs2 hit ->
  scan_stops (p1 ++ p2) (fs1 ++ fs2) hit.
Proof.
  intros [Hurls Hun] H2. destruct hit as [v|].
  - destruct H2 as (pre & post & fs0 & f & -> & -> & Hpre & Hf & Hun0 & Hok).
    exists (p1 ++ pre), post, (fs1 ++ fs0), f.
    rewrite <- !app_assoc, !map_app, Hurls, Hpre.
    repeat split; auto. by apply Forall_app.
  - destruct H2 as [Hurls2 Hun2]. split.
    + by rewrite !map_app, Hurls, Hurls2.
    + by apply Forall_app.
Qed.

(** a timer that fires first turns any answer into an abort *)
Lemma settle_late d reply : late d reply -> settle (Some d) reply = (Throws AbortError_, true).
Proof.
  destruct reply as [l r|l e|]; cbn; intros H; try reflexivity;
    destruct (Z.ltb_spec l d); (lia || reflexivity).
Qed.

Lemma settle_in_time d l r : l < d -> settle (Some d) (Reply l r) = (Returns r, false).
Proof. intros H. cbn. destruct (Z.ltb_spec l d); (lia || reflexivity). Qed.

(** ** Host detection *)

Section Detection.

Variable P : Platform.

(** One probe: the timer is armed with 3500 ms, the health URL is fetched
    under its signal, the timer is cleared; the probe succeeds exactly when
    the fetch is reachable, and only then is anything changed. *)
Lemma tryVariant_spec host v w :
  let t := next_timer w in
  let req := probe_request (health v) t in
  let j1 := journal w ++ [ESetTimeout t 3500; EConsole LLog [AStr ("🔎 Probing " +:+ health v)]] in
  let result := (settle (Some 3500) (network P j1 req)).1 in
  exists tail,
    fetches tail = [] /\
    journal (tryVariant P host v w).2
      = journal w ++ [ESetTimeout t 3500; EConsole LLog [AStr ("🔎 Probing " +:+ health v)];
                      EFetch req result] ++ tail ++ [EClearTimeout t] /\
    timers (tryVariant P host v w).2 !! t = None /\
    if reachable result then
      (tryVariant P host v w).1 = Returns (Some true) /\
      API_BASE_URL (tryVariant P host v w).2 = Str.strip_trailing_slash (base v) /\
      phases tail = [DetectionDone]
    else
      (tryVariant P host v w).1 = Returns None /\
      API_BASE_URL (tryVariant P host v w).2 = API_BASE_URL w /\
      AsyncStorage (tryVariant P host v w).2 = AsyncStorage w /\
      phases tail = [].
Proof.
  intros t req j1 result. subst result j1 req t.
  unfold tryVariant. unfold_monad. unfold fetch, setItem, storage_call. cbn.
  rewrite lookup_insert_eq.
  flatten_journal.
  destruct (network P _ _) as [l r|l e|]; cbn.
  - destruct (l <? 3500); cbn.
    + destruct (res_ok r) eqn:Hok; cbn.
      * destruct (storage_fault P _ _); cbn; flatten_journal;
          eexists [_; _]; cbn; rewrite ?lookup_delete_eq, ?Hok; repeat split; reflexivity.
      * flatten_journal. eexists [_]; cbn; rewrite ?lookup_delete_eq, ?Hok;
          repeat split; reflexivity.
    + flatten_journal. eexists [_]; cbn; rewrite ?lookup_delete_eq; repeat split; reflexivity.
  - destruct (l <? 3500); cbn; flatten_journal;
      eexists [_]; cbn; rewrite ?lookup_delete_eq; repeat split; reflexivity.
  - flatten_journal. eexists [_]; cbn; rewrite ?lookup_delete_eq; repeat split; reflexivity.
Qed.

(** The loop over the variants of one host, by induction on the variants
    still to try. *)
Lemma tryVariants_spec host vs : forall w,
  exists d hit,
    journal (tryVariants P host vs w).2 = journal w ++ d /\
    scan_stops vs (fetches d) hit /\
    match hit with
    | Some v =>
        (tryVariants P host vs w).1 = Returns true /\
        API_BASE_URL (tryVariants P host vs w).2 = Str.strip_trailing_slash (base v) /\
        phases d = [DetectionDone]
    | None =>
        (tryVariants P host vs w).1 = Returns false /\
        API_BASE_URL (tryVariants P host vs w).2 = API_BASE_URL w /\
        AsyncStorage (tryVariants P host vs w).2 = AsyncStorage w /\
        phases d = []
    end.
Proof.
  induction vs as [|v rest IH]; intros w.
  - exists [], None. cbn. rewrite app_nil_r. repeat split; constructor.
  - destruct (tryVariant_spec host v w) as (tail & Htail & Hj & _ & Hres).
    cbn [tryVariants]. unfold mbind, M_bind.
    destruct (tryVariant P host v w) as [o w1]. cbn [fst snd] in *.
    set (req := probe_request (health v) (next_timer w)) in *.
    set (result := (settle (Some 3500) (network P _ req)).1) in *.
    assert (Hfs : forall d2, fetches (([ESetTimeout (next_timer w) 3500;
                     EConsole LLog [AStr ("🔎 Probing " +:+ health v)];
                     EFetch req result] ++ tail ++ [EClearTimeout (next_timer w)]) ++ d2)
                  = [(req, result)] ++ fetches d2).
    { intros d2. rewrite !fetches_app, Htail. reflexivity. }
    destruct (reachable result) eqn:Hr.
    + destruct Hres as (-> & Hapi & Hph).
      eexists; exists (Some v). split; [exact Hj|]. split.
      * exists [], rest, [], (req, result). specialize (Hfs []). rewrite app_nil_r in Hfs.
        rewrite Hfs. repeat split; auto.
      * repeat split; auto.
        unfold phases in *. cbn. rewrite omap_app, Hph. reflexivity.
    + destruct Hres as (-> & Hapi & Hst & Hph).
      destruct (IH w1) as (d2 & hit & Hj2 & Hscan & Hend).
      eexists; exists hit. split; [rewrite Hj2, Hj, <- app_assoc; reflexivity|]. split.
      * rewrite Hfs. apply (scan_app_miss [v] rest [(req, result)]); [|exact Hscan].
        split; [reflexivity|]. by repeat constructor.
      * assert (Hph' : phases (([ESetTimeout (next_timer w) 3500;
                     EConsole LLog [AStr ("🔎 Probing " +:+ health v)];
                     EFetch req result] ++ tail ++ [EClearTimeout (next_timer w)]) ++ d2)
                  = phases d2).
        { rewrite !phases_app, Hph. reflexivity. }
        rewrite Hph'. destruct hit; rewrite <- ?Hapi, <- ?Hst; exact Hend.
Qed.

(** The loop over the hosts, by induction on the hosts still to try. *)
Lemma tryHosts_spec hosts : forall w,
  exists d hit,
    journal (tryHosts P hosts w).2 = journal w ++ d /\
    scan_stops (probe_plan hosts) (fetches d) hit /\
    phases d = [DetectionDone] /\
    match hit with
    | Some v =>
        (tryHosts P hosts w).1 = Returns (Str.strip_trailing_slash (base v)) /\
        API_BASE_URL (tryHosts P hosts w).2 = Str.strip_trailing_slash (base v)
    | None =>
        (tryHosts P hosts w).1 = Returns (API_BASE_URL w) /\
        API_BASE_URL (tryHosts P hosts w).2 = API_BASE_URL w /\
        AsyncStorage (tryHosts P hosts w).2 = AsyncStorage w
    end.
Proof.
  induction hosts as [|host rest IH]; intros w.
  - exists [EConsole LWarn [AStr "⚠️ API host detection failed. Using fallback:";
                            AStr (API_BASE_URL w)]], None.
    cbn. repeat split; constructor.
  - destruct (tryVariants_spec host (variants host) w) as (d1 & hit1 & Hj1 & Hscan1 & Hend1).
    cbn [tryHosts]. unfold mbind, M_bind, tryHost.
    destruct (tryVariants P host (variants host) w) as [o w1]. cbn [fst snd] in *.
    destruct hit1 as [v|].
    + destruct Hend1 as (-> & Hapi & Hph).
      exists d1, (Some v). cbn. repeat split; auto.
      * apply (scan_app_hit (variants host) (probe_plan rest)), Hscan1.
      * by rewrite Hapi.
    + destruct Hend1 as (-> & Hapi & Hst & Hph).
      destruct (IH w1) as (d2 & hit & Hj2 & Hscan & Hph2 & Hend).
      exists (d1 ++ d2), hit. split; [rewrite Hj2, Hj1, <- app_assoc; reflexivity|]. split.
      * rewrite fetches_app. apply (scan_app_miss (variants host) (probe_plan rest)); assumption.
      * rewrite phases_app, Hph, Hph2. split; [reflexivity|].
        destruct hit; rewrite <- ?Hapi, <- ?Hst; exact Hend.
Qed.

(** Detection without a full base URL in the environment: the cached host
    is read, then the candidates are scanned. *)
Lemma detect_spec w :
  envBase P = None ->
  exists d hit,
    journal (detectApiBaseUrl P w).2
      = journal w ++ [EStorage (GetItem "lastApiHost")
                        (storage_fault P (journal w) (GetItem "lastApiHost"))] ++ d /\
    scan_stops (probe_plan (candidates (envHost P) (storedHost P w) (packagerHost P)
                                       (emulatorHost P)))
               (fetches d) hit /\
    phases d = [DetectionDone] /\
    match hit with
    | Some v =>
        (detectApiBaseUrl P w).1 = Returns (Str.strip_trailing_slash (base v)) /\
        API_BASE_URL (detectApiBaseUrl P w).2 = Str.strip_trailing_slash (base v)
    | None =>
        (detectApiBaseUrl P w).1 = Returns (API_BASE_URL w) /\
        API_BASE_URL (detectApiBaseUrl P w).2 = API_BASE_URL w /\
        AsyncStorage (detectApiBaseUrl P w).2 = AsyncStorage w
    end.
Proof.
  intros Henv. unfold detectApiBaseUrl, storedHost. rewrite Henv.
  unfold mbind, M_bind, try_catch, getItem, storage_call, mret, M_ret.
  destruct (storage_fault P (journal w) (GetItem "lastApiHost")) as [e|];
    match goal with |- context [tryHosts P ?hs ?w0] =>
      destruct (tryHosts_spec hs w0) as (d & hit & Hj & Hscan & Hph & Hend) end;
    exists d, hit; cbn [journal API_BASE_URL AsyncStorage] in *;
    rewrite Hj, <- app_assoc; auto.
Qed.

(** Detection always comes back, and the console shows one completed
    detection for it. *)
Lemma detect_total w :
  exists d url,
    journal (detectApiBaseUrl P w).2 = journal w ++ d /\
    (detectApiBaseUrl P w).1 = Returns url /\
    phases d = [DetectionDone].
Proof.
  destruct (envBase P) as [b|] eqn:Henv.
  - unfold detectApiBaseUrl. rewrite Henv. unfold_monad. cbn.
    eexists; eexists. split; [reflexivity|]. split; reflexivity.
  - destruct (detect_spec w Henv) as (d & hit & Hj & _ & Hph & Hend).
    destruct hit; destruct Hend as [Hret _];
      eexists; eexists; (split; [exact Hj|]); split; eassumption.
Qed.

Lemma reachable_iff result :
  reachable result = true <-> exists res, result = Returns res /\ res_ok res = true.
Proof.
  split.
  - destruct result as [res| |]; cbn; intros H; try discriminate. eauto.
  - intros (res & -> & H). exact H.
Qed.


(** C2, as amended.  Without a full base URL in the environment, the hosts
    detectApiBaseUrl tries are, in order: the host of the environment, the
    cached host, the host of the development machine, the two hard-coded
    hosts, the emulator loopback and, last, the literal host localhost,
    falsy entries removed. *)
Theorem candidates_end_with_localhost :
  (forall eh sh ph em,
     candidates eh sh ph em = spec_candidates eh sh ph em ++ ["localhost"])
  /\
  (forall w,
     envBase P = None ->
     exists d hit,
       journal (detectApiBaseUrl P w).2 = journal w ++ d /\
       scan_stops
         (probe_plan (spec_candidates (envHost P) (storedHost P w) (packagerHost P)
                                      (emulatorHost P) ++ ["localhost"]))
         (fetches d) hit).
Proof.
  assert (Hc : forall eh sh ph em,
             candidates eh sh ph em = spec_candidates eh sh ph em ++ ["localhost"]).
  { intros eh sh ph em. unfold candidates, spec_candidates, filter_Boolean.
    change [eh; sh; ph; Some "16.176.194.83"; Some "16.176.194.83"; Some em; Some "localhost"]
      with ([eh; sh; ph; Some "16.176.194.83"; Some "16.176.194.83"; Some em]
              ++ [Some "localhost"]).
    rewrite omap_app. reflexivity. }
  split; [exact Hc|].
  intros w Henv. rewrite <- Hc.
  destruct (detect_spec w Henv) as (d & hit & Hj & Hscan & _).
  eexists; exists hit. split; [exact Hj|]. rewrite fetches_app. exact Hscan.
Qed.

(** C3. The probe of a host: the health URLs of its four variants, in the
    order http, http on port 5000, https, https on port 5000; each probe is
    one GET of the health URL under a signal whose timer is armed with 3500
    ms before the fetch and cleared after it, so that an answer that has
    not come in before the timer fires ends the probe with an abort; a
    probe succeeds exactly when the fetch resolves with an ok response; the
    host is probed variant after variant until the first success. *)
Theorem tryHost_probes_health_variants host :
  map health (variants host)
    = [ "http://" +:+ host +:+ "/api/health";
        "http://" +:+ host +:+ ":5000/api/health";
        "https://" +:+ host +:+ "/api/health";
        "https://" +:+ host +:+ ":5000/api/health" ]
  /\
  (forall v w,
     let t := next_timer w in
     let req := mkRequest (health v) "GET" ∅ None (Some t) in
     let armed := [ESetTimeout t 3500; EConsole LLog [AStr ("🔎 Probing " +:+ health v)]] in
     let reply := network P (journal w ++ armed) req in
     exists result tail,
       journal (tryVariant P host v w).2
         = journal w ++ armed ++ [EFetch req result] ++ tail ++ [EClearTimeout t] /\
       fetches tail = [] /\
       timers (tryVariant P host v w).2 !! t = None /\
       (late 3500 reply -> result = Throws AbortError_) /\
       (forall l res, reply = Reply l res -> l < 3500 -> result = Returns res) /\
       ((tryVariant P host v w).1 = Returns (Some true)
        <-> exists res, result = Returns res /\ res_ok res = true) /\
       (tryVariant P host v w).1 = Returns (if reachable result then Some true else None))
  /\
  (forall w,
     exists d hit,
       journal (tryHost P host w).2 = journal w ++ d /\
       scan_stops (variants host) (fetches d) hit /\
       (tryHost P host w).1 = Returns (bool_decide (is_Some hit))).
Proof.
  split; [reflexivity|]. split.
  - intros v w t req armed reply.
    destruct (tryVariant_spec host v w) as (tail & Htail & Hj & Htm & Hres).
    fold t in Hj, Htm, Hres. change (probe_request (health v) t) with req in *.
    change (journal w ++ [ESetTimeout t 3500;
                          EConsole LLog [AStr ("🔎 Probing " +:+ health v)]])
      with (journal w ++ armed) in Hres.
    fold reply in Hj, Hres.
    exists (settle (Some 3500) reply).1, tail.
    split; [exact Hj|]. split; [exact Htail|]. split; [exact Htm|].
    split; [intros Hlate; by rewrite settle_late|].
    split; [intros l res -> Hl; by rewrite settle_in_time|].
    rewrite <- reachable_iff.
    destruct (reachable (settle (Some 3500) reply).1);
      destruct Hres as (-> & _); split; [split|reflexivity| split|reflexivity];
      congruence.
  - intros w. unfold tryHost.
    destruct (tryVariants_spec host (variants host) w) as (d & hit & Hj & Hscan & Hend).
    exists d, hit. repeat split; auto. destruct hit; cbn; apply Hend.
Qed.

(** C10. When the environment gives no full base URL and no probe of the
    call is reachable, detectApiBaseUrl leaves API_BASE_URL as it was and
    returns that value. *)
Theorem detect_failure_keeps_base w d :
  envBase P = None ->
  journal (detectApiBaseUrl P w).2 = journal w ++ d ->
  Forall unreachable (fetches d) ->
  API_BASE_URL (detectApiBaseUrl P w).2 = API_BASE_URL w /\
  (detectApiBaseUrl P w).1 = Returns (API_BASE_URL w).
Proof.
  intros Henv Hd Hall.
  destruct (detect_spec w Henv) as (d0 & hit & Hj & Hscan & _ & Hend).
  rewrite Hd in Hj. apply app_inv_head in Hj. subst d.
  rewrite fetches_app in Hall. cbn in Hall.
  destruct hit as [v|].
  - destruct Hscan as (pre & post & fs0 & f & _ & Hfs & _ & _ & _ & Hok).
    rewrite Hfs in Hall. apply Forall_app in Hall as [_ Hf].
    apply Forall_inv in Hf. unfold unreachable in Hf. congruence.
  - destruct Hend as (Hr & Ha & _). auto.
Qed.

End Detection.

(** ** The request wrapper *)

Section Requests.

Variable P : Platform.

(** The whole journal of one [api.request], and how it ends when the timer
    fires: by cases on the storage read, the answer of the network, the
    status and the kind of failure. *)
Lemma request_spec endpoint options w :
  let pre := request_prelude P endpoint w in
  let t := next_timer w in
  let req := mkRequest (API_BASE_URL w +:+ endpoint) (config_method options)
               (config_headers (read_token P endpoint w) options)
               (config_body P options) (Some t) in
  let reply := network P (journal w ++ pre ++ [ESetTimeout t 10000]) req in
  let result := (settle (Some 10000) reply).1 in
  exists mid,
    journal (request P endpoint options w).2
      = journal w ++ pre ++ [ESetTimeout t 10000; EFetch req result] ++ mid
          ++ [EClearTimeout t] /\
    fetches pre = [] /\
    fetches mid = [] /\
    timers (request P endpoint options w).2 !! t = None /\
    API_BASE_URL (request P endpoint options w).2 = API_BASE_URL w /\
    AsyncStorage (request P endpoint options w).2 = AsyncStorage w /\
    (request P endpoint options w).1 <> Hangs /\
    (result = Throws AbortError_ ->
     (request P endpoint options w).1
       = Throws (Error_ ("Request timed out (10s) contacting "
                         +:+ API_BASE_URL w +:+ "."))).
Proof.
  intros pre t req reply result. subst result reply req t pre.
  unfold request, request_prelude, read_token. unfold_monad.
  unfold fetch, getItem, storage_call. cbn.
  destruct (storage_fault P _ _) as [e0|]; cbn; flatten_journal; rewrite lookup_insert_eq.
  all: destruct (network P _ _) as [l r|l e|]; cbn.
  all: try (destruct (l <? 10000); cbn).
  all: try (destruct (res_ok r); cbn).
  all: try (destruct (err_name e =? "AbortError")%string eqn:Hname; cbn).
  all: try (destruct (Str.includes "Network request failed" (err_message e)); cbn).
  all: try (destruct (Str.includes "Network request failed" _); cbn).
  all: flatten_journal.
  all: first [ exists []; cbn; rewrite ?lookup_delete_eq; repeat split;
                 first [reflexivity | discriminate]
             | eexists [_]; cbn; rewrite ?lookup_delete_eq; repeat split;
                 first [reflexivity | discriminate
                       | intros [= ->]; cbn in *; congruence] ].
Qed.

(** C5. Every api.request arms a timer of 10 seconds and makes its one
    fetch under the signal of that timer; when the network has not
    answered when the timer fires, the call throws an error that says the
    request timed out after 10 s and names the base URL; however the call
    ends, it does end, the clearing of the timer is the last thing it
    does, and the timer is no longer pending. *)
Theorem request_guarded_by_timer endpoint options w :
  let t := next_timer w in
  exists pre req result mid,
    journal (request P endpoint options w).2
      = journal w ++ pre ++ [ESetTimeout t 10000; EFetch req result] ++ mid
          ++ [EClearTimeout t] /\
    fetches pre = [] /\
    fetches mid = [] /\
    req_signal req = Some t /\
    timers (request P endpoint options w).2 !! t = None /\
    (request P endpoint options w).1 <> Hangs /\
    (late 10000 (network P (journal w ++ pre ++ [ESetTimeout t 10000]) req) ->
     result = Throws AbortError_ /\
     (request P endpoint options w).1
       = Throws (Error_ ("Request timed out (10s) contacting "
                         +:+ API_BASE_URL w +:+ "."))).
Proof.
  intros t.
  destruct (request_spec endpoint options w)
    as (mid & Hj & Hpre & Hmid & Htm & _ & _ & Hend & Habort).
  eexists; eexists; eexists; exists mid.
  split; [exact Hj|]. split; [exact Hpre|]. split; [exact Hmid|].
  split; [reflexivity|]. split; [exact Htm|]. split; [exact Hend|].
  intros Hlate. subst t. pose proof (settle_late _ _ Hlate) as Hs.
  split; [|apply Habort]; by rewrite Hs.
Qed.

Lemma config_headers_lookup token options k :
  config_headers token options !! k
    = match default ∅ (opt_headers options) !! k with
      | Some v => Some v
      | None =>
          match bearer token !! k with
          | Some v => Some v
          | None => ({[ "Content-Type" := "application/json" ]} : gmap string string) !! k
          end
      end.
Proof.
  unfold config_headers. rewrite !lookup_union.
  destruct (default ∅ (opt_headers options) !! k), (bearer token !! k),
    (({[ "Content-Type" := "application/json" ]} : gmap string string) !! k); reflexivity.
Qed.

(** C6. The one fetch of api.request carries [Authorization: Bearer
    <token>] when the read of accessToken is served and yields a token, and
    no Authorization header of its own making when nothing is stored or the
    read is rejected; whatever the caller passes in options.headers is sent
    as passed, also where it names a header the wrapper sets.  A token is a
    string that is not empty: line 118 tests the truthiness of what was
    read, and the empty string counts as no token. *)
Theorem request_attaches_bearer endpoint options w :
  let caller := default ∅ (opt_headers options) in
  let fault := storage_fault P
                 (journal w ++ [EConsole LLog [AStr ("🔄 API Call: " +:+ API_BASE_URL w
                                                     +:+ endpoint)]])
                 (GetItem "accessToken") in
  exists d req result,
    journal (request P endpoint options w).2 = journal w ++ d /\
    fetches d = [(req, result)] /\
    (forall tok,
       fault = None -> AsyncStorage w !! "accessToken" = Some tok -> tok <> "" ->
       caller !! "Authorization" = None ->
       req_headers req !! "Authorization" = Some ("Bearer " +:+ tok)) /\
    (fault <> None \/ AsyncStorage w !! "accessToken" = None
       \/ AsyncStorage w !! "accessToken" = Some "" ->
     caller !! "Authorization" = None ->
     req_headers req !! "Authorization" = None) /\
    (forall k v, caller !! k = Some v -> req_headers req !! k = Some v) /\
    (caller !! "Content-Type" = None ->
     req_headers req !! "Content-Type" = Some "application/json").
Proof.
  intros caller fault.
  destruct (request_spec endpoint options w) as (mid & Hj & Hpre & Hmid & _).
  eexists; eexists; eexists. split; [exact Hj|]. split.
  { rewrite !fetches_app, Hpre, Hmid. reflexivity. }
  cbn [req_headers]. unfold read_token. fold fault. fold caller.
  split; [|split; [|split]].
  - intros tok -> Hstored Hne Hcaller.
    rewrite config_headers_lookup. fold caller. rewrite Hcaller, Hstored.
    destruct tok; [congruence|]. reflexivity.
  - intros Hnone Hcaller.
    rewrite config_headers_lookup. fold caller. rewrite Hcaller.
    destruct fault; [reflexivity|].
    destruct Hnone as [Hf|[Hs|Hs]]; [congruence|rewrite Hs..]; reflexivity.
  - intros k v Hk. rewrite config_headers_lookup. fold caller. rewrite Hk. reflexivity.
  - intros Hcaller. rewrite config_headers_lookup. fold caller. rewrite Hcaller.
    destruct fault as [e|]; [reflexivity|].
    destruct (AsyncStorage w !! "accessToken") as [[|c tok]|]; reflexivity.
Qed.

End Requests.

(** ** Sessions: login, logout, the token check *)

Section Sessions.

Variable P : Platform.

(** One login: a single POST without a signal; nothing of the world but
    the journal changes.  A response that is not ok throws the message the
    specification describes, except for a body that parses to [null]. *)
Lemma login_spec email password w :
  let req := mkRequest (API_BASE_URL w +:+ "/auth/login") "POST"
               {[ "Content-Type" := "application/json" ]}
               (Some (login_body P email password)) None in
  let result := (settle None (network P (journal w) req)).1 in
  journal (login P email password w).2 = journal w ++ [EFetch req result] /\
  API_BASE_URL (login P email password w).2 = API_BASE_URL w /\
  AsyncStorage (login P email password w).2 = AsyncStorage w /\
  timers (login P email password w).2 = timers w /\
  match result with
  | Returns res =>
      if res_ok res then
        (login P email password w).1
          = match JSON_parse P (res_text res) with
            | Some v => Returns v
            | None => Throws (SyntaxError_ "JSON Parse error")
            end
      else
        match JSON_parse P (res_text res) with
        | Some JNull =>
            (login P email password w).1
              = Throws (TypeError_ "Cannot read property 'message' of null")
        | Some body => (login P email password w).1 = Throws (Error_ (spec_login_message body))
        | None => (login P email password w).1 = Throws (Error_ "Login failed")
        end
  | Throws e => (login P email password w).1 = Throws e
  | Hangs => (login P email password w).1 = Hangs
  end.
Proof.
  intros req result. subst result req.
  unfold login. unfold_monad. unfold fetch, parse. cbn.
  destruct (network P _ _) as [l r|l e|]; cbn; [|auto..].
  destruct (res_ok r); cbn.
  - destruct (JSON_parse P (res_text r)); cbn; auto.
  - destruct (JSON_parse P (res_text r)) as [body|]; cbn; [|auto].
    destruct body as [|b|n|s|items|fields]; cbn; auto.
    unfold spec_login_message.
    destruct (Js.truthy (Js.assoc "message" fields)); cbn; auto.
    unfold Js.or_else.
    destruct (Js.truthy (Js.assoc "error" fields)); cbn; auto.
Qed.

(** What api.login does for every answer but one: it POSTs the JSON of
    the email and the password to /auth/login; an ok response gives back
    the parsed body as it is; an answer that is not ok, with a body that
    does not parse or parses to anything but [null], throws an Error with
    the message of the specification; the storage and the base URL are as
    before. *)
Lemma login_when_body_not_null email password w l res :
  let req := mkRequest (API_BASE_URL w +:+ "/auth/login") "POST"
               {[ "Content-Type" := "application/json" ]}
               (Some (JSON_stringify P (JObj [("email", JStr email); ("password", JStr password)])))
               None in
  network P (journal w) req = Reply l res ->
  JSON_parse P (res_text res) <> Some JNull ->
  fetches (journal (login P email password w).2) = fetches (journal w) ++ [(req, Returns res)] /\
  AsyncStorage (login P email password w).2 = AsyncStorage w /\
  API_BASE_URL (login P email password w).2 = API_BASE_URL w /\
  (res_ok res = true ->
   forall body, JSON_parse P (res_text res) = Some body ->
   (login P email password w).1 = Returns body) /\
  (res_ok res = false ->
   (login P email password w).1
     = Throws (Error_ (spec_login_message (default (JObj []) (JSON_parse P (res_text res)))))).
Proof.
  intros req Hnet Hnn.
  destruct (login_spec email password w) as (Hj & Ha & Hs & _ & Hend).
  fold req in Hj, Hend. unfold login_body in *. fold req in Hj, Hend.
  rewrite Hnet in Hj, Hend. cbn in Hj, Hend.
  rewrite Hj, fetches_app. repeat split; auto.
  - intros Hok body Hb. rewrite Hok, Hb in Hend. exact Hend.
  - intros Hok. rewrite Hok in Hend.
    destruct (JSON_parse P (res_text res)) as [[]|]; first [congruence | exact Hend].
Qed.

(** Whatever the call to /logout does, api.logout goes on to the removal
    of the credentials, which is the last thing in its journal. *)
Lemma logout_spec w :
  exists d,
    let fault := storage_fault P (journal w ++ d) (MultiRemove credential_keys) in
    journal (logout P w).2
      = journal w ++ d ++ [EStorage (MultiRemove credential_keys) fault] /\
    match fault with
    | None =>
        (logout P w).1 = Returns tt /\
        AsyncStorage (logout P w).2 = remove_keys credential_keys (AsyncStorage w)
    | Some e =>
        (logout P w).1 = Throws e /\
        AsyncStorage (logout P w).2 = AsyncStorage w
    end.
Proof.
  destruct (request_spec P "/logout" (mkOptions (Some "POST") None None) w)
    as (mid & Hj & _ & _ & _ & _ & Hst & Hend & _).
  unfold logout, clearAuth, multiRemove, storage_call. unfold_monad.
  destruct (request P "/logout" _ w) as [o w1]. cbn [fst snd] in *.
  assert (exists d, journal w1 = journal w ++ d) as [d Hd] by (eexists; exact Hj).
  exists d. cbn zeta. rewrite app_assoc, <- Hd.
  destruct o as [v|e|]; [| |congruence].
  all: destruct (storage_fault P (journal w1) _); cbn; rewrite ?Hst; auto.
Qed.

(** C8. Whatever the POST to /logout does (answer, fail or never answer),
    api.logout goes on and asks AsyncStorage to remove accessToken,
    refreshToken and userData, as the last thing it does; the storage
    carrying the removal out, the call returns, the three keys are gone and
    no other key is touched. *)
Theorem logout_always_wipes w :
  exists d,
    journal (logout P w).2
      = journal w ++ d
          ++ [EStorage (MultiRemove ["accessToken"; "refreshToken"; "userData"])
                (storage_fault P (journal w ++ d)
                   (MultiRemove ["accessToken"; "refreshToken"; "userData"]))] /\
    (storage_fault P (journal w ++ d)
       (MultiRemove ["accessToken"; "refreshToken"; "userData"]) = None ->
     (logout P w).1 = Returns tt /\
     AsyncStorage (logout P w).2 !! "accessToken" = None /\
     AsyncStorage (logout P w).2 !! "refreshToken" = None /\
     AsyncStorage (logout P w).2 !! "userData" = None /\
     (forall k, k ∉ credential_keys ->
                AsyncStorage (logout P w).2 !! k = AsyncStorage w !! k)).
Proof.
  destruct (logout_spec w) as (d & Hj & Hend). cbn zeta in *.
  exists d. split; [exact Hj|].
  intros Hserved. unfold credential_keys in *. rewrite Hserved in Hend.
  destruct Hend as [Hr Hs].
  rewrite Hs. unfold remove_keys. cbn [foldr].
  split; [exact Hr|].
  split; [rewrite !lookup_delete; repeat case_decide; done|].
  split; [rewrite !lookup_delete; repeat case_decide; done|].
  split; [rewrite !lookup_delete; repeat case_decide; done|].
  intros k Hk. rewrite !lookup_delete.
  repeat case_decide; try reflexivity; subst k; exfalso; apply Hk; set_solver.
Qed.

(** A rejected read of the token leaves isAuthenticated through the
    rejection: the reads of lines 198-199 stand outside the [try]. *)
Lemma isAuthenticated_rejects_with_read w e :
  storage_fault P (journal w) (GetItem "accessToken") = Some e ->
  (isAuthenticated P w).1 = Throws e.
Proof.
  intros Hf. unfold isAuthenticated, getItem, storage_call. unfold_monad.
  rewrite Hf. reflexivity.
Qed.

(** When both storage reads are served, isAuthenticated returns a
    boolean, the one the specification describes, and leaves the storage
    alone. *)
Lemma isAuthenticated_when_reads_served w :
  let j1 := journal w ++ [EStorage (GetItem "accessToken") None] in
  let j2 := j1 ++ [EStorage (GetItem "userData") None] in
  storage_fault P (journal w) (GetItem "accessToken") = None ->
  storage_fault P j1 (GetItem "userData") = None ->
  (isAuthenticated P w).1
    = Returns (spec_isAuthenticated P (AsyncStorage w) (Date_now P j2)) /\
  AsyncStorage (isAuthenticated P w).2 = AsyncStorage w.
Proof.
  intros j1 j2 H1 H2. subst j2 j1.
  unfold isAuthenticated, getItem, storage_call, spec_isAuthenticated, token_expiry, Date_now_.
  unfold_monad. rewrite H1. cbn. rewrite H2. cbn.
  destruct (AsyncStorage w !! "accessToken") as [t|]; cbn; [|auto].
  destruct (AsyncStorage w !! "userData") as [u|]; cbn; [|auto].
  destruct (Str.truthy t); cbn; [|auto].
  destruct (Str.truthy u); cbn; [|auto].
  destruct (decode_segment P _) as [e|decoded]; cbn; [auto|].
  destruct (parse P decoded) as [e|payload]; cbn; [auto|].
  destruct payload as [| | | | |fields]; cbn; auto.
Qed.

End Sessions.

(** ** Start-up and the login screen *)

Section Startup.

Variable P : Platform.

(** The loop over the health URLs ends with a verdict, and the console
    shows it. *)
Lemma testUrls_spec hs : forall failures w,
  exists d v,
    journal (testUrls P hs failures w).2 = journal w ++ d /\
    verdict_of (testUrls P hs failures w).1 = Some v /\
    phases d = verdict_phases v.
Proof.
  induction hs as [|h rest IH]; intros failures w.
  - cbn [testUrls]. unfold_monad. cbn.
    destruct (bool_decide (failures = [])); cbn; flatten_journal;
      eexists; exists Failed; (split; [reflexivity|]); split; reflexivity.
  - cbn [testUrls]. unfold_monad. unfold fetch, parse. cbn.
    destruct (network P _ _) as [l r|l e|]; cbn.
    + destruct (res_ok r); cbn.
      * destruct (JSON_parse P (res_text r)); cbn;
          destruct (Str.includes ":5000" h && negb (Str.includes ":5000" (API_BASE_URL w)));
          cbn; flatten_journal;
          eexists; exists Passed; (split; [reflexivity|]); split; reflexivity.
      * match goal with |- context [testUrls P rest ?f ?w0] =>
          destruct (IH f w0) as (d & v & Hj & Hv & Hph);
          destruct (testUrls P rest f w0) as [o w2] end.
        cbn [journal fst snd] in *. eexists; exists v. rewrite Hj, <- ?app_assoc.
        split; [reflexivity|]. split; [exact Hv|].
        rewrite phases_app, Hph. reflexivity.
    + match goal with |- context [testUrls P rest ?f ?w0] =>
          destruct (IH f w0) as (d & v & Hj & Hv & Hph);
          destruct (testUrls P rest f w0) as [o w2] end.
      cbn [journal fst snd] in *. eexists; exists v. rewrite Hj, <- ?app_assoc.
      split; [reflexivity|]. split; [exact Hv|].
      rewrite !phases_app, Hph. reflexivity.
    + eexists; exists Pending. split; [reflexivity|]. split; reflexivity.
Qed.

Lemma testConnection_spec w :
  exists d v,
    journal (testConnection P w).2 = journal w ++ d /\
    verdict_of (testConnection P w).1 = Some v /\
    phases d = TestStarted :: verdict_phases v.
Proof.
  unfold testConnection. unfold_monad. cbv beta iota.
  match goal with |- context [testUrls P ?hs ?f ?w0] =>
    destruct (testUrls_spec hs f w0) as (d & v & Hj & Hv & Hph);
    destruct (testUrls P hs f w0) as [o w2] end.
  cbn [journal fst snd] in *. eexists; exists v. rewrite Hj, <- ?app_assoc.
  split; [reflexivity|]. split; [exact Hv|].
  rewrite phases_app, Hph. reflexivity.
Qed.

(** One round of start-up: a detection, which always completes, and a
    connection test with its verdict. *)
Lemma round_spec w :
  exists d v,
    journal (testConnection P (detectApiBaseUrl P w).2).2 = journal w ++ d /\
    verdict_of (testConnection P (detectApiBaseUrl P w).2).1 = Some v /\
    phases d = [DetectionDone; TestStarted] ++ verdict_phases v /\
    exists url, (detectApiBaseUrl P w).1 = Returns url.
Proof.
  destruct (detect_total P w) as (d1 & url & Hj1 & Hr1 & Hp1).
  destruct (testConnection_spec (detectApiBaseUrl P w).2) as (d2 & v & Hj2 & Hv & Hp2).
  exists (d1 ++ d2), v. rewrite Hj2, Hj1, <- app_assoc, phases_app, Hp1, Hp2.
  eauto.
Qed.

(** What the console shows of a start-up: one round, or two rounds of
    which the first failed, never a third. *)
Lemma initializeApp_console w :
  exists d,
    journal (initializeApp P w).2 = journal w ++ d /\
    ( (phases d = [DetectionDone; TestStarted; TestPassed] /\
       (initializeApp P w).1 = Returns true)
    \/ (phases d = [DetectionDone; TestStarted; TestFailed;
                    DetectionDone; TestStarted; TestPassed] /\
        (initializeApp P w).1 = Returns true)
    \/ (phases d = [DetectionDone; TestStarted; TestFailed;
                    DetectionDone; TestStarted; TestFailed] /\
        (initializeApp P w).1 = Returns false)
    \/ (phases d = [DetectionDone; TestStarted] /\
        (initializeApp P w).1 = Hangs)
    \/ (phases d = [DetectionDone; TestStarted; TestFailed;
                    DetectionDone; TestStarted] /\
        (initializeApp P w).1 = Hangs) ).
Proof.
  unfold initializeApp. unfold mbind, M_bind.
  destruct (round_spec w) as (d & v & Hj & Hv & Hp & url & Hr).
  destruct (detectApiBaseUrl P w) as [o1 w1]. cbn [fst snd] in *. subst o1.
  destruct (testConnection P w1) as [o2 w2]. cbn [fst snd] in *.
  destruct o2 as [[|]|e|]; cbn in Hv; try discriminate; injection Hv as <-.
  - exists d. cbn. split; [exact Hj|]. left. auto.
  - cbn [negb].
    destruct (round_spec w2) as (d' & v' & Hj' & Hv' & Hp' & url' & Hr').
    destruct (detectApiBaseUrl P w2) as [o3 w3]. cbn [fst snd] in *. subst o3.
    destruct (testConnection P w3) as [o4 w4]. cbn [fst snd] in *.
    destruct o4 as [[|]|e|]; cbn in Hv'; try discriminate; injection Hv' as <-.
    + exists (d ++ d'). cbn. rewrite Hj', Hj, <- app_assoc, phases_app, Hp, Hp'.
      split; [reflexivity|]. right; left. auto.
    + eexists. unfold_monad. cbn. rewrite Hj', Hj, <- !app_assoc.
      split; [reflexivity|]. rewrite !phases_app, Hp, Hp'.
      right; right; left. auto.
    + exists (d ++ d'). cbn. rewrite Hj', Hj, <- app_assoc, phases_app, Hp, Hp'.
      split; [reflexivity|]. do 4 right. auto.
  - exists d. cbn. split; [exact Hj|]. do 3 right; left. auto.
Qed.

(** The loop over the health URLs, probe by probe. *)
Lemma testUrls_probes hs : forall failures w,
  exists d v rest,
    journal (testUrls P hs failures w).2 = journal w ++ d /\
    verdict_of (testUrls P hs failures w).1 = Some v /\
    map health_request hs = map fst (fetches d) ++ rest /\
    match v with
    | Passed =>
        exists fs0 f, fetches d = fs0 ++ [f] /\ Forall in_vain fs0 /\ reachable f.2 = true
    | Failed => Forall in_vain (fetches d) /\ rest = []
    | Pending =>
        exists fs0 f, fetches d = fs0 ++ [f] /\ Forall in_vain fs0 /\ f.2 = Hangs
    end.
Proof.
  induction hs as [|h rest IH]; intros failures w.
  - cbn [testUrls]. unfold_monad. cbn.
    destruct (bool_decide (failures = [])); cbn; flatten_journal;
      eexists; exists Failed, []; (split; [reflexivity|]); (split; [reflexivity|]);
      cbn; (split; [reflexivity|]); split; [constructor|reflexivity|constructor|reflexivity].
  - cbn [testUrls]. unfold_monad. unfold fetch, parse. cbn.
    destruct (network P _ _) as [l r|l e|]; cbn.
    + destruct (res_ok r) eqn:Hok; cbn.
      * destruct (JSON_parse P (res_text r)); cbn;
          destruct (Str.includes ":5000" h && negb (Str.includes ":5000" (API_BASE_URL w)));
          cbn; flatten_journal;
          eexists; exists Passed, (map health_request rest);
          (split; [reflexivity|]); (split; [reflexivity|]); cbn;
          (split; [reflexivity|]);
          exists [], (health_request h, Returns r); (split; [reflexivity|]);
          (split; [constructor|exact Hok]).
      * match goal with |- context [testUrls P rest ?f ?w0] =>
          destruct (IH f w0) as (d & v & rest' & Hj & Hv & Hurls & Hcase);
          destruct (testUrls P rest f w0) as [o w2] end.
        cbn [journal fst snd] in *. eexists; exists v, rest'. rewrite Hj, <- ?app_assoc.
        split; [reflexivity|]. split; [exact Hv|]. rewrite !fetches_app.
        set (F := fetches d) in *. cbn. rewrite Hurls. subst F.
        split; [reflexivity|].
        assert (in_vain (health_request h, Returns r)) as Hvain
          by (split; [exact Hok|discriminate]).
        destruct v.
        -- destruct Hcase as (fs0 & f & Hf & Hall & Hlast).
           exists ((health_request h, Returns r) :: fs0), f. rewrite Hf.
           split; [reflexivity|]. split; [by constructor|exact Hlast].
        -- destruct Hcase as [Hall ->]. split; [by constructor|reflexivity].
        -- destruct Hcase as (fs0 & f & Hf & Hall & Hlast).
           exists ((health_request h, Returns r) :: fs0), f. rewrite Hf.
           split; [reflexivity|]. split; [by constructor|exact Hlast].
    + match goal with |- context [testUrls P rest ?f ?w0] =>
          destruct (IH f w0) as (d & v & rest' & Hj & Hv & Hurls & Hcase);
          destruct (testUrls P rest f w0) as [o w2] end.
      cbn [journal fst snd] in *. eexists; exists v, rest'. rewrite Hj, <- ?app_assoc.
      split; [reflexivity|]. split; [exact Hv|]. rewrite !fetches_app.
      set (F := fetches d) in *. cbn. rewrite Hurls. subst F.
      split; [reflexivity|].
      assert (in_vain (health_request h, Throws e)) as Hvain
        by (split; [reflexivity|discriminate]).
      destruct v.
      -- destruct Hcase as (fs0 & f & Hf & Hall & Hlast).
         exists ((health_request h, Throws e) :: fs0), f. rewrite Hf.
         split; [reflexivity|]. split; [by constructor|exact Hlast].
      -- destruct Hcase as [Hall ->]. split; [by constructor|reflexivity].
      -- destruct Hcase as (fs0 & f & Hf & Hall & Hlast).
         exists ((health_request h, Throws e) :: fs0), f. rewrite Hf.
         split; [reflexivity|]. split; [by constructor|exact Hlast].
    + eexists; exists Pending, (map health_request rest).
      split; [reflexivity|]. split; [reflexivity|]. cbn. split; [reflexivity|].
      exists [], (health_request h, Hangs). split; [reflexivity|]. split; [constructor|reflexivity].
Qed.

Lemma healthUrls_first url : exists more, healthUrls url = (url +:+ "/health") :: more.
Proof.
  unfold healthUrls, filter_Boolean. cbn [omap list_omap].
  assert (Str.truthy (url +:+ "/health") = true) as -> by (destruct url; reflexivity).
  eauto.
Qed.

Lemma testConnection_probes w :
  exists t v,
    journal (testConnection P w).2 = journal w ++ t /\
    verdict_of (testConnection P w).1 = Some v /\
    phases t = TestStarted :: verdict_phases v /\
    probes_of_test (API_BASE_URL w) t v.
Proof.
  destruct (testConnection_spec w) as (t & v & Hj & Hv & Hph).
  exists t, v. split; [exact Hj|]. split; [exact Hv|]. split; [exact Hph|].
  revert Hj Hv. unfold testConnection. unfold_monad. cbv beta iota.
  match goal with |- context [testUrls P ?hs ?f ?w0] =>
    destruct (testUrls_probes hs f w0) as (d & v' & rest & Hj' & Hv' & Hurls & Hcase);
    destruct (testUrls P hs f w0) as [o w2] end.
  cbn [journal fst snd] in *. intros Hj Hv.
  rewrite Hv in Hv'. injection Hv' as <-.
  rewrite Hj', <- app_assoc in Hj. apply app_inv_head in Hj. subst t.
  cbn [app fetches omap list_omap] in *.
  exists rest. split; [exact Hurls|]. split; [|exact Hcase].
  intros Hnil. change (fetches d = []) in Hnil. rewrite Hnil in Hurls, Hcase.
  destruct (healthUrls_first (API_BASE_URL w)) as (more & Hmore). rewrite Hmore in Hurls.
  destruct v.
  - destruct Hcase as (fs0 & f & Hf & _). by destruct fs0.
  - destruct Hcase as [_ ->]. discriminate.
  - destruct Hcase as (fs0 & f & Hf & _). by destruct fs0.
Qed.

Lemma startup_round_runs w :
  exists v w', startup_round P w v w'.
Proof.
  destruct (detect_total P w) as (dd & url & Hj1 & Hr1 & Hp1).
  destruct (testConnection_probes (detectApiBaseUrl P w).2) as (t & v & Hj2 & Hv & Hp2 & Hprobes).
  exists v, (testConnection P (detectApiBaseUrl P w).2).2, dd, t.
  split; [eauto|]. repeat split; assumption.
Qed.

(** C4. initializeApp runs a detection, which returns, and then a
    connection test that probes the health URLs of the detected base.  A
    test that passes ends the call with [true] and a test that is never
    answered leaves it pending; a test that fails is followed by exactly
    one more detection and one more test, whose verdict is the answer:
    [false] is returned only after two failed tests, with one console line
    after the second and nothing else, so there is no third round.  On
    the login screen, while the connection status is [failed] the login
    button is disabled: a press calls nothing, so it sends no request and
    shows no alert; the handler itself, were it called in that state,
    shows the connection error alert, sends nothing and changes
    nothing. *)
Theorem initializeApp_retries_once :
  (forall w,
     exists v1 w1,
       startup_round P w v1 w1 /\
       match v1 with
       | Passed => initializeApp P w = (Returns true, w1)
       | Pending => initializeApp P w = (Hangs, w1)
       | Failed =>
           exists v2 w2,
             startup_round P w1 v2 w2 /\
             match v2 with
             | Passed => initializeApp P w = (Returns true, w2)
             | Pending => initializeApp P w = (Hangs, w2)
             | Failed => initializeApp P w = (Returns false, log_line unreachable_notice w2)
             end
       end)
  /\
  (forall AuthContext_login ensureAfterLogin s w,
     connectionStatus s = failed ->
     loginButton_disabled s = true /\
     pressLogin P AuthContext_login ensureAfterLogin s w = (Returns s, w) /\
     (handleLogin P AuthContext_login ensureAfterLogin s w).1 = Returns s /\
     journal (handleLogin P AuthContext_login ensureAfterLogin s w).2
       = journal w ++ [EAlert "Connection Error" connection_error_text ["OK"]] /\
     fetches [EAlert "Connection Error" connection_error_text ["OK"]] = [] /\
     AsyncStorage (handleLogin P AuthContext_login ensureAfterLogin s w).2 = AsyncStorage w /\
     API_BASE_URL (handleLogin P AuthContext_login ensureAfterLogin s w).2 = API_BASE_URL w).
Proof.
  split.
  - intros w.
    destruct (startup_round_runs w) as (v1 & w1 & Hround).
    exists v1, w1. split; [exact Hround|].
    destruct Hround as (dd & t & (url & Hr) & _ & _ & Hw1 & Hv & _).
    unfold initializeApp. unfold mbind, M_bind.
    destruct (detectApiBaseUrl P w) as [o1 wd]. cbn [fst snd] in *. subst o1.
    destruct (testConnection P wd) as [o2 wt]. cbn [fst snd] in *. subst w1.
    destruct o2 as [[|]|e|]; cbn in Hv; try discriminate; injection Hv as <-.
    + reflexivity.
    + cbn [negb].
      destruct (startup_round_runs wt) as (v2 & w2 & Hround2).
      exists v2, w2. split; [exact Hround2|].
      destruct Hround2 as (dd2 & t2 & (url2 & Hr2) & _ & _ & Hw2 & Hv2 & _).
      destruct (detectApiBaseUrl P wt) as [o3 wd2]. cbn [fst snd] in *. subst o3.
      destruct (testConnection P wd2) as [o4 wt2]. cbn [fst snd] in *. subst w2.
      destruct o4 as [[|]|e|]; cbn in Hv2; try discriminate; injection Hv2 as <-;
        reflexivity.
    + reflexivity.
  - intros AuthContext_login ensureAfterLogin s w Hfailed.
    unfold pressLogin, loginButton_disabled, handleLogin. rewrite Hfailed.
    rewrite orb_true_r. unfold_monad. cbn. auto 10.
Qed.

End Startup.

(** ** Runs on concrete platforms *)

Example detect_on_emulator :
  (detectApiBaseUrl emulator_device fresh_world).1 = Returns "http://10.0.2.2:5000/api"
  /\ AsyncStorage (detectApiBaseUrl emulator_device fresh_world).2 !! "lastApiHost"
     = Some "10.0.2.2".
Proof. vm_compute. split; reflexivity. Qed.

Example initializeApp_on_emulator :
  (initializeApp emulator_device fresh_world).1 = Returns true.
Proof. vm_compute. reflexivity. Qed.

Example initializeApp_offline :
  (initializeApp offline_device fresh_world).1 = Returns false
  /\ API_BASE_URL (initializeApp offline_device fresh_world).2 = initial_API_BASE_URL.
Proof. vm_compute. split; reflexivity. Qed.

Example initializeApp_offline_rounds :
  phases (journal (initializeApp offline_device fresh_world).2)
    = [DetectionDone; TestStarted; TestFailed; DetectionDone; TestStarted; TestFailed].
Proof. vm_compute. reflexivity. Qed.

Example healthUrls_without_port :
  healthUrls "http://16.176.194.83/api"
    = ["http://16.176.194.83/api/health"; "http://16.176.194.83:5000/api/health"].
Proof. reflexivity. Qed.

Example healthUrls_with_port :
  healthUrls initial_API_BASE_URL = ["http://16.176.194.83:5000/api/health"].
Proof. reflexivity. Qed.

Example decode_payload : Base64.decode payload_2100_base64 = payload_2100.
Proof. vm_compute. reflexivity. Qed.

Example isAuthenticated_signed_in :
  (isAuthenticated emulator_device signed_in_world).1 = Returns true.
Proof. vm_compute. reflexivity. Qed.

Example isAuthenticated_signed_out :
  (isAuthenticated emulator_device fresh_world).1 = Returns false.
Proof. vm_compute. reflexivity. Qed.


(** C2, as stated, fails on a device without any configuration: the list
    that is tried has localhost after the emulator loopback 10.0.2.2, and
    the last probe of a detection that finds nothing goes to localhost. *)
Lemma candidates_continue_after_emulator :
  envBase offline_device = None /\
  emulatorHost offline_device = "10.0.2.2" /\
  offline_claimed = ["16.176.194.83"; "16.176.194.83"; "10.0.2.2"] /\
  offline_tried = ["16.176.194.83"; "16.176.194.83"; "10.0.2.2"; "localhost"] /\
  offline_tried <> offline_claimed /\
  last (map (fun f => req_url f.1)
            (fetches (journal (detectApiBaseUrl offline_device fresh_world).2)))
    = Some "https://localhost:5000/api/health".
Proof. vm_compute. repeat split; try reflexivity. discriminate. Qed.

Lemma candidates_end_with_localhost_witness :
  envBase offline_device = None /\
  exists d hit,
    journal (detectApiBaseUrl offline_device fresh_world).2 = journal fresh_world ++ d /\
    scan_stops
      (probe_plan (spec_candidates (envHost offline_device)
                                   (storedHost offline_device fresh_world)
                                   (packagerHost offline_device)
                                   (emulatorHost offline_device) ++ ["localhost"]))
      (fetches d) hit.
Proof.
  split; [reflexivity|].
  apply (proj2 (candidates_end_with_localhost offline_device) fresh_world).
  reflexivity.
Defined.

(** A probe that is never answered is given up when its timer fires. *)
Lemma tryHost_probes_health_variants_witness :
  late 3500
    (network silent_device
       (journal fresh_world
          ++ [ESetTimeout 0 3500; EConsole LLog [AStr ("🔎 Probing " +:+ health emulator_http)]])
       (mkRequest (health emulator_http) "GET" ∅ None (Some 0%nat))) /\
  exists result tail,
    journal (tryVariant silent_device "10.0.2.2" emulator_http fresh_world).2
      = journal fresh_world
          ++ [ESetTimeout 0 3500; EConsole LLog [AStr ("🔎 Probing " +:+ health emulator_http)]]
          ++ [EFetch (mkRequest (health emulator_http) "GET" ∅ None (Some 0%nat)) result]
          ++ tail ++ [EClearTimeout 0] /\
    result = Throws AbortError_.
Proof.
  split; [exact I|].
  destruct (proj1 (proj2 (tryHost_probes_health_variants silent_device "10.0.2.2"))
              emulator_http fresh_world)
    as (result & tail & Hj & _ & _ & Hlate & _).
  exists result, tail. split; [exact Hj|]. apply Hlate. exact I.
Defined.

Lemma initializeApp_retries_once_witness :
  connectionStatus failed_screen = failed /\
  pressLogin offline_device demo_AuthContext_login demo_ensureAfterLogin
    failed_screen fresh_world = (Returns failed_screen, fresh_world) /\
  (handleLogin offline_device demo_AuthContext_login demo_ensureAfterLogin
     failed_screen fresh_world).1 = Returns failed_screen /\
  journal (handleLogin offline_device demo_AuthContext_login demo_ensureAfterLogin
             failed_screen fresh_world).2
    = [EAlert "Connection Error" connection_error_text ["OK"]].
Proof.
  split; [reflexivity|].
  destruct (proj2 (initializeApp_retries_once offline_device)
              demo_AuthContext_login demo_ensureAfterLogin failed_screen fresh_world
              eq_refl) as (_ & Hpress & Hr & Hj & _).
  split; [exact Hpress|]. split; [exact Hr | exact Hj].
Defined.

(** C4, as stated, fails on the screen: on a device without network the
    mount effect ends with the connection status [failed]; a press of the
    login button in that state shows no alert, the connection error alert
    included: the journal is as it was, and it holds no alert at all. *)
Lemma press_while_failed_shows_no_alert :
  (initializeApp offline_device fresh_world).1 = Returns false /\
  exists s1,
    offline_mounted.1 = Returns s1 /\
    connectionStatus s1 = failed /\
    email s1 = "driver@example.com" /\
    password s1 = "secret" /\
    loginButton_disabled s1 = true /\
    pressLogin offline_device demo_AuthContext_login demo_ensureAfterLogin
      s1 offline_mounted.2 = (Returns s1, offline_mounted.2) /\
    alerts (journal (pressLogin offline_device demo_AuthContext_login
                       demo_ensureAfterLogin s1 offline_mounted.2).2) = [].
Proof.
  split; [vm_compute; reflexivity|].
  eexists. split; [vm_compute; reflexivity|].
  repeat split; vm_compute; reflexivity.
Qed.

(** A server that never answers: the request is given up after 10 s. *)
Lemma request_guarded_by_timer_witness :
  exists pre req result mid,
    journal (request silent_device "/profile" no_options fresh_world).2
      = journal fresh_world ++ pre ++ [ESetTimeout 0 10000; EFetch req result] ++ mid
          ++ [EClearTimeout 0] /\
    late 10000 (network silent_device (journal fresh_world ++ pre ++ [ESetTimeout 0 10000]) req) /\
    result = Throws AbortError_ /\
    (request silent_device "/profile" no_options fresh_world).1
      = Throws (Error_ "Request timed out (10s) contacting http://16.176.194.83:5000/api.").
Proof.
  destruct (request_guarded_by_timer silent_device "/profile" no_options fresh_world)
    as (pre & req & result & mid & Hj & _ & _ & _ & _ & _ & Hlate).
  exists pre, req, result, mid.
  split; [exact Hj|]. split; [exact I|]. apply Hlate. exact I.
Defined.

(** With a stored token and no headers from the caller, the request
    carries the bearer header. *)
Lemma request_attaches_bearer_witness :
  storage_fault emulator_device
    (journal signed_in_world
       ++ [EConsole LLog [AStr ("🔄 API Call: " +:+ API_BASE_URL signed_in_world
                                +:+ "/profile")]])
    (GetItem "accessToken") = None /\
  AsyncStorage signed_in_world !! "accessToken" = Some session_token /\
  session_token <> "" /\
  exists d req result,
    journal (request emulator_device "/profile" no_options signed_in_world).2
      = journal signed_in_world ++ d /\
    fetches d = [(req, result)] /\
    req_headers req !! "Authorization" = Some ("Bearer " +:+ session_token).
Proof.
  split; [reflexivity|]. split; [reflexivity|]. split; [discriminate|].
  destruct (request_attaches_bearer emulator_device "/profile" no_options signed_in_world)
    as (d & req & result & Hj & Hf & Hbearer & _).
  exists d, req, result. split; [exact Hj|]. split; [exact Hf|].
  apply Hbearer; [reflexivity | reflexivity | discriminate | reflexivity].
Defined.

(** Offline, the POST to /logout fails; the credentials are removed all
    the same. *)
Lemma logout_always_wipes_witness :
  (request offline_device "/logout" (mkOptions (Some "POST") None None) signed_in_world).1
    = Throws (Error_ (cannot_connect initial_API_BASE_URL)) /\
  AsyncStorage signed_in_world !! "accessToken" = Some session_token /\
  (logout offline_device signed_in_world).1 = Returns tt /\
  AsyncStorage (logout offline_device signed_in_world).2 !! "accessToken" = None /\
  AsyncStorage (logout offline_device signed_in_world).2 !! "refreshToken" = None /\
  AsyncStorage (logout offline_device signed_in_world).2 !! "userData" = None.
Proof.
  split; [vm_compute; reflexivity|]. split; [reflexivity|].
  destruct (logout_always_wipes offline_device signed_in_world) as (d & _ & Hwipe).
  destruct (Hwipe eq_refl) as (Hr & Ha & Hb & Hc & _).
  auto.
Defined.

(** Offline, no probe is reachable and the base URL stays the initial
    one. *)
Lemma detect_failure_keeps_base_witness :
  envBase offline_device = None /\
  journal (detectApiBaseUrl offline_device fresh_world).2
    = journal fresh_world ++ journal (detectApiBaseUrl offline_device fresh_world).2 /\
  Forall unreachable (fetches (journal (detectApiBaseUrl offline_device fresh_world).2)) /\
  API_BASE_URL (detectApiBaseUrl offline_device fresh_world).2 = initial_API_BASE_URL /\
  (detectApiBaseUrl offline_device fresh_world).1 = Returns initial_API_BASE_URL.
Proof.
  assert (Hall : Forall unreachable
                   (fetches (journal (detectApiBaseUrl offline_device fresh_world).2))).
  { vm_compute. repeat constructor. }
  split; [reflexivity|]. split; [reflexivity|]. split; [exact Hall|].
  apply (detect_failure_keeps_base offline_device fresh_world
           (journal (detectApiBaseUrl offline_device fresh_world).2));
    [reflexivity | reflexivity | exact Hall].
Defined.

(** C7 at the failing input: a server that answers the login with status
    401 and the body [null].  The body parses, to [null]; reading its
    [message] throws a TypeError, where the specification has an Error with
    the message "Login failed". *)
Theorem login_null_body_throws_TypeError :
  map snd (fetches (journal (login null_body_device "driver@example.com" "secret"
                               fresh_world).2))
    = [Returns (mkResponse 401 "null")] /\
  res_ok (mkResponse 401 "null") = false /\
  JSON_parse null_body_device "null" = Some JNull /\
  spec_login_message JNull = "Login failed" /\
  (login null_body_device "driver@example.com" "secret" fresh_world).1
    = Throws (TypeError_ "Cannot read property 'message' of null") /\
  (login null_body_device "driver@example.com" "secret" fresh_world).1
    <> Throws (Error_ (spec_login_message JNull)).
Proof. vm_compute. repeat split; try reflexivity. discriminate. Qed.

(** C9 at the failing input: a device that holds a valid session and whose
    storage rejects reads.  isAuthenticated does not return a boolean: it
    rejects with the error of the storage. *)
Theorem isAuthenticated_throws_on_rejected_read :
  spec_isAuthenticated broken_storage_device (AsyncStorage signed_in_world) 1700000000000
    = true /\
  storage_fault broken_storage_device (journal signed_in_world) (GetItem "accessToken")
    = Some (Error_ "Failed to read from storage") /\
  (isAuthenticated broken_storage_device signed_in_world).1
    = Throws (Error_ "Failed to read from storage") /\
  forall b, (isAuthenticated broken_storage_device signed_in_world).1 <> Returns b.
Proof. vm_compute. repeat split; try reflexivity. discriminate. Qed.

(** ** More on host detection *)

Example trim_spaces : Str.trim "  http://10.0.2.2:5000/api/
" = "http://10.0.2.2:5000/api/".
Proof. reflexivity. Qed.
Example trim_blank : Str.trim "   	" = "".
Proof. reflexivity. Qed.
Example host_of : host_of_base "http://10.0.2.2:5000/api" = "10.0.2.2:5000".
Proof. reflexivity. Qed.
Example host_of2 : host_of_base "10.0.2.2:5000/api" = "".
Proof. reflexivity. Qed.

Section DetectionMore.

Variable P : Platform.

Lemma append_assoc s1 s2 s3 : (s1 +:+ s2) +:+ s3 = s1 +:+ s2 +:+ s3.
Proof.
  induction s1 as [|a s1 IH]; [reflexivity|].
  change (String a ((s1 +:+ s2) +:+ s3) = String a (s1 +:+ s2 +:+ s3)). by rewrite IH.
Qed.

Lemma strip_app_nonempty s c t :
  Str.strip_trailing_slash (s +:+ String c t)
    = s +:+ Str.strip_trailing_slash (String c t).
Proof.
  induction s as [|a s IH]; [reflexivity|].
  destruct s as [|b s']; [reflexivity|].
  change (Str.strip_trailing_slash (String a (String b s') +:+ String c t))
    with (String a (Str.strip_trailing_slash (String b s' +:+ String c t))).
  rewrite IH. reflexivity.
Qed.

Lemma variant_base_kept host v :
  v ∈ variants host -> Str.strip_trailing_slash (base v) = base v.
Proof.
  unfold variants. rewrite !elem_of_cons, elem_of_nil.
  intros [->|[->|[->|[->|[]]]]]; cbn [base];
    rewrite <- append_assoc, strip_app_nonempty; reflexivity.
Qed.


(** X1. An explicit base in EXPO_PUBLIC_API_BASE is taken without a
    single probe: it is an http(s) URL, it becomes API_BASE_URL with one
    trailing slash removed and is returned, and the call does nothing but
    print one console line: no fetch, no timer, no storage call. *)
Theorem detect_trusts_explicit_base b w :
  envBase P = Some b ->
  is_http_url b = true /\
  (detectApiBaseUrl P w).1 = Returns (Str.strip_trailing_slash b) /\
  API_BASE_URL (detectApiBaseUrl P w).2 = Str.strip_trailing_slash b /\
  AsyncStorage (detectApiBaseUrl P w).2 = AsyncStorage w /\
  timers (detectApiBaseUrl P w).2 = timers w /\
  journal (detectApiBaseUrl P w).2
    = journal w ++ [EConsole LLog [AStr ("✅ Using explicit API base: "
                                         +:+ Str.strip_trailing_slash b)]].
Proof.
  intros Henv. split.
  - unfold envBase in Henv. destruct (env_var P _) as [b'|]; [|discriminate].
    destruct (Str.truthy b' && is_http_url b') eqn:E; [|discriminate].
    injection Henv as ->. by apply andb_prop in E as [_ ?].
  - unfold detectApiBaseUrl. rewrite Henv. unfold_monad. cbn. auto 10.
Qed.

Lemma some_reachable_app_l d1 d2 : some_reachable d1 -> some_reachable (d1 ++ d2).
Proof. unfold some_reachable. rewrite fetches_app, Exists_app. auto. Qed.

Lemma some_reachable_app_r d1 d2 : some_reachable d2 -> some_reachable (d1 ++ d2).
Proof. unfold some_reachable. rewrite fetches_app, Exists_app. auto. Qed.

Lemma none_reachable_app d1 d2 :
  Forall unreachable (fetches d1) -> Forall unreachable (fetches d2) ->
  Forall unreachable (fetches (d1 ++ d2)).
Proof. intros. rewrite fetches_app. by apply Forall_app. Qed.

Lemma tryVariant_outcome host v w :
  storage_sound P ->
  exists d,
    journal (tryVariant P host v w).2 = journal w ++ d /\
    ( (tryVariant P host v w).1 = Returns (Some true) /\
      API_BASE_URL (tryVariant P host v w).2 = Str.strip_trailing_slash (base v) /\
      AsyncStorage (tryVariant P host v w).2 = <["lastApiHost" := host]> (AsyncStorage w) /\
      some_reachable d
    \/ (tryVariant P host v w).1 = Returns None /\
       API_BASE_URL (tryVariant P host v w).2 = API_BASE_URL w /\
       AsyncStorage (tryVariant P host v w).2 = AsyncStorage w /\
       Forall unreachable (fetches d) ).
Proof.
  intros Hs.
  unfold tryVariant. unfold_monad. unfold fetch, setItem, storage_call. cbn.
  rewrite lookup_insert_eq. flatten_journal.
  destruct (network P _ _) as [l r|l e|]; cbn.
  - destruct (l <? 3500); cbn.
    + destruct (res_ok r) eqn:Hok; cbn.
      * rewrite Hs. cbn. flatten_journal. eexists. split; [reflexivity|]. left.
        repeat split. unfold some_reachable. cbn. apply Exists_cons_hd. exact Hok.
      * flatten_journal. eexists. split; [reflexivity|]. right.
        repeat split. cbn. repeat constructor. exact Hok.
    + flatten_journal. eexists. split; [reflexivity|]. right.
      repeat split. cbn. repeat constructor.
  - destruct (l <? 3500); cbn; flatten_journal; eexists; (split; [reflexivity|]); right;
      repeat split; cbn; repeat constructor.
  - flatten_journal. eexists. split; [reflexivity|]. right.
    repeat split. cbn. repeat constructor.
Qed.

Lemma tryVariants_outcome host vs : forall w,
  storage_sound P ->
  exists d,
    journal (tryVariants P host vs w).2 = journal w ++ d /\
    ( (tryVariants P host vs w).1 = Returns true /\
      (exists v, v ∈ vs /\
         API_BASE_URL (tryVariants P host vs w).2 = Str.strip_trailing_slash (base v)) /\
      AsyncStorage (tryVariants P host vs w).2 = <["lastApiHost" := host]> (AsyncStorage w) /\
      some_reachable d
    \/ (tryVariants P host vs w).1 = Returns false /\
       API_BASE_URL (tryVariants P host vs w).2 = API_BASE_URL w /\
       AsyncStorage (tryVariants P host vs w).2 = AsyncStorage w /\
       Forall unreachable (fetches d) ).
Proof.
  induction vs as [|v rest IH]; intros w Hs.
  - exists []. cbn. rewrite app_nil_r. split; [reflexivity|]. right. repeat split. constructor.
  - destruct (tryVariant_outcome host v w Hs) as (d1 & Hj1 & Hcase).
    cbn [tryVariants]. unfold mbind, M_bind.
    destruct (tryVariant P host v w) as [o w1]. cbn [fst snd] in *.
    destruct Hcase as [(-> & Ha & Hst & Hr)|(-> & Ha & Hst & Hu)].
    + exists d1. split; [exact Hj1|]. left. cbn. repeat split; auto.
      exists v. split; [apply list_elem_of_here|exact Ha].
    + destruct (IH w1 Hs) as (d2 & Hj2 & Hcase2).
      exists (d1 ++ d2). split; [rewrite Hj2, Hj1, <- app_assoc; reflexivity|].
      destruct Hcase2 as [(Hr2 & (v' & Hin & Ha2) & Hst2 & Hsr)|(Hr2 & Ha2 & Hst2 & Hu2)].
      * left. rewrite Hst2, Hst. repeat split; auto.
        -- exists v'. split; [by apply list_elem_of_further|exact Ha2].
        -- by apply some_reachable_app_r.
      * right. rewrite Ha2, Hst2. repeat split; auto. by apply none_reachable_app.
Qed.

Lemma tryHosts_outcome hosts : forall w,
  storage_sound P ->
  exists d,
    journal (tryHosts P hosts w).2 = journal w ++ d /\
    ( (exists h v,
         h ∈ hosts /\ v ∈ variants h /\
         (tryHosts P hosts w).1 = Returns (base v) /\
         API_BASE_URL (tryHosts P hosts w).2 = base v /\
         AsyncStorage (tryHosts P hosts w).2 = <["lastApiHost" := h]> (AsyncStorage w)) /\
      some_reachable d
    \/ (tryHosts P hosts w).1 = Returns (API_BASE_URL w) /\
       API_BASE_URL (tryHosts P hosts w).2 = API_BASE_URL w /\
       AsyncStorage (tryHosts P hosts w).2 = AsyncStorage w /\
       Forall unreachable (fetches d) ).
Proof.
  induction hosts as [|host rest IH]; intros w Hs.
  - eexists. cbn. split; [reflexivity|]. right. repeat split. constructor.
  - destruct (tryVariants_outcome host (variants host) w Hs) as (d1 & Hj1 & Hcase).
    cbn [tryHosts]. unfold mbind, M_bind, tryHost.
    destruct (tryVariants P host (variants host) w) as [o w1]. cbn [fst snd] in *.
    destruct Hcase as [(-> & (v & Hin & Ha) & Hst & Hr)|(-> & Ha & Hst & Hu)].
    + exists d1. split; [exact Hj1|]. left. split; [|exact Hr].
      exists host, v. rewrite (variant_base_kept host v Hin) in Ha. cbn.
      repeat split; auto; [apply list_elem_of_here|by rewrite Ha].
    + destruct (IH w1 Hs) as (d2 & Hj2 & Hcase2).
      exists (d1 ++ d2). split; [rewrite Hj2, Hj1, <- app_assoc; reflexivity|].
      destruct Hcase2 as [((h & v & Hh & Hv & Hr2 & Ha2 & Hst2) & Hsr)|(Hr2 & Ha2 & Hst2 & Hu2)].
      * left. split; [|by apply some_reachable_app_r].
        exists h, v. rewrite Hst2, Hst. repeat split; auto. by apply list_elem_of_further.
      * right. rewrite Hr2, Ha2, Hst2, Ha. repeat split; auto. by apply none_reachable_app.
Qed.

(** With a storage that carries out its calls, a detection without an
    explicit base is the scan of the candidates after the read of the
    cached host. *)
Lemma detect_with_sound_storage w :
  envBase P = None ->
  storage_sound P ->
  detectApiBaseUrl P w
    = tryHosts P
        (candidates (envHost P) (AsyncStorage w !! "lastApiHost") (packagerHost P)
                    (emulatorHost P))
        (mkWorld (API_BASE_URL w) (AsyncStorage w) (timers w) (next_timer w)
                 (journal w ++ [EStorage (GetItem "lastApiHost") None])).
Proof.
  intros Henv Hs. unfold detectApiBaseUrl. rewrite Henv.
  unfold mbind, M_bind, try_catch, getItem, storage_call, mret, M_ret. rewrite Hs.
  reflexivity.
Qed.

(** X2. A detection without an explicit base writes to the storage only
    when a probe is reachable, and then only the key lastApiHost, with the
    host whose variant answered: the returned base is the base of a variant
    of a candidate host and is the new API_BASE_URL.  Without a reachable
    probe the storage and the base are as before. *)
Theorem detect_caches_found_host w :
  envBase P = None ->
  storage_sound P ->
  exists d,
    journal (detectApiBaseUrl P w).2 = journal w ++ d /\
    ( (exists h v,
         h ∈ candidates (envHost P) (AsyncStorage w !! "lastApiHost") (packagerHost P)
                        (emulatorHost P) /\
         v ∈ variants h /\
         (detectApiBaseUrl P w).1 = Returns (base v) /\
         API_BASE_URL (detectApiBaseUrl P w).2 = base v /\
         AsyncStorage (detectApiBaseUrl P w).2 = <["lastApiHost" := h]> (AsyncStorage w)) /\
      some_reachable d
    \/ (detectApiBaseUrl P w).1 = Returns (API_BASE_URL w) /\
       API_BASE_URL (detectApiBaseUrl P w).2 = API_BASE_URL w /\
       AsyncStorage (detectApiBaseUrl P w).2 = AsyncStorage w /\
       Forall unreachable (fetches d) ).
Proof.
  intros Henv Hs. rewrite (detect_with_sound_storage w Henv Hs).
  match goal with |- context [tryHosts P ?hs ?w0] =>
    destruct (tryHosts_outcome hs w0 Hs) as (d & Hj & Hcase);
    destruct (tryHosts P hs w0) as [o w1] end.
  cbn [fst snd journal API_BASE_URL AsyncStorage] in *.
  exists ([EStorage (GetItem "lastApiHost") None] ++ d).
  split; [rewrite Hj, <- app_assoc; reflexivity|].
  destruct Hcase as [(Hhit & Hsr)|(Hr & Ha & Hst & Hu)].
  - left. split; [exact Hhit|]. by apply some_reachable_app_r.
  - right. repeat split; auto.
Qed.

Lemma scan_first v plan fs hit :
  scan_stops (v :: plan) fs hit ->
  exists f fs', fs = f :: fs' /\ req_url f.1 = health v.
Proof.
  destruct hit as [v0|]; cbn.
  - intros (pre & post & fs0 & f & Hplan & -> & Hpre & Hf & _).
    destruct pre as [|p pre]; cbn in *.
    + injection Hplan as -> ->. destruct fs0; [|discriminate]. cbn. eauto.
    + injection Hplan as -> ->. destruct fs0 as [|f0 fs0]; [discriminate|].
      cbn in *. injection Hpre as Hu _. eauto.
  - intros [Hurls _]. destruct fs as [|f fs]; [discriminate|].
    cbn in Hurls. injection Hurls as Hu _. eauto.
Qed.

Lemma filter_Boolean_truthy l h : h ∈ filter_Boolean l -> Str.truthy h = true.
Proof.
  unfold filter_Boolean. rewrite list_elem_of_omap.
  intros ([x|] & _ & Hx); [|discriminate].
  destruct (Str.truthy x) eqn:E; [|discriminate]. by injection Hx as <-.
Qed.

Lemma reachable_not_all d :
  some_reachable d -> Forall unreachable (fetches d) -> False.
Proof.
  unfold some_reachable. rewrite Exists_exists, Forall_forall.
  intros (f & Hin & Hr) Hall. specialize (Hall f Hin). unfold unreachable in Hall. congruence.
Qed.

(** X3. The host one detection finds is the first host the next detection
    probes (when no host is forced through EXPO_PUBLIC_API_HOST): the
    second run begins with http://<host>/api/health for the host whose
    variant the first run adopted. *)
Theorem detect_again_starts_at_found_host w d :
  envBase P = None ->
  envHost P = None ->
  storage_sound P ->
  journal (detectApiBaseUrl P w).2 = journal w ++ d ->
  some_reachable d ->
  exists h v,
    v ∈ variants h /\
    API_BASE_URL (detectApiBaseUrl P w).2 = base v /\
    exists d' f fs,
      journal (detectApiBaseUrl P (detectApiBaseUrl P w).2).2
        = journal (detectApiBaseUrl P w).2 ++ d' /\
      fetches d' = f :: fs /\
      req_url f.1 = "http://" +:+ h +:+ "/api/health".
Proof.
  intros Henv Hhost Hs Hd Hsome.
  rewrite (detect_with_sound_storage w Henv Hs) in Hd |- *.
  match goal with |- context [tryHosts P ?hs ?w0] =>
    destruct (tryHosts_outcome hs w0 Hs) as (d0 & Hj & Hcase);
    destruct (tryHosts P hs w0) as [o w1] end.
  cbn [fst snd journal API_BASE_URL AsyncStorage] in *.
  rewrite Hj, <- app_assoc in Hd. apply app_inv_head in Hd. subst d.
  assert (some_reachable d0) as Hsome0.
  { unfold some_reachable in *. rewrite fetches_app in Hsome. exact Hsome. }
  destruct Hcase as [((h & v & Hh & Hv & _ & Ha & Hst) & _)|(_ & _ & _ & Hu)];
    [|destruct (reachable_not_all d0 Hsome0 Hu)].
  exists h, v. split; [exact Hv|]. split; [exact Ha|].
  destruct (detect_spec P w1 Henv) as (d' & hit & Hj' & Hscan & _).
  unfold storedHost in Hscan. rewrite Hs, Hst, lookup_insert_eq, Hhost in Hscan.
  apply filter_Boolean_truthy in Hh.
  unfold candidates in Hscan. cbn [filter_Boolean omap list_omap] in Hscan.
  rewrite Hh in Hscan. cbn in Hscan.
  apply scan_first in Hscan as (f & fs & Hfs & Hu).
  eexists; exists f, fs. split; [exact Hj'|]. split; [|exact Hu].
  rewrite fetches_app. exact Hfs.
Qed.

Lemma probe_plan_length hosts : length (probe_plan hosts) = (4 * length hosts)%nat.
Proof.
  induction hosts as [|h hs IH]; [reflexivity|].
  unfold probe_plan in *. cbn [flat_map]. rewrite length_app, IH. cbn. lia.
Qed.

(** X4. A detection in which no probe is reachable has probed every
    variant of every candidate host, in the order of the list: the URLs of
    its fetches are the health URLs of the four variants of each of its
    four to seven hosts, so it makes between 16 and 28 fetches. *)
Theorem failed_detection_probes_every_variant w d :
  envBase P = None ->
  journal (detectApiBaseUrl P w).2 = journal w ++ d ->
  Forall unreachable (fetches d) ->
  let hosts := candidates (envHost P) (storedHost P w) (packagerHost P) (emulatorHost P) in
  map (fun f => req_url f.1) (fetches d) = map health (probe_plan hosts) /\
  length (fetches d) = (4 * length hosts)%nat /\
  (4 <= length hosts <= 7)%nat /\
  (16 <= length (fetches d) <= 28)%nat.
Proof.
  intros Henv Hd Hall hosts.
  destruct (detect_spec P w Henv) as (d0 & hit & Hj & Hscan & _).
  rewrite Hd in Hj. apply app_inv_head in Hj. subst d.
  rewrite fetches_app in *. cbn [fetches omap list_omap app] in *.
  fold hosts in Hscan.
  destruct hit as [v|].
  - destruct Hscan as (pre & post & fs0 & f & _ & Hfs & _ & _ & _ & Hok).
    rewrite Hfs in Hall. apply Forall_app in Hall as [_ Hf].
    apply Forall_inv in Hf. unfold unreachable in Hf. congruence.
  - destruct Hscan as [Hurls _].
    assert (length (fetches d0) = (4 * length hosts)%nat) as Hlen.
    { apply (f_equal length) in Hurls. rewrite !length_map in Hurls.
      rewrite Hurls. apply probe_plan_length. }
    assert (4 <= length hosts <= 7)%nat as Hhosts.
    { subst hosts. unfold candidates, filter_Boolean, emulatorHost. cbn.
      destruct (envHost P) as [[|??]|], (storedHost P w) as [[|??]|],
        (packagerHost P) as [[|??]|], (Platform_OS P =? "android")%string; cbn; lia. }
    split; [exact Hurls|]. split; [exact Hlen|]. split; [exact Hhosts|]. lia.
Qed.

Lemma split_head_no_sep c s h :
  head (Str.split c s) = Some h -> Str.includes (String c EmptyString) h = false.
Proof.
  revert h. induction s as [|a s IH]; intros h; cbn.
  - intros [= <-]. reflexivity.
  - destruct (Ascii.eqb a c) eqn:E; cbn.
    + intros [= <-]. reflexivity.
    + destruct (Str.split c s) as [|w ws]; cbn; intros [= <-]; cbn.
      * rewrite Ascii.eqb_sym, E. reflexivity.
      * rewrite Ascii.eqb_sym, E. cbn. apply IH. reflexivity.
Qed.

(** X5. The host of the development machine is taken without the port of
    the packager: it holds no colon. *)
Theorem packagerHost_has_no_port h :
  packagerHost P = Some h -> Str.includes ":" h = false.
Proof.
  unfold packagerHost.
  destruct (Js.or_else _ _) as [[| | |uri| |]|]; try discriminate.
  destruct (Str.truthy uri); [|discriminate].
  apply split_head_no_sep.
Qed.

End DetectionMore.

(** ** More on the connection test *)

Lemma append_cons a s t : String a s +:+ t = String a (s +:+ t).
Proof. reflexivity. Qed.

Lemma append_nil_r s : s +:+ "" = s.
Proof. induction s as [|a s IH]; [reflexivity|]. by rewrite append_cons, IH. Qed.

Lemma truthy_app_r s c t : Str.truthy (s +:+ String c t) = true.
Proof. destruct s; reflexivity. Qed.

Lemma startsWith_refl_app p t : Str.startsWith p (p +:+ t) = true.
Proof.
  induction p as [|a p IH]; [reflexivity|].
  rewrite append_cons. cbn. by rewrite Ascii.eqb_refl, IH.
Qed.

Lemma skip_length_app p t : Str.skip (String.length p) (p +:+ t) = t.
Proof. induction p as [|a p IH]; [reflexivity|]. rewrite append_cons. exact IH. Qed.

Lemma startsWith_app_false t : forall p s,
  suffixes_miss p t = true ->
  Str.startsWith p s = false -> Str.startsWith p (s +:+ t) = false.
Proof.
  induction p as [|a p IH]; intros s Hk Hs; [destruct s; discriminate|].
  cbn [suffixes_miss] in Hk. apply andb_prop in Hk as [H0 Hk].
  destruct s as [|b s].
  - change ("" +:+ t) with t.
    destruct (Str.startsWith (String a p) t); [discriminate|reflexivity].
  - rewrite append_cons. cbn in *. destruct (Ascii.eqb a b); [|reflexivity]. cbn in *.
    by apply IH.
Qed.

Lemma startsWith_cons_app_false needle c s t :
  no_straddle needle t = true ->
  Str.startsWith needle (String c s) = false ->
  Str.startsWith needle (String c (s +:+ t)) = false.
Proof.
  destruct needle as [|a p]; [discriminate|].
  cbn. intros Hn Hsw. destruct (Ascii.eqb a c); [|reflexivity]. cbn in *.
  by apply startsWith_app_false.
Qed.

Lemma includes_app_false needle s t :
  Str.includes needle s = false ->
  Str.includes needle t = false ->
  no_straddle needle t = true ->
  Str.includes needle (s +:+ t) = false.
Proof.
  intros Hs Ht Hn. induction s as [|c s IH]; [exact Ht|].
  rewrite append_cons. cbn [Str.includes] in *.
  apply orb_false_elim in Hs as [Hsw Hs].
  by rewrite (IH Hs), orb_false_r, startsWith_cons_app_false.
Qed.

Lemma includes_app_true needle s t :
  Str.includes needle (s +:+ needle +:+ t) = true.
Proof.
  induction s as [|c s IH].
  - change ("" +:+ needle +:+ t) with (needle +:+ t).
    destruct needle as [|a p]; [destruct t; reflexivity|].
    rewrite append_cons. cbn [Str.includes].
    rewrite <- append_cons, startsWith_refl_app. reflexivity.
  - rewrite append_cons. cbn [Str.includes]. rewrite IH. apply orb_true_r.
Qed.

Lemma replace_first_suffix pat s :
  Str.includes pat s = false ->
  no_straddle pat pat = true ->
  Str.replace_first pat "" (s +:+ pat) = s.
Proof.
  intros Hs Hn. induction s as [|c s IH].
  - change ("" +:+ pat) with pat.
    destruct pat as [|a p]; [reflexivity|].
    cbn [Str.replace_first].
    pose proof (startsWith_refl_app (String a p) "") as H1.
    pose proof (skip_length_app (String a p) "") as H2.
    rewrite append_nil_r in H1, H2. rewrite H1, H2. reflexivity.
  - rewrite append_cons. cbn [Str.includes] in Hs.
    apply orb_false_elim in Hs as [Hsw Hs].
    cbn [Str.replace_first].
    rewrite (startsWith_cons_app_false pat c s pat Hn Hsw).
    by rewrite (IH Hs).
Qed.

Lemma healthUrls_cases url :
  healthUrls url
    = if Str.includes ":5000" url then [url +:+ "/health"]
      else [url +:+ "/health"; Str.replace_first "/api" "" url +:+ ":5000/api/health"].
Proof.
  unfold healthUrls, filter_Boolean. cbn [omap list_omap].
  rewrite truthy_app_r. destruct (Str.includes ":5000" url); [reflexivity|].
  rewrite truthy_app_r. reflexivity.
Qed.

Lemma includes_slash_api host :
  Str.includes "/api" ("/" +:+ host) = Str.startsWith "api" host || Str.includes "/api" host.
Proof. reflexivity. Qed.

(** X6. For a base http://<host>/api whose host holds neither ":5000" nor
    "/api" and does not begin with "api", the connection test has two
    URLs: the health endpoint of the base, and the same endpoint on port
    5000 of the host.  (A host that begins with "api" is the subject of
    the next theorem.) *)
Theorem healthUrls_of_port_80_base host :
  Str.includes ":5000" host = false ->
  Str.includes "/api" host = false ->
  Str.startsWith "api" host = false ->
  healthUrls ("http://" +:+ host +:+ "/api")
    = [ "http://" +:+ host +:+ "/api/health";
        "http://" +:+ host +:+ ":5000/api/health" ].
Proof.
  intros Hport Hapi Hstart.
  assert (Str.includes "/api" ("/" +:+ host) = false) as Hslash
    by (rewrite includes_slash_api, Hstart, Hapi; reflexivity).
  rewrite healthUrls_cases.
  assert (Str.includes ":5000" ("http://" +:+ host +:+ "/api") = false) as ->.
  { change (Str.includes ":5000" (host +:+ "/api") = false).
    by apply includes_app_false. }
  assert (Str.replace_first "/api" "" ("http://" +:+ host +:+ "/api") = "http://" +:+ host)
    as ->.
  { change ("http:/" +:+ Str.replace_first "/api" "" ("/" +:+ host +:+ "/api")
            = "http:/" +:+ "/" +:+ host).
    rewrite <- (append_assoc "/" host "/api"), replace_first_suffix; done. }
  rewrite !append_assoc. reflexivity.
Qed.

(** X7. The port-5000 URL is built by deleting the first "/api" of the
    base, which for a host that begins with "api" is the one after the
    scheme: the second URL of http://api<rest>/api is
    http:/<rest>/api:5000/api/health. *)
Theorem healthUrls_of_api_host rest :
  Str.includes ":5000" (rest +:+ "/api") = false ->
  healthUrls ("http://api" +:+ rest +:+ "/api")
    = [ "http://api" +:+ rest +:+ "/api/health";
        "http:/" +:+ rest +:+ "/api:5000/api/health" ].
Proof.
  intros Hport. rewrite healthUrls_cases.
  assert (Str.includes ":5000" ("http://api" +:+ rest +:+ "/api") = false) as ->
    by exact Hport.
  change (Str.replace_first "/api" "" ("http://api" +:+ rest +:+ "/api"))
    with ("http:/" +:+ rest +:+ "/api").
  rewrite !append_assoc. reflexivity.
Qed.

Section ConnectionTest.

Variable P : Platform.

(** X8. With port 5000 in the base the connection test is one GET of
    <base>/health: true for an ok response, false for any other response
    or a failure, and pending while the network is silent; the base and
    the storage are as before. *)
Theorem testConnection_single_probe w :
  Str.includes ":5000" (API_BASE_URL w) = true ->
  let req := health_request (API_BASE_URL w +:+ "/health") in
  let result := (settle None (network P (journal w ++ test_marker w) req)).1 in
  exists d,
    journal (testConnection P w).2 = journal w ++ d /\
    fetches d = [(req, result)] /\
    API_BASE_URL (testConnection P w).2 = API_BASE_URL w /\
    AsyncStorage (testConnection P w).2 = AsyncStorage w /\
    (testConnection P w).1
      = match result with
        | Returns res => Returns (res_ok res)
        | Throws _ => Returns false
        | Hangs => Hangs
        end.
Proof.
  intros Hport req result. subst result req.
  unfold testConnection, test_marker. unfold_monad. cbv beta iota.
  rewrite healthUrls_cases, Hport. cbn [testUrls]. unfold_monad. unfold fetch, parse. cbn.
  destruct (network P _ _) as [l r|l e|]; cbn.
  - destruct (res_ok r); cbn.
    + destruct (JSON_parse P (res_text r)); cbn; rewrite Hport, andb_false_r;
        cbn; flatten_journal;
        eexists; (split; [reflexivity|]); repeat split; reflexivity.
    + flatten_journal. eexists. split; [reflexivity|]. repeat split; reflexivity.
  - flatten_journal. eexists. split; [reflexivity|]. repeat split; reflexivity.
  - flatten_journal. eexists. split; [reflexivity|]. repeat split; reflexivity.
Qed.

(** X9. Without port 5000 in the base the connection test tries
    <base>/health and then the port-5000 URL, and stops at the first ok
    response.  Only when the second probe is the one that succeeds is
    API_BASE_URL rewritten, to the base without its first "/api" followed
    by ":5000/api"; the storage is never touched. *)
Theorem testConnection_port_fallback w :
  Str.includes ":5000" (API_BASE_URL w) = false ->
  let r1 := health_request (API_BASE_URL w +:+ "/health") in
  let r2 := health_request (Str.replace_first "/api" "" (API_BASE_URL w)
                              +:+ ":5000/api/health") in
  exists d,
    journal (testConnection P w).2 = journal w ++ d /\
    AsyncStorage (testConnection P w).2 = AsyncStorage w /\
    ( (exists res,
         fetches d = [(r1, Returns res)] /\ res_ok res = true /\
         (testConnection P w).1 = Returns true /\
         API_BASE_URL (testConnection P w).2 = API_BASE_URL w)
    \/ (exists x res,
          fetches d = [(r1, x); (r2, Returns res)] /\
          reachable x = false /\ res_ok res = true /\
          (testConnection P w).1 = Returns true /\
          API_BASE_URL (testConnection P w).2
            = Str.replace_first "/api" "" (API_BASE_URL w) +:+ ":5000/api")
    \/ (exists x y,
          fetches d = [(r1, x); (r2, y)] /\
          reachable x = false /\ reachable y = false /\ y <> Hangs /\
          (testConnection P w).1 = Returns false /\
          API_BASE_URL (testConnection P w).2 = API_BASE_URL w)
    \/ (fetches d = [(r1, Hangs)] /\
        (testConnection P w).1 = Hangs /\
        API_BASE_URL (testConnection P w).2 = API_BASE_URL w)
    \/ (exists x,
          fetches d = [(r1, x); (r2, Hangs)] /\
          (testConnection P w).1 = Hangs /\
          API_BASE_URL (testConnection P w).2 = API_BASE_URL w) ).
Proof.
  intros Hport r1 r2. subst r1 r2.
  assert (H1 : Str.includes ":5000" (API_BASE_URL w +:+ "/health") = false)
    by (by apply includes_app_false).
  assert (H2 : Str.includes ":5000"
                 (Str.replace_first "/api" "" (API_BASE_URL w) +:+ ":5000/api/health") = true)
    by apply (includes_app_true ":5000" _ "/api/health").
  unfold testConnection. unfold_monad. cbv beta iota.
  rewrite healthUrls_cases, Hport. cbn [testUrls]. unfold_monad. unfold fetch, parse. cbn.
  destruct (network P _ _) as [l r|l e|]; cbn.
  - destruct (res_ok r) eqn:Hok; cbn.
    + destruct (JSON_parse P (res_text r)); cbn; rewrite H1; cbn; flatten_journal;
        eexists; (split; [reflexivity|]); (split; [reflexivity|]);
        left; exists r; auto.
    + destruct (network P _ _) as [l' r'|l' e'|]; cbn.
      * destruct (res_ok r') eqn:Hok'; cbn.
        -- destruct (JSON_parse P (res_text r')); cbn; rewrite H2, Hport; cbn;
             flatten_journal;
             eexists; (split; [reflexivity|]); (split; [reflexivity|]);
             right; left; exists (Returns r), r'; auto.
        -- flatten_journal. eexists. split; [reflexivity|]. split; [reflexivity|].
           do 2 right; left. exists (Returns r), (Returns r'). cbn. auto 10.
      * flatten_journal. eexists. split; [reflexivity|]. split; [reflexivity|].
        do 2 right; left. exists (Returns r), (Throws e'). cbn. auto 10.
      * flatten_journal. eexists. split; [reflexivity|]. split; [reflexivity|].
        do 4 right. exists (Returns r). auto.
  - destruct (network P _ _) as [l' r'|l' e'|]; cbn.
    + destruct (res_ok r') eqn:Hok'; cbn.
      * destruct (JSON_parse P (res_text r')); cbn; rewrite H2, Hport; cbn;
          flatten_journal;
          eexists; (split; [reflexivity|]); (split; [reflexivity|]);
          right; left; exists (Throws e), r'; auto.
      * flatten_journal. eexists. split; [reflexivity|]. split; [reflexivity|].
        do 2 right; left. exists (Throws e), (Returns r'). cbn. auto 10.
    + flatten_journal. eexists. split; [reflexivity|]. split; [reflexivity|].
      do 2 right; left. exists (Throws e), (Throws e'). cbn. auto 10.
    + flatten_journal. eexists. split; [reflexivity|]. split; [reflexivity|].
      do 4 right. exists (Throws e). auto.
  - flatten_journal. eexists. split; [reflexivity|]. split; [reflexivity|].
    do 3 right; left. auto.
Qed.

End ConnectionTest.

(** ** Trimming *)

Lemma trimStart_fixed s : starts_ws s = false -> Str.trimStart s = s.
Proof.
  destruct s as [|a [|b [|c r]]]; cbn; try reflexivity.
  - intros H. apply orb_false_elim in H as [-> _]. reflexivity.
  - intros H. apply orb_false_elim in H as [-> H].
    apply orb_false_elim in H as [-> _]. reflexivity.
  - intros H. apply orb_false_elim in H as [-> H].
    apply orb_false_elim in H as [-> ->]. reflexivity.
Qed.

Lemma trimStart_starts n : forall s,
  (String.length s <= n)%nat -> starts_ws (Str.trimStart s) = false.
Proof.
  induction n as [|n IH]; intros s Hn.
  - destruct s; [reflexivity|cbn in Hn; lia].
  - destruct s as [|a r]; [reflexivity|]. cbn [String.length] in Hn.
    cbn [Str.trimStart].
    destruct (Str.is_ws1 a) eqn:E1; [apply IH; lia|].
    destruct r as [|b r2]; [cbn; by rewrite E1|]. cbn [String.length] in Hn.
    destruct (Str.is_ws2 a b) eqn:E2; [apply IH; lia|].
    destruct r2 as [|c r3]; [cbn; by rewrite E1, E2|]. cbn [String.length] in Hn.
    destruct (Str.is_ws3 a b c) eqn:E3; [apply IH; lia|].
    cbn. by rewrite E1, E2, E3.
Qed.

Lemma blank_app n : forall x y,
  (String.length x <= n)%nat ->
  Str.blank x = true -> Str.blank y = true -> Str.blank (x +:+ y) = true.
Proof.
  induction n as [|n IH]; intros x y Hn Hx Hy.
  - destruct x; [exact Hy|cbn in Hn; lia].
  - destruct x as [|a r]; [exact Hy|]. cbn [String.length] in Hn.
    rewrite append_cons. cbn [Str.blank] in *.
    destruct (Str.is_ws1 a) eqn:E1; [apply IH; auto; lia|].
    destruct r as [|b r2]; [discriminate|]. cbn [String.length] in Hn.
    rewrite append_cons.
    destruct (Str.is_ws2 a b) eqn:E2; [apply IH; auto; lia|].
    destruct r2 as [|c r3]; [discriminate|]. cbn [String.length] in Hn.
    rewrite append_cons.
    apply andb_prop in Hx as [-> Hx]. cbn. apply IH; auto; lia.
Qed.

Lemma trimEnd_split s : exists t, s = Str.trimEnd s +:+ t /\ Str.blank t = true.
Proof.
  induction s as [|a r (t & Hr & Ht)]; [by exists ""|].
  cbn [Str.trimEnd]. destruct (Str.blank (String a r)) eqn:E.
  - by exists (String a r).
  - exists t. rewrite append_cons, <- Hr. auto.
Qed.

Lemma trimEnd_not_blank a r :
  Str.blank (String a r) = false -> Str.blank (String a (Str.trimEnd r)) = false.
Proof.
  intros Hb. destruct (Str.blank (String a (Str.trimEnd r))) eqn:E; [|reflexivity].
  destruct (trimEnd_split r) as (t & Hr & Ht).
  pose proof (blank_app _ (String a (Str.trimEnd r)) t (le_n _) E Ht) as H.
  rewrite append_cons, <- Hr in H. congruence.
Qed.

Lemma trimEnd_idem s : Str.trimEnd (Str.trimEnd s) = Str.trimEnd s.
Proof.
  induction s as [|a r IH]; [reflexivity|].
  cbn [Str.trimEnd]. destruct (Str.blank (String a r)) eqn:E; [reflexivity|].
  cbn [Str.trimEnd]. rewrite (trimEnd_not_blank a r E), IH. reflexivity.
Qed.

Lemma starts_ws_prefix p q : starts_ws (p +:+ q) = false -> starts_ws p = false.
Proof.
  destruct p as [|a [|b [|c r]]]; try reflexivity; rewrite ?append_cons; cbn.
  - intros H. destruct q as [|b [|c q]]; cbn in H;
      apply orb_false_elim in H as [-> _]; reflexivity.
  - intros H. apply orb_false_elim in H as [-> H].
    destruct q; cbn in H; apply orb_false_elim in H as [-> _]; reflexivity.
  - intros H. exact H.
Qed.

Lemma trim_idem s : Str.trim (Str.trim s) = Str.trim s.
Proof.
  unfold Str.trim.
  pose proof (trimStart_starts _ s (le_n _)) as H.
  destruct (trimEnd_split (Str.trimStart s)) as (t & Hs & _).
  rewrite Hs in H. apply starts_ws_prefix in H.
  rewrite (trimStart_fixed _ H). apply trimEnd_idem.
Qed.

(** ** How api.request ends *)

Section RequestsMore.

Variable P : Platform.

(** How api.request ends, for each way its fetch can end. *)
Lemma request_outcome endpoint options w :
  (request P endpoint options w).1
    = match (settle (Some 10000) (request_reply P endpoint options w)).1 with
      | Returns res =>
          if res_ok res then Returns (body_data P (res_text res))
          else Throws (request_rethrown (API_BASE_URL w) (Error_ (http_error_text res)))
      | Throws e => Throws (request_rethrown (API_BASE_URL w) e)
      | Hangs => Hangs
      end.
Proof.
  unfold request_reply, request_sent, request_rethrown, http_error_text, body_data.
  unfold request, request_prelude, read_token. unfold_monad.
  unfold fetch, getItem, storage_call. cbn.
  destruct (storage_fault P _ _) as [e0|]; cbn; flatten_journal; rewrite lookup_insert_eq.
  all: destruct (network P _ _) as [l r|l e|]; cbn.
  all: try (destruct (l <? 10000); cbn).
  all: try (destruct (res_ok r); cbn).
  all: try (destruct (err_name e =? "AbortError")%string eqn:Hname; cbn).
  all: try (destruct (Str.includes "Network request failed" (err_message e)); cbn).
  all: try (destruct (Str.includes "Network request failed" _); cbn).
  all: reflexivity.
Qed.

(** X11. An ok answer that arrives before the ten seconds are over is
    never turned into an error by its body: api.request returns the parsed
    body, and [null] when the body is empty or is not JSON. *)
Theorem request_ok_body endpoint options w l res :
  request_reply P endpoint options w = Reply l res ->
  l < 10000 ->
  res_ok res = true ->
  (request P endpoint options w).1 = Returns (body_data P (res_text res)) /\
  (res_text res = "" \/ JSON_parse P (res_text res) = None ->
   (request P endpoint options w).1 = Returns JNull).
Proof.
  intros Hreply Hl Hok. rewrite request_outcome, Hreply, settle_in_time by exact Hl.
  cbn. rewrite Hok. split; [reflexivity|].
  unfold body_data. intros [->| ->]; [reflexivity|].
  by destruct (Str.truthy (res_text res)).
Qed.

(** X12. An answer that is not ok throws an Error whose message is
    "HTTP <status>: <body>", or "Request failed (<status>)" for an empty
    body; the catch block of the same function sees this error too, so a
    body that contains "Network request failed" gives the cannot-connect
    message instead. *)
Theorem request_http_error endpoint options w l res :
  request_reply P endpoint options w = Reply l res ->
  l < 10000 ->
  res_ok res = false ->
  (request P endpoint options w).1
    = Throws (Error_ (if Str.includes "Network request failed" (http_error_text res)
                      then cannot_connect (API_BASE_URL w)
                      else http_error_text res)).
Proof.
  intros Hreply Hl Hok. rewrite request_outcome, Hreply, settle_in_time by exact Hl.
  cbn. rewrite Hok. unfold request_rethrown. cbn.
  by destruct (Str.includes _ _).
Qed.

(** X13. A fetch that is rejected before the ten seconds are over is
    rethrown by api.request as it is, unless it is named AbortError (the
    timed-out message) or its message holds "Network request failed" (the
    cannot-connect message with the base URL). *)
Theorem request_network_failure endpoint options w l e :
  request_reply P endpoint options w = Refuse l e ->
  l < 10000 ->
  (request P endpoint options w).1 = Throws (request_rethrown (API_BASE_URL w) e) /\
  (err_name e <> "AbortError" ->
   Str.includes "Network request failed" (err_message e) = true ->
   (request P endpoint options w).1 = Throws (Error_ (cannot_connect (API_BASE_URL w)))) /\
  (err_name e <> "AbortError" ->
   Str.includes "Network request failed" (err_message e) = false ->
   (request P endpoint options w).1 = Throws e).
Proof.
  intros Hreply Hl. rewrite request_outcome, Hreply. cbn.
  destruct (Z.ltb_spec l 10000); [|lia]. cbn.
  split; [reflexivity|]. unfold request_rethrown.
  split; intros Hn Hi; rewrite Hi; destruct (String.eqb_spec (err_name e) "AbortError");
    congruence.
Qed.

End RequestsMore.

(** ** The login button *)

Section LoginMore.

Variable P : Platform.

(** X14. api.login makes its one fetch without a signal and arms no timer:
    unlike api.request it has no timeout, and it stays pending exactly
    when the network never answers. *)
Theorem login_has_no_timeout email password w :
  let req := mkRequest (API_BASE_URL w +:+ "/auth/login") "POST"
               {[ "Content-Type" := "application/json" ]}
               (Some (login_body P email password)) None in
  (exists result, journal (login P email password w).2 = journal w ++ [EFetch req result]) /\
  timers (login P email password w).2 = timers w /\
  ((login P email password w).1 = Hangs <-> network P (journal w) req = Silent).
Proof.
  intros req.
  destruct (login_spec P email password w) as (Hj & _ & _ & Ht & Hend).
  fold req in Hj, Hend. cbv zeta in Hend.
  split; [eauto|]. split; [exact Ht|].
  destruct (network P (journal w) req) as [l r|l e|]; cbn in Hend.
  - split; [|discriminate]. 
    destruct (res_ok r).
    + destruct (JSON_parse P (res_text r)); rewrite Hend; discriminate.
    + destruct (JSON_parse P (res_text r)) as [[]|]; rewrite Hend; discriminate.
  - rewrite Hend. split; discriminate.
  - rewrite Hend. split; reflexivity.
Qed.

Variable AuthContext_login : list (string * option Json) -> M unit.
Variable ensureAfterLogin : M bool.

Lemma transformedUser_spec user w :
  Js.truthy (Some user) = true ->
  transformedUser (Some user) w = (Returns (transformed user), w).
Proof.
  intros Ht. unfold transformedUser, transformed. unfold_monad.
  destruct user; try discriminate; reflexivity.
Qed.

(** X15. Whatever api.login throws, the handler of the login button logs
    it and shows one alert titled "Login Failed" with the message of the
    error (or a fixed text for an empty message), navigates nowhere,
    leaves the storage alone and ends with the loading flag cleared. *)
Theorem handleLogin_failure_alert s w e :
  connectionStatus s <> failed ->
  email s <> "" -> password s <> "" ->
  (login P (email s) (password s) (attempt w)).1 = Throws e ->
  let w2 := (login P (email s) (password s) (attempt w)).2 in
  (handleLogin P AuthContext_login ensureAfterLogin s w).1 = Returns (setLoading false s) /\
  journal (handleLogin P AuthContext_login ensureAfterLogin s w).2
    = journal w2 ++ [EConsole LError [AStr "Login error:"; AErr e];
                     EAlert "Login Failed"
                       (if Str.truthy (err_message e) then err_message e
                        else "An error occurred during login") []] /\
  AsyncStorage (handleLogin P AuthContext_login ensureAfterLogin s w).2 = AsyncStorage w /\
  navigations (journal (handleLogin P AuthContext_login ensureAfterLogin s w).2) = navigations (journal w).
Proof.
  intros Hs He Hp Hthrow w2.
  destruct (login_spec P (email s) (password s) (attempt w)) as (Hj & _ & Hst & _ & _).
  fold w2 in Hj, Hst. subst w2.
  unfold handleLogin.
  assert (negb (Str.truthy (email s)) || negb (Str.truthy (password s)) = false) as Hb.
  { destruct (email s); [congruence|]. destruct (password s); [congruence|]. reflexivity. }
  assert (forall X Y : M LoginState,
            match connectionStatus s with failed => X | _ => Y end = Y) as Hm.
  { intros. destruct (connectionStatus s); congruence. }
  rewrite Hm, Hb. clear Hm.
  unfold_monad. fold (attempt w).
  destruct (login P (email s) (password s) (attempt w)) as [o w2]. cbn in *. subst o.
  cbn. flatten_journal. split; [reflexivity|]. split; [reflexivity|].
  split; [exact Hst|].
  unfold navigations. rewrite Hj, !omap_app. cbn. by rewrite !app_nil_r.
Qed.

(** X16. After a login whose response has a truthy [success] and a truthy
    [user], once the auth context has stored the transformed user, the
    handler navigates to /dashboard whatever the location service
    answers: ready, not ready (one more console line) or an error, which
    is swallowed. *)
Theorem handleLogin_success_navigates s w fields user w4 :
  connectionStatus s <> failed ->
  email s <> "" -> password s <> "" ->
  (login P (email s) (password s) (attempt w)).1 = Returns (JObj fields) ->
  Js.truthy (Js.assoc "success" fields) = true ->
  Js.assoc "user" fields = Some user ->
  Js.truthy (Some user) = true ->
  AuthContext_login (transformed user)
      (log_line "✅ Login successful, storing user data"
         (login P (email s) (password s) (attempt w)).2)
    = (Returns tt, w4) ->
  (ensureAfterLogin w4).1 <> Hangs ->
  let w5 := (ensureAfterLogin w4).2 in
  (handleLogin P AuthContext_login ensureAfterLogin s w).1 = Returns (setLoading false s) /\
  exists d,
    journal (handleLogin P AuthContext_login ensureAfterLogin s w).2
      = journal w5 ++ d ++ [EConsole LLog [AStr "✅ Navigating to dashboard"];
                            ENavigate "/dashboard"] /\
    (d = [] \/ d = [EConsole LLog [AStr "Location not ready yet; proceeding to dashboard"]]) /\
    AsyncStorage (handleLogin P AuthContext_login ensureAfterLogin s w).2 = AsyncStorage w5 /\
    API_BASE_URL (handleLogin P AuthContext_login ensureAfterLogin s w).2 = API_BASE_URL w5.
Proof.
  intros Hs He Hp Hlogin Hsucc Huser Htruthy Hctx Hloc w5. subst w5.
  unfold handleLogin.
  assert (negb (Str.truthy (email s)) || negb (Str.truthy (password s)) = false) as Hb.
  { destruct (email s); [congruence|]. destruct (password s); [congruence|]. reflexivity. }
  assert (forall X Y : M LoginState,
            match connectionStatus s with failed => X | _ => Y end = Y) as Hm.
  { intros. destruct (connectionStatus s); congruence. }
  rewrite Hm, Hb. clear Hm.
  unfold_monad. fold (attempt w).
  destruct (login P (email s) (password s) (attempt w)) as [o w2].
  cbn [fst snd] in *. subst o.
  cbn. rewrite Hsucc. cbn. rewrite Huser, Htruthy.
  pose proof (transformedUser_spec user) as Htr. unfold_monad.
  fold (log_line "✅ Login successful, storing user data" w2).
  rewrite Htr by exact Htruthy. rewrite Hctx.
  destruct (ensureAfterLogin w4) as [[ready| |] w5]; cbn in *; [| |congruence].
  - destruct ready; cbn; flatten_journal.
    + split; [reflexivity|]. exists []. cbn. repeat split; auto.
    + split; [reflexivity|]. eexists [_]. cbn. repeat split; auto.
  - flatten_journal. split; [reflexivity|]. exists []. cbn. repeat split; auto.
Qed.

End LoginMore.

(** ** Start-up of the screen and the shape of a token *)

Section StartupMore.

Variable P : Platform.

Lemma Exists_stalled_cons req r fs :
  r <> Hangs -> (Exists stalled ((req, r) :: fs) <-> Exists stalled fs).
Proof.
  intros Hr. rewrite Exists_cons. unfold stalled at 1. cbn. tauto.
Qed.

Lemma testUrls_stalls hs : forall failures w,
  exists d,
    journal (testUrls P hs failures w).2 = journal w ++ d /\
    Forall unguarded (fetches d) /\
    ((testUrls P hs failures w).1 = Hangs <-> Exists stalled (fetches d)).
Proof.
  induction hs as [|h rest IH]; intros failures w.
  - cbn [testUrls]. unfold_monad. cbn.
    destruct (bool_decide (failures = [])); cbn; flatten_journal;
      eexists; (split; [reflexivity|]); cbn; (split; [constructor|]);
      rewrite Exists_nil; split; [discriminate|tauto|discriminate|tauto].
  - cbn [testUrls]. unfold_monad. unfold fetch, parse. cbn.
    destruct (network P _ _) as [l r|l e|]; cbn.
    + destruct (res_ok r); cbn.
      * destruct (JSON_parse P (res_text r)); cbn;
          destruct (Str.includes ":5000" h && negb (Str.includes ":5000" (API_BASE_URL w)));
          cbn; flatten_journal;
          eexists; (split; [reflexivity|]); cbn;
          (split; [repeat constructor|]);
          rewrite Exists_stalled_cons, Exists_nil by discriminate;
          split; (discriminate || tauto).
      * match goal with |- context [testUrls P rest ?f ?w0] =>
          destruct (IH f w0) as (d & Hj & Hu & Hh);
          destruct (testUrls P rest f w0) as [o w2] end.
        cbn [journal fst snd] in *. eexists. rewrite Hj, <- ?app_assoc.
        split; [reflexivity|]. cbn. split; [constructor; [reflexivity|exact Hu]|].
        rewrite Exists_stalled_cons by discriminate. exact Hh.
    + match goal with |- context [testUrls P rest ?f ?w0] =>
          destruct (IH f w0) as (d & Hj & Hu & Hh);
          destruct (testUrls P rest f w0) as [o w2] end.
      cbn [journal fst snd] in *. eexists. rewrite Hj, <- ?app_assoc.
      split; [reflexivity|]. cbn.
      split; [constructor; [reflexivity|exact Hu]|].
      rewrite Exists_stalled_cons by discriminate. exact Hh.
    + eexists. split; [reflexivity|]. cbn. split; [repeat constructor|].
      split; [intros _; by left|reflexivity].
Qed.

(** X10. The probes of the connection test carry no signal, so the test
    has no timeout: it never throws, and it stays pending exactly when one
    of its probes is never answered. *)
Theorem testConnection_has_no_timeout w :
  exists d,
    journal (testConnection P w).2 = journal w ++ d /\
    Forall unguarded (fetches d) /\
    ((testConnection P w).1 = Hangs <-> Exists stalled (fetches d)) /\
    (forall e, (testConnection P w).1 <> Throws e).
Proof.
  destruct (testConnection_spec P w) as (d0 & v & _ & Hv & _).
  unfold testConnection in *. unfold_monad. cbv beta iota in *.
  match goal with |- context [testUrls P ?hs ?f ?w0] =>
    destruct (testUrls_stalls hs f w0) as (d & Hj & Hu & Hh);
    destruct (testUrls P hs f w0) as [o w2] end.
  cbn [journal fst snd] in *. eexists. rewrite Hj, <- ?app_assoc.
  split; [reflexivity|]. cbn. split; [exact Hu|]. split; [exact Hh|].
  intros e ->. discriminate.
Qed.

Lemma initializeApp_verdict w : exists v, verdict_of (initializeApp P w).1 = Some v.
Proof.
  unfold initializeApp. unfold mbind, M_bind.
  destruct (round_spec P w) as (d & v & Hj & Hv & Hp & url & Hr).
  destruct (detectApiBaseUrl P w) as [o1 w1]. cbn [fst snd] in *. subst o1.
  destruct (testConnection P w1) as [o2 w2]. cbn [fst snd] in *.
  destruct o2 as [[|]|e|]; cbn in Hv; try discriminate.
  - by exists Passed.
  - cbn [negb].
    destruct (round_spec P w2) as (d' & v' & Hj' & Hv' & Hp' & url' & Hr').
    destruct (detectApiBaseUrl P w2) as [o3 w3]. cbn [fst snd] in *. subst o3.
    destruct (testConnection P w3) as [o4 w4]. cbn [fst snd] in *.
    destruct o4 as [[|]|e|]; cbn in Hv'; try discriminate.
    + by exists Passed.
    + by exists Failed.
    + by exists Pending.
  - by exists Pending.
Qed.

(** X17. The effect of the login screen never throws and is pending
    exactly while initializeApp is; when it completes, the connection
    status is [connected] or [failed] according to the answer of
    initializeApp, never [checking], both the shown base and the override
    input hold the API_BASE_URL of that moment, and the typed email and
    password are untouched. *)
Theorem onMount_settles_status s w :
  (forall e, (onMount P s w).1 <> Throws e) /\
  ((onMount P s w).1 = Hangs <-> (initializeApp P w).1 = Hangs) /\
  (forall s', (onMount P s w).1 = Returns s' ->
     (initializeApp P w).1
       = Returns (match connectionStatus s' with connected => true | _ => false end) /\
     connectionStatus s' <> checking /\
     apiBase s' = API_BASE_URL (onMount P s w).2 /\
     overrideInput s' = API_BASE_URL (onMount P s w).2 /\
     email s' = email s /\ password s' = password s /\
     (onMount P s w).2 = (initializeApp P w).2).
Proof.
  destruct (initializeApp_verdict w) as (v & Hv).
  unfold onMount, getApiDiagnostics. unfold_monad.
  destruct (initializeApp P w) as [o w1]. cbn [fst snd] in *.
  destruct o as [[|]|e|]; cbn in *; try discriminate.
  - split; [discriminate|]. split; [split; discriminate|].
    intros s' [= <-]. cbn. repeat split; discriminate.
  - split; [discriminate|]. split; [split; discriminate|].
    intros s' [= <-]. cbn. repeat split; discriminate.
  - split; [discriminate|]. split; [done|]. discriminate.
Qed.

End StartupMore.

Section TokenShape.

Variable P : Platform.

Lemma split_app (c : ascii) h rest :
  Str.includes (String c "") h = false ->
  Str.split c (h +:+ String c rest) = h :: Str.split c rest.
Proof.
  induction h as [|a h IH]; intros Hh.
  - change ("" +:+ String c rest) with (String c rest).
    cbn [Str.split]. by rewrite Ascii.eqb_refl.
  - change (String a h +:+ String c rest) with (String a (h +:+ String c rest)).
    cbn [Str.split]. cbn in Hh.
    destruct (Ascii.eqb_spec c a) as [->|Hne].
    + cbn in Hh. destruct h; discriminate.
    + cbn in Hh. destruct (Ascii.eqb_spec a c) as [->|_]; [done|].
      rewrite IH; [reflexivity|].
      destruct h; exact Hh.
Qed.

Lemma jwt_payload h p s :
  Str.includes "." h = false -> Str.includes "." p = false ->
  Str.split "."%char (jwt h p s) !! 1%nat = Some p.
Proof.
  intros Hh Hp. unfold jwt.
  change ("." +:+ p +:+ "." +:+ s) with (String "."%char (p +:+ String "."%char s)).
  rewrite split_app by exact Hh. rewrite split_app by exact Hp. reflexivity.
Qed.

Lemma truthy_jwt h p s : Str.truthy (jwt h p s) = true.
Proof. unfold jwt. destruct h; reflexivity. Qed.

(** X18. isAuthenticated looks at the second segment of the token only:
    two tokens with the same payload and any headers and signatures get
    the same answer; nothing is verified. *)
Theorem isAuthenticated_reads_payload_only h1 s1 h2 s2 p w :
  Str.includes "." h1 = false -> Str.includes "." h2 = false ->
  Str.includes "." p = false ->
  (isAuthenticated P (with_token (jwt h1 p s1) w)).1
    = (isAuthenticated P (with_token (jwt h2 p s2) w)).1.
Proof.
  intros H1 H2 Hp.
  unfold isAuthenticated, getItem, storage_call, Date_now_. unfold_monad. cbn.
  destruct (storage_fault P (journal w) _); cbn; [reflexivity|].
  destruct (storage_fault P _ _); cbn; [reflexivity|].
  rewrite !lookup_insert_eq, !lookup_insert_ne by done.
  destruct (AsyncStorage w !! "userData") as [u|]; [|reflexivity].
  rewrite !truthy_jwt, !jwt_payload by assumption.
  destruct (Str.truthy u); cbn; [|reflexivity].
  destruct (decode_segment P (Some p)) as [e|decoded]; cbn; [reflexivity|].
  destruct (parse P decoded) as [e|payload]; cbn; [reflexivity|].
  destruct payload; reflexivity.
Qed.

End TokenShape.

(** ** The rest of the client *)

Section RestMore.

Variable P : Platform.

Lemma getAuthHeaders_spec w :
  exists d,
    getAuthHeaders P w
      = (Returns (auth_headers P w),
         mkWorld (API_BASE_URL w) (AsyncStorage w) (timers w) (next_timer w) (journal w ++ d)) /\
    fetches d = [].
Proof.
  unfold getAuthHeaders, auth_headers, stored_user, getItem, storage_call, parse.
  unfold_monad. cbn.
  destruct (storage_fault P _ _) as [e|]; cbn.
  { flatten_journal. eexists. split; reflexivity. }
  destruct (AsyncStorage w !! "userData") as [u|]; cbn.
  - destruct (Str.truthy u); cbn.
    + destruct (JSON_parse P u); cbn; flatten_journal; eexists; split; reflexivity.
    + eexists; split; reflexivity.
  - eexists; split; reflexivity.
Qed.

Lemma user_id_header_keys user k :
  is_Some (user_id_header user !! k) -> k = "X-User-Id".
Proof.
  unfold user_id_header. destruct (Js.truthy _).
  - intros [v Hv]. apply lookup_singleton_Some in Hv as [<- _]. reflexivity.
  - rewrite lookup_empty. intros [? ?]. discriminate.
Qed.

(** X19. getAuthHeaders never throws, whatever the storage does or holds:
    it answers with Content-Type application/json and at most one more
    header, X-User-Id; it sends nothing and writes nothing. *)
Theorem getAuthHeaders_never_fails w :
  exists hs,
    (getAuthHeaders P w).1 = Returns hs /\
    hs !! "Content-Type" = Some "application/json" /\
    (forall k, is_Some (hs !! k) -> k = "Content-Type" \/ k = "X-User-Id") /\
    AsyncStorage (getAuthHeaders P w).2 = AsyncStorage w /\
    API_BASE_URL (getAuthHeaders P w).2 = API_BASE_URL w /\
    fetches (journal (getAuthHeaders P w).2) = fetches (journal w).
Proof.
  destruct (getAuthHeaders_spec w) as (d & -> & Hf). cbn.
  exists (auth_headers P w). split; [reflexivity|].
  rewrite fetches_app, Hf, app_nil_r.
  unfold auth_headers, json_content_type.
  destruct (stored_user P w) as [user|].
  - split.
    { rewrite lookup_union_r; [reflexivity|].
      destruct (user_id_header user !! "Content-Type") eqn:E; [|reflexivity].
      assert (is_Some (user_id_header user !! "Content-Type")) as Hs by eauto.
      apply user_id_header_keys in Hs. discriminate. }
    split; [|auto].
    intros k [v Hk]. apply lookup_union_Some_raw in Hk as [Hk|[_ Hk]].
    + right. apply (user_id_header_keys user). eauto.
    + left. apply lookup_singleton_Some in Hk as [<- _]. reflexivity.
  - split; [reflexivity|]. split; [|auto].
    intros k [v Hk]. left. apply lookup_singleton_Some in Hk as [<- _]. reflexivity.
Qed.

(** X20. getMyAssignments makes one GET of
    <base>/delivery-assignments/my-assignments without a body; deleting
    Content-Type from the headers it passes loses nothing, since
    api.request sets that header itself; X-User-Id is the one of
    getAuthHeaders and Authorization the one api.request derives from the
    stored token. *)
Theorem getMyAssignments_headers w :
  let endpoint := "/delivery-assignments/my-assignments" in
  let w1 := (getAuthHeaders P w).2 in
  exists d req result,
    journal (getMyAssignments P w).2 = journal w ++ d /\
    fetches d = [(req, result)] /\
    req_url req = API_BASE_URL w +:+ endpoint /\
    req_method req = "GET" /\
    req_body req = None /\
    req_headers req !! "Content-Type" = Some "application/json" /\
    req_headers req !! "X-User-Id" = auth_headers P w !! "X-User-Id" /\
    req_headers req !! "Authorization" = bearer (read_token P endpoint w1) !! "Authorization".
Proof.
  intros endpoint w1. subst w1.
  unfold getMyAssignments. unfold mbind, M_bind.
  destruct (getAuthHeaders_spec w) as (d0 & -> & Hf0). cbn [fst snd].
  match goal with |- context [request P ?ep ?opts ?w0] =>
    destruct (request_spec P ep opts w0) as (mid & Hj & Hpre & Hmid & _);
    set (w1 := w0) in * end.
  fold endpoint in Hj, Hpre |- *.
  eexists; eexists; eexists. rewrite Hj. cbn [journal w1]. rewrite <- app_assoc.
  split; [reflexivity|].
  rewrite !fetches_app, Hf0, Hpre, Hmid. cbn -[config_headers].
  split; [reflexivity|]. split; [reflexivity|]. split; [reflexivity|].
  split; [reflexivity|].
  cbn [req_headers]. rewrite !config_headers_lookup. cbn [opt_headers from_option id].
  rewrite !lookup_delete.
  repeat case_decide; try congruence.
  assert (forall t, bearer t !! "Content-Type" = None) as Hb1.
  { intros [t|]; cbn; [destruct (Str.truthy t)|]; reflexivity. }
  assert (forall t, bearer t !! "X-User-Id" = None) as Hb2.
  { intros [t|]; cbn; [destruct (Str.truthy t)|]; reflexivity. }
  assert (auth_headers P w !! "Authorization" = None) as Hb3.
  { destruct (auth_headers P w !! "Authorization") eqn:E; [|reflexivity].
    unfold auth_headers in E. destruct (stored_user P w) as [user|].
    - apply lookup_union_Some_raw in E as [E|[_ E]].
      + assert (is_Some (user_id_header user !! "Authorization")) as Hs by eauto.
        apply user_id_header_keys in Hs. discriminate.
      + discriminate.
    - discriminate. }
  rewrite Hb1, Hb2, Hb3. split; [reflexivity|]. split.
  - destruct (auth_headers P w !! "X-User-Id"); reflexivity.
  - destruct (bearer _ !! "Authorization"); reflexivity.
Qed.

(** X21. api.refreshToken never writes: the storage, the base and the
    timers are as before, so the new token reaches the caller only.  It
    makes at most one fetch, without Authorization header and without
    signal, and none at all when no refresh token is stored: then it
    throws "No refresh token". *)
Theorem refreshToken_keeps_storage w :
  AsyncStorage (refreshToken P w).2 = AsyncStorage w /\
  API_BASE_URL (refreshToken P w).2 = API_BASE_URL w /\
  (refreshToken P w).2.(timers) = timers w /\
  exists d,
    journal (refreshToken P w).2 = journal w ++ d /\
    (length (fetches d) <= 1)%nat /\
    Forall unsigned (fetches d) /\
    Forall unguarded (fetches d) /\
    (storage_fault P (journal w) (GetItem "refreshToken") = None ->
     default "" (AsyncStorage w !! "refreshToken") = "" ->
     (refreshToken P w).1 = Throws (Error_ "No refresh token") /\ fetches d = []).
Proof.
  unfold refreshToken, getItem, storage_call, fetch. unfold_monad. unfold parse. cbn.
  destruct (storage_fault P _ _) as [e|]; cbn.
  { repeat split. eexists. split; [reflexivity|]. cbn.
    split; [lia|]. split; [constructor|]. split; [constructor|]. discriminate. }
  destruct (AsyncStorage w !! "refreshToken") as [t|]; cbn.
  - destruct t as [|c t]; cbn.
    + repeat split. eexists. split; [reflexivity|]. cbn.
      split; [lia|]. split; [constructor|]. split; [constructor|]. auto.
    + destruct (network P _ _) as [l r|l e|]; cbn.
      * destruct (res_ok r); cbn.
        -- destruct (JSON_parse P (res_text r)) as [[]|]; cbn; flatten_journal;
             repeat split; eexists; (split; [reflexivity|]); cbn;
             (split; [lia|]); (split; [repeat constructor|]);
             (split; [repeat constructor|]); discriminate.
        -- flatten_journal. repeat split; eexists; (split; [reflexivity|]); cbn;
             (split; [lia|]); (split; [repeat constructor|]);
             (split; [repeat constructor|]); discriminate.
      * flatten_journal. repeat split; eexists; (split; [reflexivity|]); cbn;
             (split; [lia|]); (split; [repeat constructor|]);
             (split; [repeat constructor|]); discriminate.
      * flatten_journal. repeat split; eexists; (split; [reflexivity|]); cbn;
             (split; [lia|]); (split; [repeat constructor|]);
             (split; [repeat constructor|]); discriminate.
  - repeat split. eexists. split; [reflexivity|]. cbn.
    split; [lia|]. split; [constructor|]. split; [constructor|]. auto.
Qed.

Lemma fetch_list_spec path what w :
  let req := mkRequest (API_BASE_URL w +:+ path) "GET" ∅ None None in
  let result := (settle None (network P (journal w) req)).1 in
  (fetch_list P path what w).2
    = mkWorld (API_BASE_URL w) (AsyncStorage w) (timers w) (next_timer w)
        (journal w ++ [EFetch req result]) /\
  (fetch_list P path what w).1
    = match result with
      | Returns res =>
          if res_ok res
          then Returns (if Js.truthy (Some (body_data P (res_text res)))
                        then body_data P (res_text res) else JArr [])
          else Throws (Error_ ("HTTP " +:+ pretty (res_status res)
                               +:+ ": Failed to fetch " +:+ what))
      | Throws e => Throws e
      | Hangs => Hangs
      end.
Proof.
  intros req result. subst result req.
  unfold fetch_list, fetch, body_data. unfold_monad. cbn.
  destruct (network P _ _) as [l r|l e|]; cbn; [|auto..].
  destruct (res_ok r); cbn; auto.
Qed.

Lemma fetch_list_truthy path what w v :
  (fetch_list P path what w).1 = Returns v -> Js.truthy (Some v) = true.
Proof.
  destruct (fetch_list_spec path what w) as [_ ->]. cbv zeta.
  destruct (settle None _).1 as [res| |]; try discriminate.
  destruct (res_ok res); try discriminate.
  destruct (Js.truthy (Some (body_data P (res_text res)))) eqn:E; intros [= <-];
    [exact E|reflexivity].
Qed.

(** X22. getCompletedDeliveries and getActiveAssignments never return a
    falsy value: [null], [false], [0] and the empty string are replaced
    by an empty array. *)
Theorem lists_are_never_falsy w v :
  ((getCompletedDeliveries P w).1 = Returns v -> Js.truthy (Some v) = true) /\
  ((getActiveAssignments P w).1 = Returns v -> Js.truthy (Some v) = true).
Proof. split; apply fetch_list_truthy. Qed.

(** X23. getCompletedDeliveries is one GET of
    <base>/delivery-assignments/completed with no header at all (no token
    even when one is stored), no signal and no storage call; it is pending
    exactly when the network is silent; a response that is not ok throws
    "HTTP <status>: Failed to fetch completed deliveries" whatever the
    body says, and an ok response with a falsy body gives an empty
    array. *)
Theorem getCompletedDeliveries_is_public w :
  let req := mkRequest (API_BASE_URL w +:+ "/delivery-assignments/completed") "GET" ∅ None None in
  let reply := network P (journal w) req in
  exists result,
    journal (getCompletedDeliveries P w).2 = journal w ++ [EFetch req result] /\
    req_headers req = ∅ /\
    AsyncStorage (getCompletedDeliveries P w).2 = AsyncStorage w /\
    ((getCompletedDeliveries P w).1 = Hangs <-> reply = Silent) /\
    (forall l res, reply = Reply l res -> res_ok res = false ->
       (getCompletedDeliveries P w).1
         = Throws (Error_ ("HTTP " +:+ pretty (res_status res)
                           +:+ ": Failed to fetch completed deliveries"))) /\
    (forall l res, reply = Reply l res -> res_ok res = true ->
       Js.truthy (Some (body_data P (res_text res))) = false ->
       (getCompletedDeliveries P w).1 = Returns (JArr [])).
Proof.
  intros req reply. subst reply.
  destruct (fetch_list_spec "/delivery-assignments/completed" "completed deliveries" w)
    as [Hw Hr].
  fold req in Hw, Hr. cbv zeta in Hr. unfold getCompletedDeliveries.
  rewrite Hw, Hr. cbn [journal AsyncStorage]. eexists. split; [reflexivity|].
  split; [reflexivity|]. split; [reflexivity|].
  destruct (network P (journal w) req) as [l r|l e|]; cbn.
  - split; [split; [destruct (res_ok r); discriminate|discriminate]|].
    split; intros l' res [= _ <-]; [intros ->; reflexivity|intros -> ->; reflexivity].
  - split; [split; discriminate|]. split; discriminate.
  - split; [split; reflexivity|]. split; discriminate.
Qed.

(** X24. getDeliveryAssignment hands back the [data] of an envelope whose
    [success] is truthy, whatever that data is, and the parsed body as it
    is when [success] is falsy or there is no [data]. *)
Theorem getDeliveryAssignment_unwraps id w l res fields :
  request_reply P ("/delivery-assignments/" +:+ id) no_options w = Reply l res ->
  l < 10000 ->
  res_ok res = true ->
  res_text res <> "" ->
  JSON_parse P (res_text res) = Some (JObj fields) ->
  (Js.truthy (Js.assoc "success" fields) = true ->
   forall data, Js.assoc "data" fields = Some data ->
   (getDeliveryAssignment P id w).1 = Returns data) /\
  (Js.truthy (Js.assoc "success" fields) = false \/ Js.assoc "data" fields = None ->
   (getDeliveryAssignment P id w).1 = Returns (JObj fields)).
Proof.
  intros Hreply Hl Hok Htext Hparse.
  assert ((request P ("/delivery-assignments/" +:+ id) no_options w).1
          = Returns (JObj fields)) as Hreq.
  { rewrite request_outcome, Hreply, settle_in_time by exact Hl. cbn. rewrite Hok.
    unfold body_data. rewrite Hparse. destruct (res_text res); [congruence|reflexivity]. }
  unfold getDeliveryAssignment. unfold_monad.
  destruct (request P _ _ w) as [o w1]. cbn in Hreq. subst o. cbn.
  split.
  - intros Hs data Hd. by rewrite Hd, Hs.
  - intros [Hs| Hd].
    + rewrite Hs. by destruct (Js.assoc "data" fields).
    + by rewrite Hd.
Qed.

(** X25. Stored user data that is not JSON makes getCurrentUser throw the
    SyntaxError of JSON.parse, while getAuthHeaders catches it and answers
    with Content-Type alone. *)
Theorem corrupt_userData u w :
  storage_fault P (journal w) (GetItem "userData") = None ->
  AsyncStorage w !! "userData" = Some u ->
  u <> "" ->
  JSON_parse P u = None ->
  (getCurrentUser P w).1 = Throws (SyntaxError_ "JSON Parse error") /\
  (getAuthHeaders P w).1 = Returns json_content_type.
Proof.
  intros Hf Hu Hne Hparse. split.
  - unfold getCurrentUser, getItem, storage_call, parse. unfold_monad.
    rewrite Hf. cbn. rewrite Hu. destruct u; [congruence|]. cbn.
    cbn in Hparse. rewrite Hparse. reflexivity.
  - destruct (getAuthHeaders_spec w) as (d & -> & _). cbn.
    unfold auth_headers, stored_user. rewrite Hf, Hu.
    destruct u; [congruence|]. cbn. cbn in Hparse. rewrite Hparse. reflexivity.
Qed.

End RestMore.

(** ** The manual override *)

Section OverrideMore.

Variable P : Platform.

Lemma cut_none sep s : Str.includes sep s = false -> Str.cut sep s = None.
Proof.
  induction s as [|c s IH]; cbn.
  - intros H. apply orb_false_elim in H as [-> _]. reflexivity.
  - intros H. apply orb_false_elim in H as [-> H]. by rewrite (IH H).
Qed.

Lemma host_of_base_authority auth path :
  Str.includes "/" auth = false ->
  Str.includes "://" (auth +:+ "/" +:+ path) = false ->
  host_of_base ("http://" +:+ auth +:+ "/" +:+ path) = auth /\
  host_of_base ("https://" +:+ auth +:+ "/" +:+ path) = auth.
Proof.
  intros Hauth Hrest.
  assert (default "" (head (Str.split "/"%char (auth +:+ "/" +:+ path))) = auth) as Hhead.
  { change ("/" +:+ path) with (String "/"%char path).
    rewrite split_app by exact Hauth. reflexivity. }
  unfold host_of_base, Str.split_1.
  change (Str.cut "://" ("http://" +:+ auth +:+ "/" +:+ path))
    with (Some ("http", auth +:+ "/" +:+ path)).
  change (Str.cut "://" ("https://" +:+ auth +:+ "/" +:+ path))
    with (Some ("https", auth +:+ "/" +:+ path)).
  unfold Str.split_0. rewrite (cut_none _ _ Hrest). auto.
Qed.

Lemma host_of_base_needs_scheme s :
  Str.includes "://" s = false -> host_of_base s = "".
Proof.
  intros H. unfold host_of_base, Str.split_1. by rewrite (cut_none _ _ H).
Qed.

Lemma setApiBaseUrl_ignores_unusable url w :
  usable_url url = false ->
  setApiBaseUrl P url w = (Returns (API_BASE_URL w), w).
Proof.
  intros H. unfold setApiBaseUrl. destruct url; try reflexivity.
  cbn in H. rewrite H. destruct w; reflexivity.
Qed.

Lemma setApiBaseUrl_spec s w :
  Str.truthy (Str.trim s) = true ->
  let b := Str.strip_trailing_slash s in
  let fault := storage_fault P (journal w) (SetItem "lastApiHost" (host_of_base b)) in
  setApiBaseUrl P (JStr s) w
    = (Returns b,
       mkWorld b
         (match fault with
          | Some _ => AsyncStorage w
          | None => <["lastApiHost" := host_of_base b]> (AsyncStorage w)
          end)
         (timers w) (next_timer w)
         (journal w ++ [EStorage (SetItem "lastApiHost" (host_of_base b)) fault;
                        EConsole LLog [AStr "🔧 Manual API_BASE_URL override:"; AStr b]])).
Proof.
  intros Ht b fault. subst fault b.
  unfold setApiBaseUrl. rewrite Ht. unfold setItem, storage_call. unfold_monad. cbn.
  destruct (storage_fault P _ _); cbn; flatten_journal; reflexivity.
Qed.

(** X26. setApiBaseUrl with a string that is not blank makes the string,
    less one trailing slash, the API_BASE_URL, returns it, and
    getApiDiagnostics shows it; it sends nothing, touches no key of the
    storage but lastApiHost, and caches there the host part of the URL
    when the storage accepts the write.  A call with anything else (a
    blank string, a value that is no string) changes nothing and returns
    the base as it stands. *)
Theorem setApiBaseUrl_overrides s w :
  Str.trim s <> "" ->
  (forall url, usable_url url = false ->
     setApiBaseUrl P url (setApiBaseUrl P (JStr s) w).2
       = (Returns (Str.strip_trailing_slash s), (setApiBaseUrl P (JStr s) w).2)) /\
  (setApiBaseUrl P (JStr s) w).1 = Returns (Str.strip_trailing_slash s) /\
  API_BASE_URL (setApiBaseUrl P (JStr s) w).2 = Str.strip_trailing_slash s /\
  (getApiDiagnostics (setApiBaseUrl P (JStr s) w).2).1 = Returns (Str.strip_trailing_slash s) /\
  fetches (journal (setApiBaseUrl P (JStr s) w).2) = fetches (journal w) /\
  (forall k, k <> "lastApiHost" ->
     AsyncStorage (setApiBaseUrl P (JStr s) w).2 !! k = AsyncStorage w !! k) /\
  (storage_fault P (journal w)
     (SetItem "lastApiHost" (host_of_base (Str.strip_trailing_slash s))) = None ->
   AsyncStorage (setApiBaseUrl P (JStr s) w).2 !! "lastApiHost"
     = Some (host_of_base (Str.strip_trailing_slash s))).
Proof.
  intros Hs.
  assert (Str.truthy (Str.trim s) = true) as Ht
    by (destruct (Str.trim s) eqn:E; [congruence|reflexivity]).
  split.
  { intros url Hu. rewrite (setApiBaseUrl_ignores_unusable url _ Hu).
    rewrite (setApiBaseUrl_spec s w Ht). reflexivity. }
  rewrite (setApiBaseUrl_spec s w Ht). cbn.
  repeat split.
  - rewrite fetches_app. cbn. apply app_nil_r.
  - intros k Hk. destruct (storage_fault P _ _); [reflexivity|].
    by rewrite lookup_insert_ne.
  - intros ->. by rewrite lookup_insert_eq.
Qed.

(** X27. The host of a manual override http://<authority>/api is cached
    with its port, and the next detection (with no host forced through
    the environment) probes it first, at http://<authority>/api/health. *)
Theorem override_then_detect auth w :
  envBase P = None ->
  envHost P = None ->
  storage_sound P ->
  auth <> "" ->
  Str.includes "/" auth = false ->
  Str.includes "://" (auth +:+ "/api") = false ->
  let w1 := (setApiBaseUrl P (JStr ("http://" +:+ auth +:+ "/api")) w).2 in
  API_BASE_URL w1 = "http://" +:+ auth +:+ "/api" /\
  exists d f fs,
    journal (detectApiBaseUrl P w1).2 = journal w1 ++ d /\
    fetches d = f :: fs /\
    req_url f.1 = "http://" +:+ auth +:+ "/api/health".
Proof.
  intros Henv Hhost Hs Hne Hauth Hrest w1. subst w1.
  assert (Str.strip_trailing_slash ("http://" +:+ auth +:+ "/api") = "http://" +:+ auth +:+ "/api")
    as Hstrip.
  { rewrite <- (append_assoc "http://" auth "/api"), (strip_app_nonempty _ "/"%char "api").
    rewrite append_assoc. reflexivity. }
  assert (Str.truthy (Str.trim ("http://" +:+ auth +:+ "/api")) = true) as Ht.
  { destruct (trimEnd_split (Str.trimStart ("http://" +:+ auth +:+ "/api"))) as (t & Heq & _).
    change (Str.trimStart ("http://" +:+ auth +:+ "/api")) with ("http://" +:+ auth +:+ "/api") in Heq.
    unfold Str.trim.
    change (Str.trimStart ("http://" +:+ auth +:+ "/api")) with ("http://" +:+ auth +:+ "/api").
    change (Str.trimEnd ("http://" +:+ auth +:+ "/api"))
      with (String "h" (Str.trimEnd ("ttp://" +:+ auth +:+ "/api"))).
    reflexivity. }
  rewrite (setApiBaseUrl_spec _ w Ht). rewrite Hstrip, Hs. cbn [fst snd API_BASE_URL].
  split; [reflexivity|].
  destruct (host_of_base_authority auth "api" Hauth Hrest) as [Hh _].
  change ("/" +:+ "api") with "/api" in Hh. rewrite Hh.
  match goal with |- context [detectApiBaseUrl P ?w0] =>
    destruct (detect_spec P w0 Henv) as (d' & hit & Hj' & Hscan & _) end.
  unfold storedHost in Hscan. cbn [journal AsyncStorage] in Hscan.
  rewrite Hs, lookup_insert_eq, Hhost in Hscan.
  unfold candidates in Hscan. cbn [filter_Boolean omap list_omap] in Hscan.
  assert (Str.truthy auth = true) as Hta by (destruct auth; [congruence|reflexivity]).
  rewrite Hta in Hscan. cbn in Hscan.
  apply scan_first in Hscan as (f & fs & Hfs & Hu).
  eexists; exists f, fs. split; [exact Hj'|]. split; [|exact Hu].
  rewrite fetches_app. exact Hfs.
Qed.

(** X28. The override button does nothing for a blank input; otherwise the
    trimmed input always passes the blank test of setApiBaseUrl, so the
    new base, the base shown on the screen and the text of the alert
    "API Base Updated" are all the trimmed input less one trailing
    slash; no request is sent. *)
Theorem applyOverride_outcome s w :
  (Str.trim (overrideInput s) = "" -> applyOverride P s w = (Returns s, w)) /\
  (Str.trim (overrideInput s) <> "" ->
   let b := Str.strip_trailing_slash (Str.trim (overrideInput s)) in
   (applyOverride P s w).1
     = Returns (mkLoginState (email s) (password s) (loading s) (connectionStatus s)
                  b (showDebug s) (overrideInput s)) /\
   API_BASE_URL (applyOverride P s w).2 = b /\
   exists d,
     journal (applyOverride P s w).2 = journal w ++ d ++ [EAlert "API Base Updated" b []] /\
     fetches d = []).
Proof.
  unfold applyOverride. split.
  - intros ->. reflexivity.
  - intros Hne. set (b := Str.strip_trailing_slash (Str.trim (overrideInput s))).
    assert (Str.truthy (Str.trim (overrideInput s)) = true) as Ht
      by (destruct (Str.trim (overrideInput s)) eqn:E; [congruence|reflexivity]).
    rewrite Ht. cbn [negb]. unfold mbind, M_bind.
    rewrite setApiBaseUrl_spec by (by rewrite trim_idem).
    fold b. unfold_monad. cbn. repeat split.
    eexists [_; _]. flatten_journal. split; reflexivity.
Qed.

End OverrideMore.

(** ** The further properties on concrete platforms *)

Lemma storage_works_sound net : storage_sound (android net storage_works).
Proof. intros j op. reflexivity. Qed.

(** A build with EXPO_PUBLIC_API_BASE set adopts it without probing. *)
Lemma detect_trusts_explicit_base_witness :
  envBase configured_device = Some configured_base /\
  (detectApiBaseUrl configured_device fresh_world).1 = Returns "http://10.0.2.2:5000/api" /\
  fetches (journal (detectApiBaseUrl configured_device fresh_world).2) = [].
Proof.
  split; [reflexivity|].
  destruct (detect_trusts_explicit_base configured_device configured_base fresh_world eq_refl)
    as (_ & Hr & _ & _ & _ & Hj).
  split; [exact Hr|]. rewrite Hj. reflexivity.
Defined.

(** On the emulator the detection finds the back end on port 5000 of
    10.0.2.2 and caches that host. *)
Lemma detect_caches_found_host_witness :
  envBase emulator_device = None /\
  storage_sound emulator_device /\
  AsyncStorage (detectApiBaseUrl emulator_device fresh_world).2 !! "lastApiHost"
    = Some "10.0.2.2" /\
  exists d,
    journal (detectApiBaseUrl emulator_device fresh_world).2 = journal fresh_world ++ d /\
    (some_reachable d \/ Forall unreachable (fetches d)).
Proof.
  split; [reflexivity|]. split; [apply storage_works_sound|].
  split; [vm_compute; reflexivity|].
  destruct (detect_caches_found_host emulator_device fresh_world eq_refl
              (storage_works_sound net_emulator)) as (d & Hj & Hcase).
  exists d. split; [exact Hj|].
  destruct Hcase as [(_ & Hr)|(_ & _ & _ & Hu)]; auto.
Defined.

Lemma emulator_detection_reaches :
  some_reachable (journal (detectApiBaseUrl emulator_device fresh_world).2).
Proof.
  unfold some_reachable. apply Exists_exists.
  exists (mkRequest "http://10.0.2.2:5000/api/health" "GET" ∅ None (Some 9%nat),
          Returns (mkResponse 200 "{}")).
  split; [|reflexivity].
  vm_compute. repeat first [apply list_elem_of_here | apply list_elem_of_further].
Qed.

(** After that detection, the next one goes to 10.0.2.2 first. *)
Lemma detect_again_starts_at_found_host_witness :
  envBase emulator_device = None /\
  envHost emulator_device = None /\
  exists h v,
    v ∈ variants h /\
    API_BASE_URL (detectApiBaseUrl emulator_device fresh_world).2 = base v /\
    exists d' f fs,
      journal (detectApiBaseUrl emulator_device
                 (detectApiBaseUrl emulator_device fresh_world).2).2
        = journal (detectApiBaseUrl emulator_device fresh_world).2 ++ d' /\
      fetches d' = f :: fs /\
      req_url f.1 = "http://" +:+ h +:+ "/api/health".
Proof.
  split; [reflexivity|]. split; [reflexivity|].
  apply (detect_again_starts_at_found_host emulator_device fresh_world
           (journal (detectApiBaseUrl emulator_device fresh_world).2));
    [reflexivity | reflexivity | apply storage_works_sound | reflexivity
    | exact emulator_detection_reaches].
Defined.

Lemma offline_detection_unreachable :
  Forall unreachable (fetches (journal (detectApiBaseUrl offline_device fresh_world).2)).
Proof. vm_compute. repeat constructor. Qed.

(** Offline, an unconfigured Android device makes sixteen probes: four
    for each of 16.176.194.83 (twice), 10.0.2.2 and localhost. *)
Lemma failed_detection_probes_every_variant_witness :
  envBase offline_device = None /\
  map (fun f => req_url f.1)
      (fetches (journal (detectApiBaseUrl offline_device fresh_world).2))
    = map health (probe_plan ["16.176.194.83"; "16.176.194.83"; "10.0.2.2"; "localhost"]) /\
  length (fetches (journal (detectApiBaseUrl offline_device fresh_world).2)) = 16%nat.
Proof.
  split; [reflexivity|].
  destruct (failed_detection_probes_every_variant offline_device fresh_world
              (journal (detectApiBaseUrl offline_device fresh_world).2)
              eq_refl eq_refl offline_detection_unreachable) as (Hurls & Hlen & _).
  split; [exact Hurls | exact Hlen].
Defined.

(** Expo Go reports 192.168.1.7:8081; the host is 192.168.1.7. *)
Lemma packagerHost_has_no_port_witness :
  packagerHost expo_go_device = Some "192.168.1.7" /\
  Str.includes ":" "192.168.1.7" = false.
Proof.
  split; [reflexivity|].
  apply (packagerHost_has_no_port expo_go_device). reflexivity.
Defined.

Lemma healthUrls_of_port_80_base_witness :
  healthUrls ("http://" +:+ "10.0.2.2" +:+ "/api")
    = [ "http://" +:+ "10.0.2.2" +:+ "/api/health";
        "http://" +:+ "10.0.2.2" +:+ ":5000/api/health" ].
Proof. apply (healthUrls_of_port_80_base "10.0.2.2"); reflexivity. Defined.

(** For api.example.com the second URL is http:/.example.com/api:5000/api/health. *)
Lemma healthUrls_of_api_host_witness :
  healthUrls ("http://api" +:+ ".example.com" +:+ "/api")
    = [ "http://api" +:+ ".example.com" +:+ "/api/health";
        "http:/" +:+ ".example.com" +:+ "/api:5000/api/health" ].
Proof. apply (healthUrls_of_api_host ".example.com"). reflexivity. Defined.

(** On the emulator, with the right base, one probe settles the test. *)
Lemma testConnection_single_probe_witness :
  Str.includes ":5000" (API_BASE_URL emulator_world) = true /\
  (testConnection emulator_device emulator_world).1 = Returns true /\
  exists d,
    journal (testConnection emulator_device emulator_world).2 = journal emulator_world ++ d /\
    length (fetches d) = 1%nat.
Proof.
  split; [reflexivity|].
  destruct (testConnection_single_probe emulator_device emulator_world eq_refl)
    as (d & Hj & Hf & _ & _ & Hr).
  split; [exact Hr|]. exists d. split; [exact Hj|]. rewrite Hf. reflexivity.
Defined.

(** With the base on port 80 the second probe succeeds, and the base
    moves to port 5000. *)
Lemma testConnection_port_fallback_witness :
  Str.includes ":5000" (API_BASE_URL port80_world) = false /\
  API_BASE_URL (testConnection emulator_device port80_world).2 = "http://10.0.2.2:5000/api" /\
  exists d,
    journal (testConnection emulator_device port80_world).2 = journal port80_world ++ d /\
    AsyncStorage (testConnection emulator_device port80_world).2 = AsyncStorage port80_world.
Proof.
  split; [reflexivity|]. split; [vm_compute; reflexivity|].
  destruct (testConnection_port_fallback emulator_device port80_world eq_refl)
    as (d & Hj & Hs & _).
  exists d. split; [exact Hj | exact Hs].
Defined.

(** The emulator's back end answers /profile with the body {}. *)
Lemma request_ok_body_witness :
  request_reply emulator_device "/profile" no_options emulator_world
    = Reply 20 (mkResponse 200 "{}") /\
  (request emulator_device "/profile" no_options emulator_world).1 = Returns (JObj []).
Proof.
  split; [reflexivity|].
  apply (proj1 (request_ok_body emulator_device "/profile" no_options emulator_world
                  20 (mkResponse 200 "{}") eq_refl eq_refl eq_refl)).
Defined.

(** Status 401 with the body null. *)
Lemma request_http_error_witness :
  request_reply null_body_device "/profile" no_options fresh_world
    = Reply 20 (mkResponse 401 "null") /\
  (request null_body_device "/profile" no_options fresh_world).1
    = Throws (Error_ "HTTP 401: null").
Proof.
  split; [reflexivity|].
  apply (request_http_error null_body_device "/profile" no_options fresh_world
           20 (mkResponse 401 "null") eq_refl eq_refl eq_refl).
Defined.

(** Offline: the failure of fetch becomes the cannot-connect message. *)
Lemma request_network_failure_witness :
  request_reply offline_device "/profile" no_options fresh_world = Refuse 5 network_failure /\
  (request offline_device "/profile" no_options fresh_world).1
    = Throws (Error_ (cannot_connect initial_API_BASE_URL)).
Proof.
  split; [reflexivity|].
  destruct (request_network_failure offline_device "/profile" no_options fresh_world
              5 network_failure eq_refl eq_refl) as (_ & Hnet & _).
  apply Hnet; [discriminate | reflexivity].
Defined.

(** Offline, the login button ends in the alert. *)
Lemma handleLogin_failure_alert_witness :
  (login offline_device (email ready_screen) (password ready_screen) (attempt fresh_world)).1
    = Throws network_failure /\
  (handleLogin offline_device demo_AuthContext_login demo_ensureAfterLogin
     ready_screen fresh_world).1 = Returns (setLoading false ready_screen) /\
  navigations (journal (handleLogin offline_device demo_AuthContext_login
                          demo_ensureAfterLogin ready_screen fresh_world).2) = [].
Proof.
  split; [reflexivity|].
  destruct (handleLogin_failure_alert offline_device demo_AuthContext_login
              demo_ensureAfterLogin ready_screen fresh_world network_failure)
    as (Hr & _ & _ & Hn);
    [discriminate | discriminate | discriminate | reflexivity |].
  split; [exact Hr | exact Hn].
Defined.

(** With a back end that accepts the login, the screen moves on. *)
Lemma handleLogin_success_navigates_witness :
  (login envelope_device (email ready_screen) (password ready_screen) (attempt fresh_world)).1
    = Returns (JObj envelope_fields) /\
  (handleLogin envelope_device demo_AuthContext_login demo_ensureAfterLogin
     ready_screen fresh_world).1 = Returns (setLoading false ready_screen) /\
  navigations (journal (handleLogin envelope_device demo_AuthContext_login
                          demo_ensureAfterLogin ready_screen fresh_world).2)
    = ["/dashboard"].
Proof.
  split; [reflexivity|].
  split; [|vm_compute; reflexivity].
  apply (handleLogin_success_navigates envelope_device demo_AuthContext_login
           demo_ensureAfterLogin ready_screen fresh_world envelope_fields
           (JObj [("id", JNum 7)])
           (log_line "✅ Login successful, storing user data"
              (login envelope_device (email ready_screen) (password ready_screen)
                 (attempt fresh_world)).2));
    [discriminate | discriminate | discriminate | reflexivity | reflexivity
    | reflexivity | reflexivity | reflexivity | discriminate].
Defined.

(** A forged header and signature around the payload of the session:
    the answer is the same, and it is [true]. *)
Lemma isAuthenticated_reads_payload_only_witness :
  Str.includes "." payload_2100_base64 = false /\
  (isAuthenticated emulator_device
     (with_token (jwt "h" payload_2100_base64 "s") signed_in_world)).1 = Returns true /\
  (isAuthenticated emulator_device
     (with_token (jwt "h" payload_2100_base64 "s") signed_in_world)).1
    = (isAuthenticated emulator_device
         (with_token (jwt "forged" payload_2100_base64 "") signed_in_world)).1.
Proof.
  split; [reflexivity|]. split; [vm_compute; reflexivity|].
  apply (isAuthenticated_reads_payload_only emulator_device "h" "s" "forged" "");
    reflexivity.
Defined.

(** The envelope of the back end is opened. *)
Lemma getDeliveryAssignment_unwraps_witness :
  request_reply envelope_device ("/delivery-assignments/" +:+ "7") no_options fresh_world
    = Reply 20 (mkResponse 200 envelope_text) /\
  (getDeliveryAssignment envelope_device "7" fresh_world).1 = Returns (JObj [("id", JNum 7)]).
Proof.
  split; [reflexivity|].
  destruct (getDeliveryAssignment_unwraps envelope_device "7" fresh_world 20
              (mkResponse 200 envelope_text) envelope_fields)
    as [Hopen _]; [reflexivity | reflexivity | reflexivity | discriminate | reflexivity |].
  apply Hopen; reflexivity.
Defined.

(** Damaged user data. *)
Lemma corrupt_userData_witness :
  AsyncStorage corrupt_world !! "userData" = Some "oops" /\
  JSON_parse emulator_device "oops" = None /\
  (getCurrentUser emulator_device corrupt_world).1 = Throws (SyntaxError_ "JSON Parse error") /\
  (getAuthHeaders emulator_device corrupt_world).1 = Returns json_content_type.
Proof.
  split; [reflexivity|]. split; [reflexivity|].
  apply (corrupt_userData emulator_device "oops" corrupt_world);
    [reflexivity | reflexivity | discriminate | reflexivity].
Defined.

(** An override with a trailing slash. *)
Lemma setApiBaseUrl_overrides_witness :
  Str.trim configured_base <> "" /\
  (setApiBaseUrl emulator_device (JStr configured_base) fresh_world).1
    = Returns "http://10.0.2.2:5000/api" /\
  AsyncStorage (setApiBaseUrl emulator_device (JStr configured_base) fresh_world).2
    !! "lastApiHost" = Some "10.0.2.2:5000".
Proof.
  split; [discriminate|].
  destruct (setApiBaseUrl_overrides emulator_device configured_base fresh_world)
    as (_ & Hr & _ & _ & _ & _ & Hc); [discriminate|].
  split; [exact Hr|]. apply Hc. reflexivity.
Defined.

(** After an override to 10.0.2.2:5000, detection starts there. *)
Lemma override_then_detect_witness :
  envBase emulator_device = None /\
  envHost emulator_device = None /\
  exists d f fs,
    journal (detectApiBaseUrl emulator_device
               (setApiBaseUrl emulator_device
                  (JStr ("http://" +:+ "10.0.2.2:5000" +:+ "/api")) fresh_world).2).2
      = journal (setApiBaseUrl emulator_device
                   (JStr ("http://" +:+ "10.0.2.2:5000" +:+ "/api")) fresh_world).2 ++ d /\
    fetches d = f :: fs /\
    req_url f.1 = "http://" +:+ "10.0.2.2:5000" +:+ "/api/health".
Proof.
  split; [reflexivity|]. split; [reflexivity|].
  apply (override_then_detect emulator_device "10.0.2.2:5000" fresh_world);
    [reflexivity | reflexivity | apply storage_works_sound | discriminate
    | reflexivity | reflexivity].
Defined.
